(** * WebUntis monitor timetable fetcher: a shallow embedding

    The development follows the module that exports
    [getWebUntisTimetable (schoolConfig, options)] and holds
    [renderTimetableConsole] (the listing after the README in
    [src/unnamed/part_000]; line numbers below are those of that file).
    [src/index.mjs] is an earlier draft of the same two functions with the
    school identity as module constants left as placeholders; its date
    codec, error check, filter block and rendering are the same text.

    JavaScript values that reach the program from the caller or from
    [response.json ()] are dynamic, so they are embedded as one inductive
    type of JSON-like values; the built-ins the program calls ([Date],
    [String.prototype.padStart], [parseInt], [Array.prototype.filter],
    [String.prototype.replace] with the pattern of the program, ...) are
    embedded after ECMA-262.

    Conventions of the embedding:
    - a string is held in Rocq's [string], byte by byte in UTF-8.
      Equality, concatenation, the search for [<] and [>], decimal digits
      and percent-encoding are on bytes what they are on JavaScript's code
      units; lengths and indices agree for ASCII text; the order used by
      [sort] is that of the code units ([sortKey] below); a text with a
      lone surrogate has no UTF-8 form ([wellFormed] below says which
      byte sequences are texts);
    - a number is [NaN] or an integer, and an integer prints in plain
      decimal (as JavaScript prints integers below 10^21); fractions and
      infinities do not occur on the paths that are modelled;
    - the conversion to a string is total here; where JavaScript's
      conversion throws or prints otherwise, the value is not
      [convertible] (below), and the facts that depend on the text of a
      value assume that it is;
    - an object is a finite map from property names to values; members
      inherited from a prototype are not values of the model and are
      written out where the program can reach them;
    - the local time zone is a constant offset from UTC;
    - effects (console, network) are threaded through a state-and-exception
      monad [M]. *)

From Stdlib Require Import ZArith Lia Bool Ascii String DecimalString DecimalPos.
From stdpp Require Import gmap strings list fin_maps sorting.

#[local] Set Warnings "-register-all".
#[local] Open Scope Z_scope.

(** ** JavaScript values *)

Inductive number :=
| NaN
| Num (z : Z).

Coercion Num : Z >-> number.

Inductive value :=
| VUndefined
| VNull
| VBool (b : bool)
| VNum (n : number)
| VStr (s : string)
| VArr (elems : list value)
| VObj (props : gmap string value).

(** Exceptions that can be in flight: [new Error (message)] thrown by the
    program, a [TypeError] raised by the engine at the named operation, and
    a rejection that comes from the host ([fetch], [response.text ()],
    [response.json ()]) with its message and its [cause] property. *)
Inductive exn :=
| JsError (message : string)
| TypeError (site : string)
| HostError (message : string) (cause : value).

Inductive completion (A : Type) :=
| Normal (a : A)
| Throw (e : exn).

Arguments Normal {A} a.
Arguments Throw {A} e.

(** ToBoolean. *)
Definition truthy (v : value) : bool :=
  match v with
  | VUndefined | VNull => false
  | VBool b => b
  | VNum NaN => false
  | VNum (Num z) => negb (z =? 0)
  | VStr s => negb (String.eqb s "")
  | VArr _ | VObj _ => true
  end.

(** Number::toString for the numbers of the model. *)
Definition NumberToString (n : number) : string :=
  match n with
  | NaN => "NaN"
  | Num z => NilZero.string_of_int (Z.to_int z)
  end.

(** ToString.  An array is joined with commas ([undefined] and [null]
    elements print as nothing); a plain object prints as
    [[object Object]]. *)
Fixpoint ToString (v : value) : string :=
  match v with
  | VUndefined => "undefined"
  | VNull => "null"
  | VBool true => "true"
  | VBool false => "false"
  | VNum n => NumberToString n
  | VStr s => s
  | VArr l =>
      String.concat ","
        (List.map (fun e => match e with
                            | VUndefined | VNull => ""
                            | _ => ToString e
                            end) l)
  | VObj _ => "[object Object]"
  end.

(** The values on which [ToString] above is JavaScript's ToString.  For
    an object with an own property [toString] - in a JSON-like value it is
    never callable - OrdinaryToPrimitive finds no method that returns a
    primitive (the inherited [valueOf] returns the object itself) and
    throws a TypeError; [join] meets the same objects among the elements
    of an array; an integer from 10^21 on prints with an exponent. *)
Fixpoint convertible (v : value) : bool :=
  match v with
  | VUndefined | VNull | VBool _ | VStr _ => true
  | VNum NaN => true
  | VNum (Num z) => Z.abs z <? 10 ^ 21
  | VArr l => forallb convertible l
  | VObj m => negb (bool_decide (is_Some (m !! "toString")))
  end.

(** [a || b] on values. *)
Definition or_else (a b : value) : value := if truthy a then a else b.

(** Number addition, as far as the program uses it. *)
Definition add (a b : number) : number :=
  match a, b with
  | Num x, Num y => Num (x + y)
  | _, _ => NaN
  end.

(** *** Strings *)

Definition digitValue (c : ascii) : option Z :=
  let n := Z.of_N (N_of_ascii c) in
  if (48 <=? n) && (n <=? 57) then Some (n - 48) else None.

(** The longest prefix of decimal digits. *)
Fixpoint takeDigits (s : string) : list Z :=
  match s with
  | EmptyString => []
  | String c r =>
      match digitValue c with
      | Some d => d :: takeDigits r
      | None => []
      end
  end.

Definition digitsValue (ds : list Z) : Z :=
  fold_left (fun acc d => 10 * acc + d) ds 0.

Definition isWhiteSpace (c : ascii) : bool :=
  let n := Z.of_N (N_of_ascii c) in
  ((9 <=? n) && (n <=? 13)) || (n =? 32).

Fixpoint trimStart (s : string) : string :=
  match s with
  | String c r => if isWhiteSpace c then trimStart r else s
  | EmptyString => EmptyString
  end.

(** [parseInt (s, 10)]: leading white space, an optional sign, then the
    longest run of digits; [NaN] when that run is empty. *)
Definition parseInt (s : string) : number :=
  let s' := trimStart s in
  let '(sign, rest) :=
    match s' with
    | String "-" r => (-1, r)
    | String "+" r => (1, r)
    | _ => (1, s')
    end in
  match takeDigits rest with
  | [] => NaN
  | ds => Num (sign * digitsValue ds)
  end.

Fixpoint repeatChar (n : nat) (c : ascii) : string :=
  match n with
  | O => EmptyString
  | S k => String c (repeatChar k c)
  end.

(** [s.padStart (targetLength, c)] for a one-character fill string. *)
Definition padStart (s : string) (targetLength : nat) (c : ascii) : string :=
  (repeatChar (targetLength - String.length s) c ++ s)%string.

(** A canonical array index: the decimal numeral of a natural number. *)
Definition arrayIndex (k : string) : option nat :=
  match takeDigits k with
  | [] => None
  | ds =>
      let n := digitsValue ds in
      if String.eqb (NumberToString (Num n)) k then Some (Z.to_nat n) else None
  end.

Definition charAt (s : string) (i : nat) : value :=
  match String.get i s with
  | Some c => VStr (String c EmptyString)
  | None => VUndefined
  end.

(** *** Property access

    [getprop v k] is [v[k]] for a property name [k].  Reading a property of
    [undefined] or [null] raises a TypeError.  The program reads data
    properties only ([schoolName], [error], [payload], [rows], [group],
    [length], ...); methods are embedded one by one below. *)
Definition getprop (v : value) (k : string) : completion value :=
  match v with
  | VUndefined | VNull => Throw (TypeError k)
  | VObj m => Normal (default VUndefined (m !! k))
  | VArr l =>
      if String.eqb k "length" then Normal (VNum (Z.of_nat (length l)))
      else match arrayIndex k with
           | Some i => Normal (default VUndefined (l !! i))
           | None => Normal VUndefined
           end
  | VStr s =>
      if String.eqb k "length" then Normal (VNum (Z.of_nat (String.length s)))
      else match arrayIndex k with
           | Some i => Normal (charAt s i)
           | None => Normal VUndefined
           end
  | VBool _ | VNum _ => Normal VUndefined
  end.

Definition isArray (v : value) : bool :=
  match v with
  | VArr _ => true
  | _ => false
  end.

Fixpoint indexed (i : nat) (l : list value) : list (string * value) :=
  match l with
  | [] => []
  | x :: r => (NumberToString (Num (Z.of_nat i)), x) :: indexed (S i) r
  end.

Fixpoint chars (s : string) : list value :=
  match s with
  | EmptyString => []
  | String c r => VStr (String c EmptyString) :: chars r
  end.

(** The own enumerable properties an object spread [{...v}] copies. *)
Definition ownProps (v : value) : gmap string value :=
  match v with
  | VObj m => m
  | VArr l => list_to_map (indexed 0 l)
  | VStr s => list_to_map (indexed 0 (chars s))
  | _ => ∅
  end.

(** [xs.includes (v)] for an array of strings [xs]: SameValueZero holds
    between a string and [v] exactly when [v] is that string. *)
Definition includes (xs : list string) (v : value) : bool :=
  match v with
  | VStr s => bool_decide (s ∈ xs)
  | _ => false
  end.

(** [xs.includes (s)] for an array of values and a string [s]. *)
Definition arrayIncludes (xs : list value) (s : string) : bool :=
  existsb (fun x => match x with
                    | VStr t => String.eqb t s
                    | _ => false
                    end) xs.

(** [s.includes (t)]: [t] occurs in [s] as a substring. *)
Fixpoint stringIncludes (s t : string) : bool :=
  String.prefix t s ||
  match s with
  | EmptyString => false
  | String _ r => stringIncludes r t
  end.

(** ** The Date built-in (ECMA-262, "Date Objects")

    A time value is a number of milliseconds since the epoch, or NaN.  The
    local time zone is a constant offset [tza] (LocalTZA); daylight-saving
    changes are outside the model. *)

Module JsDate.

Definition msPerDay : Z := 86400000.
Definition maxTime : Z := 8640000000000000.

Definition Day (t : Z) : Z := t / msPerDay.
Definition TimeWithinDay (t : Z) : Z := t mod msPerDay.

Definition DaysInYear (y : Z) : Z :=
  if negb (y mod 4 =? 0) then 365
  else if negb (y mod 100 =? 0) then 366
  else if negb (y mod 400 =? 0) then 365
  else 366.

Definition DayFromYear (y : Z) : Z :=
  365 * (y - 1970) + (y - 1969) / 4 - (y - 1901) / 100 + (y - 1601) / 400.

(** The year of a day number: ECMA-262 asks for the largest [y] with
    [DayFromYear y <= d]; this computes it from the mean year length and
    one correction step ([YearFromDay_largest] below). *)
Definition YearFromDay (d : Z) : Z :=
  let y0 := 1970 + (400 * d) / 146097 in
  if d <? DayFromYear y0 then y0 - 1
  else if DayFromYear (y0 + 1) <=? d then y0 + 1
  else y0.

Definition YearFromTime (t : Z) : Z := YearFromDay (Day t).

Definition InLeapYear (t : Z) : Z :=
  if DaysInYear (YearFromTime t) =? 366 then 1 else 0.

Definition DayWithinYear (t : Z) : Z := Day t - DayFromYear (YearFromTime t).

Definition MonthFromTime (t : Z) : Z :=
  let d := DayWithinYear t in
  let l := InLeapYear t in
  if d <? 31 then 0
  else if d <? 59 + l then 1
  else if d <? 90 + l then 2
  else if d <? 120 + l then 3
  else if d <? 151 + l then 4
  else if d <? 181 + l then 5
  else if d <? 212 + l then 6
  else if d <? 243 + l then 7
  else if d <? 273 + l then 8
  else if d <? 304 + l then 9
  else if d <? 334 + l then 10
  else 11.

Definition DateFromTime (t : Z) : Z :=
  let d := DayWithinYear t in
  let l := InLeapYear t in
  match MonthFromTime t with
  | 0 => d + 1
  | 1 => d - 30
  | 2 => d - 58 - l
  | 3 => d - 89 - l
  | 4 => d - 119 - l
  | 5 => d - 150 - l
  | 6 => d - 180 - l
  | 7 => d - 211 - l
  | 8 => d - 242 - l
  | 9 => d - 272 - l
  | 10 => d - 303 - l
  | _ => d - 333 - l
  end.

(** Day within the year on which month [mn] (0 to 11) starts. *)
Definition monthStart (mn l : Z) : Z :=
  match mn with
  | 0 => 0
  | 1 => 31
  | 2 => 59 + l
  | 3 => 90 + l
  | 4 => 120 + l
  | 5 => 151 + l
  | 6 => 181 + l
  | 7 => 212 + l
  | 8 => 243 + l
  | 9 => 273 + l
  | 10 => 304 + l
  | _ => 334 + l
  end.

(** MakeDay: the day number of the first of month [mn] of year [ym],
    moved by [date - 1] days. *)
Definition MakeDay (year month date : Z) : Z :=
  let ym := year + month / 12 in
  let mn := month mod 12 in
  let l := if DaysInYear ym =? 366 then 1 else 0 in
  DayFromYear ym + monthStart mn l + date - 1.

Definition MakeDate (day time : Z) : Z := day * msPerDay + time.

Definition LocalTime (tza t : Z) : Z := t + tza.
Definition UTC (tza t : Z) : Z := t - tza.

(** A Date object, by its time value. *)
Inductive Date :=
| InvalidDate
| DateAt (tv : Z).

Definition TimeClip (t : Z) : Date :=
  if Z.abs t <=? maxTime then DateAt t else InvalidDate.

(** [new Date (d)] for a Date [d]: a fresh object with the same time
    value. *)
Definition newDate (d : Date) : Date := d.

Definition getFullYear (tza : Z) (d : Date) : number :=
  match d with
  | InvalidDate => NaN
  | DateAt tv => Num (YearFromTime (LocalTime tza tv))
  end.

Definition getMonth (tza : Z) (d : Date) : number :=
  match d with
  | InvalidDate => NaN
  | DateAt tv => Num (MonthFromTime (LocalTime tza tv))
  end.

Definition getDate (tza : Z) (d : Date) : number :=
  match d with
  | InvalidDate => NaN
  | DateAt tv => Num (DateFromTime (LocalTime tza tv))
  end.

(** [d.setDate (dt)]: the Date after the call. *)
Definition setDate (tza : Z) (d : Date) (dt : number) : Date :=
  match d, dt with
  | DateAt tv, Num dtz =>
      let t := LocalTime tza tv in
      let newDate :=
        MakeDate (MakeDay (YearFromTime t) (MonthFromTime t) dtz)
                 (TimeWithinDay t) in
      TimeClip (UTC tza newDate)
  | _, _ => InvalidDate
  end.

End JsDate.

Import JsDate.

(** ** Date codec of the program *)

(** [getUntisDate (dateObject)] (lines 166-171). *)
Definition getUntisDate (tza : Z) (dateObject : Date) : number :=
  let year := getFullYear tza dateObject in
  let month := padStart (NumberToString (add (getMonth tza dateObject) 1)) 2 "0" in
  let day := padStart (NumberToString (getDate tza dateObject)) 2 "0" in
  parseInt (NumberToString year ++ month ++ day)%string.

(** The query date (lines 253-254):
    [queryDate = new Date (targetDate);
     queryDate.setDate (queryDate.getDate () + dateOffset)]. *)
Definition queryDateOf (tza : Z) (targetDate : Date) (dateOffset : number) : Date :=
  let queryDate := newDate targetDate in
  setDate tza queryDate (add (getDate tza queryDate) dateOffset).

(** ** Calendar dates as the specification speaks of them *)

Module Civil.

Record date := mkDate { year : Z; month : Z; day : Z }.

Definition isLeapYear (y : Z) : bool :=
  ((y mod 4 =? 0) && negb (y mod 100 =? 0)) || (y mod 400 =? 0).

Definition daysInMonth (y m : Z) : Z :=
  match m with
  | 2 => if isLeapYear y then 29 else 28
  | 4 | 6 | 9 | 11 => 30
  | _ => 31
  end.

Definition valid (c : date) : Prop :=
  1 <= month c <= 12 /\ 1 <= day c <= daysInMonth (year c) (month c).

(** The day after, with month and year rollover. *)
Definition nextDay (c : date) : date :=
  if day c <? daysInMonth (year c) (month c)
  then mkDate (year c) (month c) (day c + 1)
  else if month c <? 12
  then mkDate (year c) (month c + 1) 1
  else mkDate (year c + 1) 1 1.

(** The day before. *)
Definition prevDay (c : date) : date :=
  if 1 <? day c
  then mkDate (year c) (month c) (day c - 1)
  else if 1 <? month c
  then mkDate (year c) (month c - 1) (daysInMonth (year c) (month c - 1))
  else mkDate (year c - 1) 12 31.

(** [k] days later ([k] may be negative). *)
Definition addDays (c : date) (k : Z) : date :=
  if 0 <=? k then Nat.iter (Z.to_nat k) nextDay c
  else Nat.iter (Z.to_nat (- k)) prevDay c.

(** Year, month and day written one after the other: YYYYMMDD. *)
Definition encode (c : date) : Z := year c * 10000 + month c * 100 + day c.

End Civil.

(** The calendar date of a local time: what [getFullYear],
    [getMonth () + 1] and [getDate] return. *)
Definition localFields (t : Z) : Civil.date :=
  Civil.mkDate (YearFromTime t) (MonthFromTime t + 1) (DateFromTime t).

(** The local calendar date of the Date object with time value [tv]. *)
Definition civilOf (tza tv : Z) : Civil.date := localFields (LocalTime tza tv).

(** Two-digit rendering, checked digit by digit (used to enumerate the
    month and day numerals). *)
Definition twoDigitsOk (n : Z) : bool :=
  match padStart (NumberToString (Num n)) 2 "0" with
  | String a (String b EmptyString) =>
      bool_decide (digitValue a = Some (n / 10) /\ digitValue b = Some (n mod 10))
  | _ => false
  end.


(** ** Console, network and the monad of the program *)

Inductive channel :=
| ChanLog
| ChanError.

Inductive logarg :=
| LStr (s : string)
| LVal (v : value).

(** One call of [console.log] or [console.error] with its arguments. *)
Record entry := mkEntry { chan : channel; args : list logarg }.

(** A request as handed to [fetch]; [body] is the object that
    [JSON.stringify] serialises. *)
Record Request := mkRequest {
  url : string;
  method : string;
  headers : list (string * string);
  body : gmap string value
}.

(** A response: its status, and what [response.text ()] and
    [response.json ()] settle to. *)
Record Response := mkResponse {
  status : Z;
  text : completion string;
  json : completion value
}.

(** [response.ok]. *)
Definition ok (r : Response) : bool := (200 <=? status r) && (status r <=? 299).

Inductive FetchOutcome :=
| Rejected (e : exn)
| Responded (r : Response).

(** What the host decides: the clock, the time zone, the network, and the
    texts of [toLocaleDateString], [JSON.stringify (v, null, 2)] and of the
    engine's TypeError messages. *)
Record Host := mkHost {
  now : Date;
  LocalTZA : Z;
  fetch : Request -> FetchOutcome;
  toLocaleDateString : Date -> string;
  JSON_stringify : value -> string;
  typeErrorMessage : string -> string
}.

(** The state a call can touch: the object bound to the module constant
    [BASE_MONITOR_PAYLOAD_TEMPLATE], the console, and the requests sent. *)
Record World := mkWorld {
  moduleTemplate : gmap string value;
  console : list entry;
  requests : list Request
}.

Definition M (A : Type) : Type := World -> completion A * World.

#[global] Instance completion_ret : MRet completion := fun A a => Normal a.

#[global] Instance completion_bind : MBind completion := fun A B k c =>
  match c with
  | Normal a => k a
  | Throw e => Throw e
  end.

#[global] Instance M_ret : MRet M := fun A a w => (Normal a, w).

#[global] Instance M_bind : MBind M := fun A B k m w =>
  match m w with
  | (Normal a, w') => k a w'
  | (Throw e, w') => (Throw e, w')
  end.

Definition lift {A} (c : completion A) : M A := fun w => (c, w).

Definition throw {A} (e : exn) : M A := fun w => (Throw e, w).

Definition try_catch {A} (block : M A) (handler : exn -> M A) : M A := fun w =>
  match block w with
  | (Throw e, w') => handler e w'
  | r => r
  end.

Definition console_log (a : list logarg) : M unit := fun w =>
  (Normal tt, mkWorld (moduleTemplate w) (console w ++ [mkEntry ChanLog a]) (requests w)).

Definition console_error (a : list logarg) : M unit := fun w =>
  (Normal tt, mkWorld (moduleTemplate w) (console w ++ [mkEntry ChanError a]) (requests w)).

Definition readTemplate : M (gmap string value) := fun w =>
  (Normal (moduleTemplate w), w).

(** [await fetch (url, init)]: the request goes out, then the promise
    settles. *)
Definition await_fetch (host : Host) (req : Request) : M Response := fun w =>
  let w' := mkWorld (moduleTemplate w) (console w) (requests w ++ [req]) in
  match fetch host req with
  | Rejected e => (Throw e, w')
  | Responded r => (Normal r, w')
  end.

(** [error.message] and [error.cause]. *)
Definition message_of (host : Host) (e : exn) : string :=
  match e with
  | JsError m => m
  | TypeError site => typeErrorMessage host site
  | HostError m _ => m
  end.

Definition cause_of (e : exn) : value :=
  match e with
  | HostError _ c => c
  | _ => VUndefined
  end.

(** *** Built-ins on arrays and strings with callbacks *)

Fixpoint filterM (f : value -> completion bool) (l : list value)
  : completion (list value) :=
  match l with
  | [] => Normal []
  | x :: r =>
      b ← f x;
      r' ← filterM f r;
      Normal (if b : bool then x :: r' else r')
  end.

(** [v.filter (f)]; only an array has the method. *)
Definition array_filter (v : value) (f : value -> completion bool)
  : completion value :=
  match v with
  | VArr l => l' ← filterM f l; Normal (VArr l')
  | _ => Throw (TypeError "filter")
  end.

Fixpoint reduceM {A} (f : A -> value -> completion A) (l : list value) (a : A)
  : completion A :=
  match l with
  | [] => Normal a
  | x :: r => a' ← f a x; reduceM f r a'
  end.

Fixpoint forEachM (f : value -> M unit) (l : list value) : M unit :=
  match l with
  | [] => mret tt
  | x :: r => f x;; forEachM f r
  end.

Definition hexDigit (n : N) : ascii :=
  ascii_of_N (if (n <? 10)%N then 48 + n else 55 + n)%N.

Definition isUnreserved (c : ascii) : bool :=
  let n := Z.of_N (N_of_ascii c) in
  ((48 <=? n) && (n <=? 57)) || ((65 <=? n) && (n <=? 90)) ||
  ((97 <=? n) && (n <=? 122)) ||
  bool_decide (c ∈ ["-"; "_"; "."; "!"; "~"; "*"; "'"; "("; ")"]%char).

(** [encodeURIComponent] on the code units of the model. *)
Fixpoint encodeURIComponent (s : string) : string :=
  match s with
  | EmptyString => EmptyString
  | String c r =>
      if isUnreserved c then String c (encodeURIComponent r)
      else String "%" (String (hexDigit (N_of_ascii c / 16))
             (String (hexDigit (N_of_ascii c mod 16)) (encodeURIComponent r)))
  end.

(** ** The module constants *)

Definition API_BASE_URL : string := "https://nessa.webuntis.com".
Definition CONTEXT_PATH : string := "/WebUntis".
Definition ENDPOINT : string := "monitor/substitution/data".

Definition VTrue : value := VBool true.
Definition VFalse : value := VBool false.

(** The flag block (lines 180-215), as written. *)
Definition BASE_MONITOR_PAYLOAD_TEMPLATE_entries : list (string * value) :=
  [ ("strikethrough", VTrue);
    ("mergeBlocks", VTrue);
    ("showOnlyFutureSub", VFalse);
    ("showBreakSupervisions", VTrue);
    ("showTeacher", VTrue);
    ("showClass", VFalse);
    ("showHour", VTrue);
    ("showInfo", VTrue);
    ("showRoom", VTrue);
    ("showSubject", VTrue);
    ("groupBy", VNum 1);
    ("hideAbsent", VTrue);
    ("departmentElementType", VNum 1);
    ("hideCancelWithSubstitution", VTrue);
    ("hideCancelCausedByEvent", VFalse);
    ("showTime", VFalse);
    ("showSubstText", VTrue);
    ("showAbsentElements", VArr [VNum 2]);
    ("showAffectedElements", VArr []);
    ("showUnitTime", VTrue);
    ("showMessages", VTrue);
    ("showStudentgroup", VFalse);
    ("enableSubstitutionFrom", VFalse);
    ("showSubstitutionFrom", VNum 0);
    ("showTeacherOnEvent", VFalse);
    ("showAbsentTeacher", VFalse);
    ("strikethroughAbsentTeacher", VTrue);
    ("activityTypeIds", VArr []);
    ("showEvent", VTrue);
    ("showCancel", VTrue);
    ("showOnlyCancel", VFalse);
    ("showSubstTypeColor", VFalse);
    ("showExamSupervision", VFalse);
    ("showUnheraldedExams", VFalse) ].

Definition BASE_MONITOR_PAYLOAD_TEMPLATE : gmap string value :=
  list_to_map BASE_MONITOR_PAYLOAD_TEMPLATE_entries.

(** The world when the module has been loaded. *)
Definition initialWorld : World := mkWorld BASE_MONITOR_PAYLOAD_TEMPLATE [] [].

(** ** [getWebUntisTimetable] *)

(** TimetableQueryOptions; [None] is a property left [undefined]. *)
Record TimetableQueryOptions := mkOptions {
  opt_targetDate : option Date;
  opt_dateOffset : option Z;
  opt_numberOfDays : option Z;
  opt_filterGroups : option (list string)
}.


(** The condition of the validation at line 247:
    [!schoolConfig || !schoolConfig.schoolName || !schoolConfig.formatName
     || !Array.isArray (schoolConfig.departmentIds)]. *)
Definition invalidConfig (schoolConfig : value) : completion bool :=
  if negb (truthy schoolConfig) then Normal true
  else
    schoolName ← getprop schoolConfig "schoolName";
    if negb (truthy schoolName) then Normal true
    else
      formatName ← getprop schoolConfig "formatName";
      if negb (truthy formatName) then Normal true
      else
        departmentIds ← getprop schoolConfig "departmentIds";
        Normal (negb (isArray departmentIds)).

(** The object literal of lines 258-266: the template spread first, then
    the six properties written after it. *)
Definition buildPayload (tpl : gmap string value)
    (schoolName formatName departmentIds : value)
    (untisDate : number) (dateOffset numberOfDays : Z) : gmap string value :=
  <["numberOfDays" := VNum numberOfDays]>
    (<["dateOffset" := VNum dateOffset]>
      (<["date" := VNum untisDate]>
        (<["departmentIds" := departmentIds]>
          (<["formatName" := formatName]>
            (<["schoolName" := schoolName]> tpl))))).

Definition requestHeaders : list (string * string) :=
  [ ("Content-Type", "application/json");
    ("Accept", "*/*");
    ("X-Requested-With", "XMLHttpRequest") ].

Definition newline : string := String (ascii_of_nat 10) EmptyString.

(** The filter block (lines 310-314). *)
Definition filterRows (data : value) (filterGroups : option (list string))
  : completion value :=
  payload ← getprop data "payload";
  filteredRows ← getprop payload "rows";
  match filterGroups with
  | Some ((_ :: _) as groups) =>
      payload ← getprop data "payload";
      rows ← getprop payload "rows";
      array_filter rows (fun row =>
        group ← getprop row "group";
        Normal (includes groups group))
  | _ => Normal filteredRows
  end.

(** The object literal of lines 316-320. *)
Definition processPayload (data filteredRows : value) : completion value :=
  payload ← getprop data "payload";
  payload' ← getprop data "payload";
  absentElements ← getprop payload' "absentElements";
  Normal (VObj (<["absentElements" := absentElements]>
                 (<["rows" := filteredRows]> (ownProps payload)))).

(** The statements of the [try] block after the response has arrived
    (lines 293-324). *)
Definition handleResponse (response : Response)
    (filterGroups : option (list string)) : M value :=
  (if negb (ok response) then
     errorText ← lift (text response);
     console_error
       [LStr ("HTTP-Fehler! Status: " ++ NumberToString (status response))];;
     console_error [LStr ("Fehlerdetails: " ++ errorText)];;
     throw (JsError ("HTTP Error: " ++ NumberToString (status response)
                       ++ " - " ++ errorText))
   else mret tt);;
  data ← lift (json response);
  error ← lift (getprop data "error");
  (if truthy error then
     error1 ← lift (getprop data "error");
     message ← lift (getprop error1 "message");
     error2 ← lift (getprop data "error");
     code ← lift (getprop error2 "code");
     console_error
       [LStr ("WebUntis API Fehler: " ++ ToString message
                ++ " (Code: " ++ ToString code ++ ")")];;
     error3 ← lift (getprop data "error");
     message' ← lift (getprop error3 "message");
     throw (JsError ("WebUntis API Fehler: " ++ ToString message'))
   else mret tt);;
  console_log [LStr "--- Erfolg ---"];;
  console_log [LStr "Daten erfolgreich abgerufen."];;
  filteredRows ← lift (filterRows data filterGroups);
  lift (processPayload data filteredRows).

(** The [try] block (lines 283-324). *)
Definition tryBlock (host : Host) (requestUrl : string)
    (payload : gmap string value) (filterGroups : option (list string))
  : M value :=
  response ← await_fetch host (mkRequest requestUrl "POST" requestHeaders payload);
  handleResponse response filterGroups.

(** The [catch] clause (lines 325-331). *)
Definition catchBlock (host : Host) (error : exn) : M value :=
  console_error [LStr "Ein Fehler ist aufgetreten:"; LStr (message_of host error)];;
  (if truthy (cause_of error)
   then console_error [LStr "Ursprünglicher Fehlergrund:"; LVal (cause_of error)]
   else mret tt);;
  mret VNull.

Definition getWebUntisTimetable (host : Host) (schoolConfig : value)
    (options : TimetableQueryOptions) : M value :=
  let targetDate := default (now host) (opt_targetDate options) in
  let dateOffset := default 0 (opt_dateOffset options) in
  let numberOfDays := default 1 (opt_numberOfDays options) in
  let filterGroups := opt_filterGroups options in
  invalid ← lift (invalidConfig schoolConfig);
  if invalid : bool then
    console_error [LStr "Fehler: Ungültige Schulkonfiguration bereitgestellt."];;
    mret VNull
  else
    let queryDate := queryDateOf (LocalTZA host) targetDate dateOffset in
    let untisDate := getUntisDate (LocalTZA host) queryDate in
    tpl ← readTemplate;
    schoolName ← lift (getprop schoolConfig "schoolName");
    formatName ← lift (getprop schoolConfig "formatName");
    departmentIds ← lift (getprop schoolConfig "departmentIds");
    let payload :=
      buildPayload tpl schoolName formatName departmentIds
                   untisDate dateOffset numberOfDays in
    schoolName' ← lift (getprop schoolConfig "schoolName");
    let requestUrl :=
      (API_BASE_URL ++ CONTEXT_PATH ++ "/" ++ ENDPOINT ++ "?school="
         ++ encodeURIComponent (ToString schoolName'))%string in
    console_log [LStr (newline ++ "--- Anfrage-Details ---")];;
    console_log
      [LStr ("Abfrage für: " ++ toLocaleDateString host queryDate
               ++ " (" ++ NumberToString numberOfDays ++ " Tag(e))")];;
    (match filterGroups with
     | Some ((_ :: _) as groups) =>
         console_log
           [LStr ("Filter für Klassen/Kurse: " ++ String.concat ", " groups)]
     | _ => console_log [LStr "Keine Klassen/Kurse gefiltert (alle anzeigen)."]
     end);;
    console_log [LStr ("Anfrage-URL: " ++ requestUrl)];;
    console_log [LStr "Gesendeter Payload:"; LStr (JSON_stringify host (VObj payload))];;
    console_log [LStr ("--- Ende Anfrage-Details ---" ++ newline)];;
    try_catch (tryBlock host requestUrl payload filterGroups) (catchBlock host).

(** ** [renderTimetableConsole] *)

(** The names an object literal [{}] inherits from [Object.prototype]:
    reading one of them from the accumulator below yields a function (or,
    for [__proto__], the prototype object), never [undefined]. *)
Definition objectPrototypeKeys : list string :=
  [ "constructor"; "hasOwnProperty"; "isPrototypeOf"; "propertyIsEnumerable";
    "toLocaleString"; "toString"; "valueOf"; "__proto__";
    "__defineGetter__"; "__defineSetter__"; "__lookupGetter__";
    "__lookupSetter__" ].

Definition unknownGroup : string := "Unbekannte Gruppe".

(** [row.group || 'Unbekannte Gruppe'], as the property name it is used
    for. *)
Definition groupNameOf (group : value) : string :=
  ToString (or_else group (VStr unknownGroup)).

(** The callback of [reduce] (lines 352-359).  [acc] holds the own
    properties of the accumulator, each an array of rows.  When
    [acc[groupName]] is an inherited member, it is truthy, no array is
    stored, and [push] is not a function. *)
Definition groupStep (acc : gmap string (list value)) (row : value)
  : completion (gmap string (list value)) :=
  group ← getprop row "group";
  let groupName := groupNameOf group in
  match acc !! groupName with
  | Some bucket => Normal (<[groupName := bucket ++ [row]]> acc)
  | None =>
      if bool_decide (groupName ∈ objectPrototypeKeys)
      then Throw (TypeError "push")
      else Normal (<[groupName := [row]]> acc)
  end.

(** [rows.reduce (..., {})]. *)
Definition groupedTimetable (rows : value)
  : completion (gmap string (list value)) :=
  match rows with
  | VArr l => reduceM groupStep l ∅
  | _ => Throw (TypeError "reduce")
  end.

(** The order of [Array.prototype.sort] without a comparator: strings are
    compared by UTF-16 code units.  On UTF-8 bytes this is the comparison
    byte by byte, except that a character above U+FFFF (a surrogate pair
    in UTF-16; lead byte F0 to F4 in UTF-8) comes before the characters
    from U+E000 to U+FFFF (lead bytes EE and EF).  [sortByte] therefore
    exchanges EE and EF with FE and FF, two bytes that no text holds, and
    the keys are compared byte by byte. *)
Definition sortByte (c : ascii) : ascii :=
  let n := N_of_ascii c in
  if (n =? 238)%N then ascii_of_N 254
  else if (n =? 239)%N then ascii_of_N 255
  else if (n =? 254)%N then ascii_of_N 238
  else if (n =? 255)%N then ascii_of_N 239
  else c.

Fixpoint sortKey (s : string) : string :=
  match s with
  | EmptyString => EmptyString
  | String c r => String (sortByte c) (sortKey r)
  end.

Definition str_le (s t : string) : Prop := String.leb (sortKey s) (sortKey t) = true.

#[global] Instance str_le_dec s t : Decision (str_le s t) :=
  decide (String.leb (sortKey s) (sortKey t) = true).

(** [Object.keys (groupedTimetable).sort ()].  The own keys are distinct,
    so the sorted array does not depend on the order [Object.keys] lists
    them in. *)
Definition sortedGroupNames (grouped : gmap string (list value)) : list string :=
  merge_sort str_le (map fst (map_to_list grouped)).

(** The groups in the order they are printed, each with its rows. *)
Definition groupsInOrder (rows : value)
  : completion (list (string * list value)) :=
  grouped ← groupedTimetable rows;
  Normal (map (fun groupName => (groupName, default [] (grouped !! groupName)))
              (sortedGroupNames grouped)).

(** [const [stunde, fach, raum, lehrer, info] = data]. *)
Definition destructure5 (data : value)
  : completion (value * value * value * value * value) :=
  let pick (l : list value) :=
    (default VUndefined (l !! 0%nat), default VUndefined (l !! 1%nat),
     default VUndefined (l !! 2%nat), default VUndefined (l !! 3%nat),
     default VUndefined (l !! 4%nat)) in
  match data with
  | VArr l => Normal (pick l)
  | VStr s => Normal (pick (chars s))
  | _ => Throw (TypeError "iterator")
  end.

(** Length of the match of [<[^>]*>] when the text after the [<] is [s]:
    the characters up to and with the first [>]. *)
Fixpoint closeAt (s : string) : option nat :=
  match s with
  | EmptyString => None
  | String c r => if Ascii.eqb c ">" then Some 1%nat else S <$> closeAt r
  end.

(** Length of the match of [<[^>]*>] at the start of [s], if it matches. *)
Definition matchTag (s : string) : option nat :=
  match s with
  | String c r => if Ascii.eqb c "<" then S <$> closeAt r else None
  | EmptyString => None
  end.

(** [s.replace (/<[^>]*>/g, '')]: at each index the pattern is tried; a
    match is dropped and the scan goes on behind it, else the character is
    kept.  [skip] counts the characters of a match still to drop. *)
Fixpoint replaceTagsFrom (skip : nat) (s : string) : string :=
  match s with
  | EmptyString => EmptyString
  | String c r =>
      match skip with
      | S k => replaceTagsFrom k r
      | O =>
          match matchTag s with
          | Some (S n) => replaceTagsFrom n r
          | _ => String c (replaceTagsFrom 0 r)
          end
      end
  end.

Definition replaceTags (s : string) : string := replaceTagsFrom 0 s.

(** [info ? info.replace (/<[^>]*>/g, '') : ''] (line 372). *)
Definition cleanInfo (info : value) : completion string :=
  if truthy info then
    match info with
    | VStr s => Normal (replaceTags s)
    | _ => Throw (TypeError "replace")
    end
  else Normal EmptyString.

Definition cancelStyle : string := "cancelStyle".

(** [row.cellClasses && row.cellClasses['1'] &&
     row.cellClasses['1'].includes ('cancelStyle')] (line 375), as the
    condition of the [if]. *)
Definition isCancelled (row : value) : completion bool :=
  cellClasses ← getprop row "cellClasses";
  if negb (truthy cellClasses) then Normal false
  else
    cell ← getprop cellClasses "1";
    if negb (truthy cell) then Normal false
    else
      match cell with
      | VArr tags => Normal (arrayIncludes tags cancelStyle)
      | VStr s => Normal (stringIncludes s cancelStyle)
      | _ => Throw (TypeError "includes")
      end.

Definition orNA (v : value) : string := ToString (or_else v (VStr "N/A")).

(** The line printed for one row (lines 371-377). *)
Definition rowString (row : value) : completion string :=
  data ← getprop row "data";
  '(stunde, fach, raum, lehrer, info) ← destructure5 data;
  cleaned ← cleanInfo info;
  let line :=
    ("  " ++ orNA stunde ++ " | " ++ orNA fach ++ " | " ++ orNA raum
          ++ " | " ++ orNA lehrer)%string in
  let line :=
    if truthy (VStr cleaned) then (line ++ " | Info: " ++ cleaned)%string
    else line in
  cancelled ← isCancelled row;
  Normal (if cancelled : bool then (line ++ " (ENTFÄLLT)")%string else line).

(** [v.length > 0] for a [length] that is a number.  A [length] of another
    type is compared after ToNumber, which the number model does not
    cover; it counts as not positive here (only an object with an own
    [length] property of that kind is concerned). *)
Definition lengthPositive (v : value) : completion bool :=
  len ← getprop v "length";
  Normal (match len with
          | VNum (Num n) => 0 <? n
          | _ => false
          end).

(** [absent.absences[0]?.type]. *)
Definition firstAbsenceType (absent : value) : completion value :=
  absences ← getprop absent "absences";
  first ← getprop absences "0";
  match first with
  | VUndefined | VNull => Normal VUndefined
  | _ => getprop first "type"
  end.

Definition printAbsent (absent : value) : M unit :=
  elementName ← lift (getprop absent "elementName");
  type ← lift (firstAbsenceType absent);
  console_log
    [LStr ("- " ++ ToString (or_else elementName (VStr "Unbekannt"))
             ++ " (" ++ orNA type ++ ")")].

Definition printRow (row : value) : M unit :=
  line ← lift (rowString row);
  console_log [LStr line].

Definition printGroup (grouped : gmap string (list value)) (groupName : string)
  : M unit :=
  console_log [LStr (newline ++ "--- Klasse: " ++ groupName ++ " ---")];;
  forEachM printRow (default [] (grouped !! groupName)).

Fixpoint forEachName (f : string -> M unit) (l : list string) : M unit :=
  match l with
  | [] => mret tt
  | x :: r => f x;; forEachName f r
  end.

(** The test of line 341:
    [!payloadData || !payloadData.rows || payloadData.rows.length === 0]. *)
Definition nothingToShow (payloadData : value) : completion bool :=
  if negb (truthy payloadData) then Normal true
  else
    rows ← getprop payloadData "rows";
    if negb (truthy rows) then Normal true
    else
      rows' ← getprop payloadData "rows";
      len ← getprop rows' "length";
      Normal (match len with
              | VNum (Num 0) => true
              | _ => false
              end).

Definition renderTimetableConsole (payloadData : value)
    (filterApplied : option (list string)) : M unit :=
  nothing ← lift (nothingToShow payloadData);
  if nothing : bool then
    console_log
      [LStr "Keine Stundenplan-Daten für diesen Tag oder die gewählten Filter gefunden."]
  else
    console_log [LStr (newline ++ "--- Stundenplan-Details ---")];;
    lastUpdate ← lift (getprop payloadData "lastUpdate");
    console_log [LStr ("Zuletzt aktualisiert: " ++ ToString lastUpdate)];;
    (match filterApplied with
     | Some ((_ :: _) as groups) =>
         console_log
           [LStr ("(Anzeige gefiltert für: " ++ String.concat ", " groups ++ ")")]
     | _ => mret tt
     end);;
    rows ← lift (getprop payloadData "rows");
    grouped ← lift (groupedTimetable rows);
    let names := sortedGroupNames grouped in
    if bool_decide (length names = 0%nat) then
      console_log [LStr "Nach Filterung keine Einträge gefunden."]
    else
      forEachName (printGroup grouped) names;;
      absentElements ← lift (getprop payloadData "absentElements");
      show ← (if truthy absentElements
              then lift (lengthPositive absentElements)
              else mret false);
      if show : bool then
        console_log
          [LStr (newline ++ "--- Abwesende Lehrer/Elemente (ungfiltert) ---")];;
        match absentElements with
        | VArr l => forEachM printAbsent l
        | _ => throw (TypeError "forEach")
        end
      else mret tt.

(** ** Closed forms and the notions of the specification *)

(** A property read that cannot raise: [v[k]] for a [v] known not to be
    [undefined] or [null]. *)
Definition field (v : value) (k : string) : value :=
  match getprop v k with
  | Normal x => x
  | Throw _ => VUndefined
  end.

Definition dateOffsetOf (options : TimetableQueryOptions) : Z :=
  default 0 (opt_dateOffset options).

Definition numberOfDaysOf (options : TimetableQueryOptions) : Z :=
  default 1 (opt_numberOfDays options).

Definition queryDateFor (host : Host) (options : TimetableQueryOptions) : Date :=
  queryDateOf (LocalTZA host) (default (now host) (opt_targetDate options))
              (Num (dateOffsetOf options)).

Definition requestUrlFor (schoolConfig : value) : string :=
  (API_BASE_URL ++ CONTEXT_PATH ++ "/" ++ ENDPOINT ++ "?school="
     ++ encodeURIComponent (ToString (field schoolConfig "schoolName")))%string.

(** The request a call sends when the configuration passes the
    validation. *)
Definition requestFor (host : Host) (tpl : gmap string value)
    (schoolConfig : value) (options : TimetableQueryOptions) : Request :=
  mkRequest (requestUrlFor schoolConfig) "POST" requestHeaders
    (buildPayload tpl
       (field schoolConfig "schoolName") (field schoolConfig "formatName")
       (field schoolConfig "departmentIds")
       (getUntisDate (LocalTZA host) (queryDateFor host options))
       (dateOffsetOf options) (numberOfDaysOf options)).

(** The console lines printed before the request (lines 271-280). *)
Definition announcement (host : Host) (tpl : gmap string value)
    (schoolConfig : value) (options : TimetableQueryOptions) : list entry :=
  [ mkEntry ChanLog [LStr (newline ++ "--- Anfrage-Details ---")];
    mkEntry ChanLog
      [LStr ("Abfrage für: " ++ toLocaleDateString host (queryDateFor host options)
               ++ " (" ++ NumberToString (numberOfDaysOf options) ++ " Tag(e))")];
    mkEntry ChanLog
      [LStr (match opt_filterGroups options with
             | Some ((_ :: _) as groups) =>
                 "Filter für Klassen/Kurse: " ++ String.concat ", " groups
             | _ => "Keine Klassen/Kurse gefiltert (alle anzeigen)."
             end)];
    mkEntry ChanLog [LStr ("Anfrage-URL: " ++ requestUrlFor schoolConfig)];
    mkEntry ChanLog
      [LStr "Gesendeter Payload:";
       LStr (JSON_stringify host
               (VObj (body (requestFor host tpl schoolConfig options))))];
    mkEntry ChanLog [LStr ("--- Ende Anfrage-Details ---" ++ newline)] ].

(** The world in which the [try] block starts. *)
Definition announced (host : Host) (schoolConfig : value)
    (options : TimetableQueryOptions) (w : World) : World :=
  mkWorld (moduleTemplate w)
          (console w ++ announcement host (moduleTemplate w) schoolConfig options)
          (requests w).

(** The configuration error line. *)
Definition configErrorEntry : entry :=
  mkEntry ChanError [LStr "Fehler: Ungültige Schulkonfiguration bereitgestellt."].

(** The byte sequences that are texts: well-formed UTF-8 (Unicode, table
    3-7).  The bytes ED A0..BF .., which would stand for a surrogate, are
    not: a JavaScript string with a lone surrogate has no UTF-8 form, and
    [encodeURIComponent] raises a URIError on it. *)
Definition byteIn (c : ascii) (lo hi : N) : bool :=
  ((lo <=? N_of_ascii c) && (N_of_ascii c <=? hi))%N.

Definition lead3 (a b : ascii) : bool :=
  (byteIn a 224 224 && byteIn b 160 191) ||
  (byteIn a 225 236 && byteIn b 128 191) ||
  (byteIn a 237 237 && byteIn b 128 159) ||
  (byteIn a 238 239 && byteIn b 128 191).

Definition lead4 (a b : ascii) : bool :=
  (byteIn a 240 240 && byteIn b 144 191) ||
  (byteIn a 241 243 && byteIn b 128 191) ||
  (byteIn a 244 244 && byteIn b 128 143).

Fixpoint wellFormed (s : string) : bool :=
  match s with
  | EmptyString => true
  | String a r1 =>
      if byteIn a 0 127 then wellFormed r1
      else
        match r1 with
        | EmptyString => false
        | String b r2 =>
            if byteIn a 194 223 then byteIn b 128 191 && wellFormed r2
            else
              match r2 with
              | EmptyString => false
              | String c r3 =>
                  if lead3 a b then byteIn c 128 191 && wellFormed r3
                  else
                    match r3 with
                    | EmptyString => false
                    | String d r4 =>
                        lead4 a b && byteIn c 128 191 && byteIn d 128 191
                        && wellFormed r4
                    end
              end
        end
  end.

(** A value that line 269 can put into the URL: its conversion to a
    string does not throw, and the string is a text, so that
    [encodeURIComponent] does not raise a URIError.  Line 269 stands
    before the [try]: for another [schoolName] the exception leaves the
    call, and no request is sent. *)
Definition urlSafe (v : value) : Prop :=
  convertible v = true /\ wellFormed (ToString v) = true.

Definition Sendable (schoolConfig : value) : Prop :=
  urlSafe (field schoolConfig "schoolName").

(** What the validation of line 247 rejects. *)
Definition IdentityRejected (schoolConfig : value) : Prop :=
  truthy schoolConfig = false \/
  truthy (field schoolConfig "schoolName") = false \/
  truthy (field schoolConfig "formatName") = false \/
  isArray (field schoolConfig "departmentIds") = false.

Definition isInteger (v : value) : Prop :=
  exists z, v = VNum (Num z).

(** A school identity as the specification words it: the three fields
    present, the two names non-empty strings, [departmentIds] a sequence of
    integers. *)
Definition SpecIdentity (schoolConfig : value) : Prop :=
  exists m schoolName formatName ids,
    schoolConfig = VObj m /\
    m !! "schoolName" = Some (VStr schoolName) /\ schoolName <> EmptyString /\
    m !! "formatName" = Some (VStr formatName) /\ formatName <> EmptyString /\
    m !! "departmentIds" = Some (VArr ids) /\ Forall isInteger ids.

(** The claim that every identity the specification calls malformed is
    rejected before any request is sent. *)
Definition spec_identity_claim : Prop :=
  forall host schoolConfig options w,
    ~ SpecIdentity schoolConfig ->
    fst (getWebUntisTimetable host schoolConfig options w) = Normal VNull /\
    requests (snd (getWebUntisTimetable host schoolConfig options w)) = requests w.

(** The exception of line 304. *)
Definition apiError (message : value) : exn :=
  JsError ("WebUntis API Fehler: " ++ ToString message).


(** The claim that a success response whose body has an [error] field
    never yields a payload. *)
Definition spec_domain_error_claim : Prop :=
  forall host schoolConfig options w r m,
    invalidConfig schoolConfig = Normal false ->
    fetch host (requestFor host (moduleTemplate w) schoolConfig options)
      = Responded r ->
    ok r = true ->
    json r = Normal (VObj m) ->
    is_Some (m !! "error") ->
    fst (getWebUntisTimetable host schoolConfig options w) = Normal VNull.

(** The error taxonomy of the specification. *)
Inductive transportDetail :=
| ConnectionFailed (e : exn)
| BadStatus (status : Z) (bodyText : string)
| BodyUnreadable (status : Z) (e : exn).

Inductive failure :=
| ConfigurationError
| TransportError (d : transportDetail)
| ApiError (code message : value)
| ParseError (e : exn).

(** [failsWith host schoolConfig options w f]: the call started in [w]
    runs into the failure [f].  Apart from the configuration error, a
    failure is met after the request has gone out, which asks for a
    [schoolName] that line 269 can put into the URL.  A response with a
    status outside 200-299 fails in one of two ways: its body is read and
    printed with the status (a status code has 16 bits), or reading the
    body fails (line 294), and then the status is not printed.  The
    message and the code of a domain error are printed by a template
    literal (line 303), which must be able to convert them. *)
Inductive failsWith (host : Host) (schoolConfig : value)
    (options : TimetableQueryOptions) (w : World) : failure -> Prop :=
| fails_configuration :
    invalidConfig schoolConfig = Normal true ->
    failsWith host schoolConfig options w ConfigurationError
| fails_connection e :
    invalidConfig schoolConfig = Normal false ->
    Sendable schoolConfig ->
    fetch host (requestFor host (moduleTemplate w) schoolConfig options)
      = Rejected e ->
    failsWith host schoolConfig options w (TransportError (ConnectionFailed e))
| fails_status r bodyText :
    invalidConfig schoolConfig = Normal false ->
    Sendable schoolConfig ->
    fetch host (requestFor host (moduleTemplate w) schoolConfig options)
      = Responded r ->
    ok r = false ->
    0 <= status r < 65536 ->
    text r = Normal bodyText ->
    failsWith host schoolConfig options w
      (TransportError (BadStatus (status r) bodyText))
| fails_unreadable r e :
    invalidConfig schoolConfig = Normal false ->
    Sendable schoolConfig ->
    fetch host (requestFor host (moduleTemplate w) schoolConfig options)
      = Responded r ->
    ok r = false ->
    text r = Throw e ->
    failsWith host schoolConfig options w
      (TransportError (BodyUnreadable (status r) e))
| fails_parse r e :
    invalidConfig schoolConfig = Normal false ->
    Sendable schoolConfig ->
    fetch host (requestFor host (moduleTemplate w) schoolConfig options)
      = Responded r ->
    ok r = true ->
    json r = Throw e ->
    failsWith host schoolConfig options w (ParseError e)
| fails_api r data error :
    invalidConfig schoolConfig = Normal false ->
    Sendable schoolConfig ->
    fetch host (requestFor host (moduleTemplate w) schoolConfig options)
      = Responded r ->
    ok r = true ->
    json r = Normal data ->
    getprop data "error" = Normal error ->
    truthy error = true ->
    convertible (field error "message") = true ->
    convertible (field error "code") = true ->
    failsWith host schoolConfig options w
      (ApiError (field error "code") (field error "message")).

(** The lines of [catch] for the exception [e]. *)
Definition caughtEntries (host : Host) (e : exn) : list entry :=
  mkEntry ChanError [LStr "Ein Fehler ist aufgetreten:"; LStr (message_of host e)]
  :: (if truthy (cause_of e)
      then [mkEntry ChanError [LStr "Ursprünglicher Fehlergrund:"; LVal (cause_of e)]]
      else []).

(** The error lines a failure leaves on the console. *)
Definition diagnostic (host : Host) (f : failure) : list entry :=
  match f with
  | ConfigurationError => [configErrorEntry]
  | TransportError (ConnectionFailed e) => caughtEntries host e
  | TransportError (BadStatus st bodyText) =>
      [ mkEntry ChanError [LStr ("HTTP-Fehler! Status: " ++ NumberToString st)];
        mkEntry ChanError [LStr ("Fehlerdetails: " ++ bodyText)] ]
      ++ caughtEntries host
           (JsError ("HTTP Error: " ++ NumberToString st ++ " - " ++ bodyText))
  | TransportError (BodyUnreadable _ e) => caughtEntries host e
  | ApiError code message =>
      mkEntry ChanError
        [LStr ("WebUntis API Fehler: " ++ ToString message
                 ++ " (Code: " ++ ToString code ++ ")")]
      :: caughtEntries host (apiError message)
  | ParseError e => caughtEntries host e
  end.




Definition nullish (v : value) : bool :=
  match v with
  | VUndefined | VNull => true
  | _ => false
  end.


(** The continuation of [handleResponse] on the success path
    (lines 307-324). *)
Definition successPath (data : value) (filterGroups : option (list string))
  : M value :=
  console_log [LStr "--- Erfolg ---"];;
  console_log [LStr "Daten erfolgreich abgerufen."];;
  filteredRows ← lift (filterRows data filterGroups);
  lift (processPayload data filteredRows).

(** A call whose response passes every check: the configuration is
    accepted, the response has a success status, its body decodes to
    [data], and [data.error] is falsy. *)
Definition Exchange (host : Host) (schoolConfig : value)
    (options : TimetableQueryOptions) (w : World) (data : value) : Prop :=
  invalidConfig schoolConfig = Normal false /\
  exists r,
    fetch host (requestFor host (moduleTemplate w) schoolConfig options)
      = Responded r /\
    ok r = true /\
    json r = Normal data /\
    nullish data = false /\
    truthy (field data "error") = false.

(** The world after the request has been handed to [fetch]. *)
Definition requested (host : Host) (schoolConfig : value)
    (options : TimetableQueryOptions) (w : World) : World :=
  mkWorld (moduleTemplate w)
          (console w ++ announcement host (moduleTemplate w) schoolConfig options)
          (requests w ++ [requestFor host (moduleTemplate w) schoolConfig options]).

Definition logged (w : World) (es : list entry) : World :=
  mkWorld (moduleTemplate w) (console w ++ es) (requests w).

Definition successEntries : list entry :=
  [ mkEntry ChanLog [LStr "--- Erfolg ---"];
    mkEntry ChanLog [LStr "Daten erfolgreich abgerufen."] ].

(** The six properties the payload literal writes after the spread. *)
Definition overlayKeys : list string :=
  ["schoolName"; "formatName"; "departmentIds"; "date"; "dateOffset"; "numberOfDays"].

(** *** Presentation *)

Fixpoint occursIn (c : ascii) (s : string) : bool :=
  match s with
  | EmptyString => false
  | String x r => Ascii.eqb x c || occursIn c r
  end.

(** [tagAt pre body post]: the text with a markup tag [<body>] between
    [pre] and [post]. *)
Definition tagAt (pre body post : string) : string :=
  (pre ++ String "<" (body ++ String ">" post))%string.

(** No [<] of the text is followed by a [>]. *)
Definition NoTag (s : string) : Prop :=
  forall pre body post, s <> tagAt pre body post.

(** The text with its markup tags stripped, as the specification words
    it: a tag is a substring delimited by [<] and [>], from a [<] to the
    first [>] after it; the tags are taken from left to right. *)
Inductive TagsRemoved : string -> string -> Prop :=
| tags_none s : NoTag s -> TagsRemoved s s
| tags_strip pre body post out :
    occursIn "<" pre = false ->
    occursIn ">" body = false ->
    TagsRemoved post out ->
    TagsRemoved (tagAt pre body post) (pre ++ out)%string.




(** The property name under which a row is grouped. *)
Definition keyOf (row : value) : string := groupNameOf (field row "group").

Definition str_lt (s t : string) : Prop := String.ltb (sortKey s) (sortKey t) = true.

(** A row the accumulator of [reduce] can take: it is not [undefined] or
    [null], its group can be made a property name ([acc[groupName]]
    converts it), and the name is not an inherited member of the
    accumulator. *)
Definition GroupableRow (row : value) : Prop :=
  nullish row = false /\
  convertible (field row "group") = true /\
  keyOf row ∉ objectPrototypeKeys.

(** ** Sample inputs *)

Definition obj (l : list (string * value)) : value := VObj (list_to_map l).

Definition sampleConfig : value :=
  obj [ ("schoolName", VStr "Test School"); ("formatName", VStr "Fmt");
        ("departmentIds", VArr [VNum 1]) ].

(** A host at 2024-02-28T00:00Z in UTC whose network always settles to
    [outcome]. *)
Definition sampleHost (outcome : FetchOutcome) : Host :=
  mkHost (DateAt 1709078400000) 0 (fun _ => outcome)
         (fun _ => "date") (fun _ => "json") (fun site => site).

Definition noOptions : TimetableQueryOptions := mkOptions None None None None.

Definition respond (status : Z) (bodyText : string) (data : value) : FetchOutcome :=
  Responded (mkResponse status (Normal bodyText) (Normal data)).

Definition sampleRow (group info : string) : value :=
  obj [ ("group", VStr group);
        ("data", VArr [VStr "1"; VStr "Ma"; VStr "R1"; VStr "Mu"; VStr info]) ].

Definition notFound : value :=
  obj [("error", obj [("code", VNum (-1)); ("message", VStr "not found")])].

Definition nullError : value :=
  obj [("error", VNull); ("payload", obj [("rows", VArr [])])].

Definition cancelledRow : value :=
  obj [ ("group", VStr "11a");
        ("data", VArr [VStr "3"; VStr "Ma"; VStr "R1"; VStr "Mu";
                       VStr "Room <b>changed</b>"]);
        ("cellClasses", obj [("1", VArr [VStr "cancelStyle"])]) ].

(** The claim that the codec is right for every date with a four-digit
    year and every integer offset. *)
Definition spec_date_codec_claim : Prop :=
  forall tza tv k,
    Z.abs tv <= maxTime ->
    1000 <= Civil.year (civilOf tza tv) <= 9999 ->
    getUntisDate tza (queryDateOf tza (DateAt tv) (Num k))
    = Num (Civil.encode (Civil.addDays (civilOf tza tv) k)).

(** 2024-02-28T00:00Z and 2024-12-31T00:00Z as time values. *)
Definition feb28_2024 : Z := 1709078400000.
Definition dec31_2024 : Z := 1735603200000.

Definition filterSample : value :=
  obj [("payload",
        obj [ ("rows", VArr [ sampleRow "11a" "x"; sampleRow "12" "y";
                              sampleRow "11A" ""; sampleRow "11" "";
                              sampleRow "11a" "z" ]);
              ("absentElements", VArr [obj [("elementName", VStr "Mu")]]);
              ("lastUpdate", VStr "08:00") ])].

Definition only11a : TimetableQueryOptions :=
  mkOptions None (Some 1) None (Some ["11a"]).

(** What the call on [filterSample] with [only11a] returns. *)
Definition filteredSample : value :=
  obj [ ("rows", VArr [sampleRow "11a" "x"; sampleRow "11a" "z"]);
        ("absentElements", VArr [obj [("elementName", VStr "Mu")]]);
        ("lastUpdate", VStr "08:00") ].

(** ** More built-ins, for the callers of the module *)

(** [s.split (c)] for a one-character separator [c]: the pieces between
    the separators, never an empty array. *)
Fixpoint splitOn (c : ascii) (s : string) : list string :=
  match s with
  | EmptyString => [EmptyString]
  | String x r =>
      if Ascii.eqb x c then EmptyString :: splitOn c r
      else match splitOn c r with
           | piece :: pieces => String x piece :: pieces
           | [] => [String x EmptyString]
           end
  end.

Definition byteIs (c : ascii) (n : N) : bool := (N_of_ascii c =? n)%N.

(** White space and line terminators (ECMA-262, "White Space", "Line
    Terminators") in their UTF-8 form: one byte for U+0009 to U+000D and
    U+0020, two bytes for U+00A0, three bytes for U+1680, U+2000 to U+200A,
    U+2028, U+2029, U+202F, U+205F, U+3000 and U+FEFF. *)
Definition isSpace2 (a b : ascii) : bool := byteIs a 194 && byteIs b 160.

Definition isSpace3 (a b c : ascii) : bool :=
  (byteIs a 225 && byteIs b 154 && byteIs c 128) ||
  (byteIs a 226 && byteIs b 128 &&
     (((128 <=? N_of_ascii c) && (N_of_ascii c <=? 138))%N
      || byteIs c 168 || byteIs c 169 || byteIs c 175)) ||
  (byteIs a 226 && byteIs b 129 && byteIs c 159) ||
  (byteIs a 227 && byteIs b 128 && byteIs c 128) ||
  (byteIs a 239 && byteIs b 187 && byteIs c 191).

(** [s.trimStart ()]. *)
Fixpoint jsTrimStart (s : string) : string :=
  match s with
  | EmptyString => EmptyString
  | String a r1 =>
      if isWhiteSpace a then jsTrimStart r1
      else
        match r1 with
        | String b r2 =>
            if isSpace2 a b then jsTrimStart r2
            else
              match r2 with
              | String c r3 => if isSpace3 a b c then jsTrimStart r3 else s
              | EmptyString => s
              end
        | EmptyString => s
        end
  end.

Fixpoint revOnto (s acc : string) : string :=
  match s with
  | EmptyString => acc
  | String c r => revOnto r (String c acc)
  end.

Definition revString (s : string) : string := revOnto s EmptyString.

(** [jsTrimStart] on the reversed text: the bytes of a white space
    character come last byte first. *)
Fixpoint trimStartReversed (s : string) : string :=
  match s with
  | EmptyString => EmptyString
  | String a r1 =>
      if isWhiteSpace a then trimStartReversed r1
      else
        match r1 with
        | String b r2 =>
            if isSpace2 b a then trimStartReversed r2
            else
              match r2 with
              | String c r3 => if isSpace3 c b a then trimStartReversed r3 else s
              | EmptyString => s
              end
        | EmptyString => s
        end
  end.

(** [s.trimEnd ()] and [s.trim ()]. *)
Definition jsTrimEnd (s : string) : string :=
  revString (trimStartReversed (revString s)).

Definition trim (s : string) : string := jsTrimEnd (jsTrimStart s).

Definition hexValue (c : ascii) : option Z :=
  let n := Z.of_N (N_of_ascii c) in
  if (48 <=? n) && (n <=? 57) then Some (n - 48)
  else if (65 <=? n) && (n <=? 70) then Some (n - 55)
  else if (97 <=? n) && (n <=? 102) then Some (n - 87)
  else None.

Fixpoint takeHex (s : string) : list Z :=
  match s with
  | EmptyString => []
  | String c r =>
      match hexValue c with
      | Some d => d :: takeHex r
      | None => []
      end
  end.

Definition hexDigitsValue (ds : list Z) : Z :=
  fold_left (fun acc d => 16 * acc + d) ds 0.

(** [parseInt (s)] without a radix: leading white space, an optional
    sign, then hexadecimal digits after a prefix [0x] or [0X], decimal
    digits otherwise; [NaN] when there is no digit. *)
Definition parseIntAuto (s : string) : number :=
  let s' := jsTrimStart s in
  let '(sign, rest) :=
    match s' with
    | String "-" r => (-1, r)
    | String "+" r => (1, r)
    | _ => (1, s')
    end in
  let decimal :=
    match takeDigits rest with
    | [] => NaN
    | ds => Num (sign * digitsValue ds)
    end in
  match rest with
  | String "0" (String x r) =>
      if Ascii.eqb x "x" || Ascii.eqb x "X" then
        match takeHex r with
        | [] => NaN
        | ds => Num (sign * hexDigitsValue ds)
        end
      else decimal
  | _ => decimal
  end.

(** Number subtraction and [!==] on numbers. *)
Definition sub (a b : number) : number :=
  match a, b with
  | Num x, Num y => Num (x - y)
  | _, _ => NaN
  end.

Definition strictNotEqual (a b : number) : bool :=
  match a, b with
  | Num x, Num y => negb (x =? y)
  | _, _ => true
  end.

(** [isNaN (n)]. *)
Definition isNaN (n : number) : bool :=
  match n with
  | NaN => true
  | Num _ => false
  end.

(** [d.getTime ()]. *)
Definition getTime (d : Date) : number :=
  match d with
  | InvalidDate => NaN
  | DateAt tv => Num tv
  end.

(** [new Date (year, month, date)]: local midnight of the day MakeDay
    finds; a year from 0 to 99 stands for 1900 + year. *)
Definition newDateYMD (tza : Z) (year month date : number) : Date :=
  match year, month, date with
  | Num y, Num m, Num dt =>
      let yr := if (0 <=? y) && (y <=? 99) then 1900 + y else y in
      TimeClip (UTC tza (MakeDate (MakeDay yr m dt) 0))
  | _, _, _ => InvalidDate
  end.

(** ** The interactive query (lines 404-450)

    The answers the user types at the two prompts are the arguments
    [classInput] and [dateInput]; [nowAtStart] is the clock when
    [targetDate] is initialised, [nowAtFallback] the clock when a rejected
    date input is replaced.  The prompts that readline writes are not
    console lines. *)

(** The school configuration written in the function (lines 410-414). *)
Definition MY_SCHOOL_CONFIG : value :=
  VObj (list_to_map
    [ ("schoolName", VStr "Gymnasium am Markt");
      ("formatName", VStr "GamMa_SuS_2d_Monitor");
      ("departmentIds", VArr [VNum 2; VNum 1; VNum 3]) ]).

(** Lines 417 and 420-423: the groups typed at the first prompt. *)
Definition filterGroupsOfInput (classInput : string) : list string :=
  if negb (String.eqb (trim classInput) EmptyString) then
    List.filter (fun s => (0 <? String.length s)%nat)
                (map trim (splitOn "," classInput))
  else [].

Definition invalidDateLine : entry :=
  mkEntry ChanLog [LStr "Ungültiges Datum eingegeben. Verwende das heutige Datum."].

Definition invalidFormatLine : entry :=
  mkEntry ChanLog [LStr "Ungültiges Datumsformat. Verwende das heutige Datum."].

(** The test of line 431. *)
Definition dateMismatch (tza : Z) (targetDate : Date) (p0 p1 p2 : string) : bool :=
  isNaN (getTime targetDate)
  || strictNotEqual (getFullYear tza targetDate) (parseIntAuto p0)
  || strictNotEqual (add (getMonth tza targetDate) 1) (parseIntAuto p1)
  || strictNotEqual (getDate tza targetDate) (parseIntAuto p2).

(** Lines 418 and 425-443: the date typed at the second prompt. *)
Definition targetDateOfInput (tza : Z) (nowAtStart nowAtFallback : Date)
    (dateInput : string) : M Date :=
  let targetDate := nowAtStart in
  if negb (String.eqb (trim dateInput) EmptyString) then
    try_catch
      (let parts := splitOn "-" dateInput in
       match parts with
       | [p0; p1; p2] =>
           let targetDate :=
             newDateYMD tza (parseIntAuto p0) (sub (parseIntAuto p1) 1)
                        (parseIntAuto p2) in
           if dateMismatch tza targetDate p0 p1 p2 then
             console_log (args invalidDateLine);;
             mret nowAtFallback
           else mret targetDate
       | _ =>
           console_log (args invalidFormatLine);;
           mret nowAtFallback
       end)
      (fun e =>
         console_log [LStr "Fehler beim Parsen des Datums. Verwende das heutige Datum."];;
         mret nowAtFallback)
  else mret targetDate.

Definition interactiveIntro : list entry :=
  [ mkEntry ChanLog
      [LStr (newline ++ "--- WebUntis Stundenplan-Abfrage (Interaktiver Modus) ---")];
    mkEntry ChanLog
      [LStr "Du kannst Parameter eingeben oder leer lassen, um die Standardwerte zu verwenden."] ].

Definition runInteractiveTimetableQuery (host : Host)
    (nowAtStart nowAtFallback : Date) (classInput dateInput : string) : M unit :=
  console_log
    [LStr (newline ++ "--- WebUntis Stundenplan-Abfrage (Interaktiver Modus) ---")];;
  console_log
    [LStr "Du kannst Parameter eingeben oder leer lassen, um die Standardwerte zu verwenden."];;
  let filterGroups := filterGroupsOfInput classInput in
  targetDate ← targetDateOfInput (LocalTZA host) nowAtStart nowAtFallback dateInput;
  result ← getWebUntisTimetable host MY_SCHOOL_CONFIG
             (mkOptions (Some targetDate) None None (Some filterGroups));
  mret tt.

(** ** Notions used in the further facts *)

(** The date code of day number [n]. *)
Definition codeOfDay (n : Z) : Z := Civil.encode (localFields (n * msPerDay)).

(** What the digits of year, month and day read as, with the sign of the
    year in front. *)
Definition signedCode (c : Civil.date) : Z :=
  if 0 <=? Civil.year c then Civil.encode c
  else - ((- Civil.year c) * 10000 + Civil.month c * 100 + Civil.day c).


Definition isErrorEntry (e : entry) : Prop := chan e = ChanError.

(** *** Closed forms of what [renderTimetableConsole] prints *)

Definition noDataEntry : entry :=
  mkEntry ChanLog
    [LStr "Keine Stundenplan-Daten für diesen Tag oder die gewählten Filter gefunden."].

Definition noEntriesEntry : entry :=
  mkEntry ChanLog [LStr "Nach Filterung keine Einträge gefunden."].

(** The lines of lines 346-350. *)
Definition detailHeader (payloadData : value) (filterApplied : option (list string))
  : list entry :=
  [ mkEntry ChanLog [LStr (newline ++ "--- Stundenplan-Details ---")];
    mkEntry ChanLog
      [LStr ("Zuletzt aktualisiert: " ++ ToString (field payloadData "lastUpdate"))] ]
  ++ match filterApplied with
     | Some ((_ :: _) as groups) =>
         [mkEntry ChanLog
            [LStr ("(Anzeige gefiltert für: " ++ String.concat ", " groups ++ ")")]]
     | _ => []
     end.

(** A row whose line can be built: [data] is an array, its first four
    cells can be converted by the template literal of line 373, and the
    info text and [cellClasses] are such that lines 372 and 375 do not
    throw. *)
Definition Printable (row : value) : Prop :=
  (exists cells, field row "data" = VArr cells /\
                 forallb convertible (take 4 cells) = true) /\
  exists line, rowString row = Normal line.

Definition lineOf (row : value) : string :=
  match rowString row with
  | Normal line => line
  | Throw _ => EmptyString
  end.

(** The lines of one group: its heading, then one line per row. *)
Definition groupLines (g : string * list value) : list entry :=
  mkEntry ChanLog [LStr (newline ++ "--- Klasse: " ++ g.1 ++ " ---")]
  :: map (fun row => mkEntry ChanLog [LStr (lineOf row)]) g.2.

(** The line of an absent element whose first absence is [first]
    ([undefined] when there is none). *)
Definition absentLine (absent first : value) : entry :=
  mkEntry ChanLog
    [LStr ("- " ++ ToString (or_else (field absent "elementName") (VStr "Unbekannt"))
             ++ " (" ++ orNA (field first "type") ++ ")")].

Definition firstAbsence (absent : value) : value :=
  match field absent "absences" with
  | VArr l => default VUndefined (head l)
  | _ => VUndefined
  end.

(** An absent element the listing can print: it is not [undefined] or
    [null], its [absences] is an array, and the element name and the type
    of the first absence can be converted by the template literal of line
    385. *)
Definition Listable (absent : value) : Prop :=
  nullish absent = false /\ isArray (field absent "absences") = true /\
  convertible (field absent "elementName") = true /\
  convertible (field (firstAbsence absent) "type") = true.

Definition absentLines (absentElements : value) : list entry :=
  match absentElements with
  | VArr ((_ :: _) as l) =>
      mkEntry ChanLog [LStr (newline ++ "--- Abwesende Lehrer/Elemente (ungfiltert) ---")]
      :: map (fun absent => absentLine absent (firstAbsence absent)) l
  | _ => []
  end.

Definition AbsentOk (absentElements : value) : Prop :=
  truthy absentElements = false \/
  exists l, absentElements = VArr l /\ Forall Listable l.

(** [m] only prints: from every world it leaves the module constant and
    the requests as they are and appends console entries that satisfy
    [P]. *)
Definition emits {A} (P : entry -> Prop) (m : M A) : Prop :=
  forall w, exists es, snd (m w) = logged w es /\ Forall P es.

(** A [console.log] line other than the one of line 364. *)
Definition otherLine (e : entry) : Prop := chan e = ChanLog /\ e <> noEntriesEntry.

(** *** The date typed at the prompt *)

(** The three numbers the pieces of the input read as, when all three
    are numbers. *)
Definition typedDate (p0 p1 p2 : string) : option Civil.date :=
  match parseIntAuto p0, parseIntAuto p1, parseIntAuto p2 with
  | Num y, Num m, Num d => Some (Civil.mkDate y m d)
  | _, _, _ => None
  end.

(** The time value of local midnight at the start of day [c]. *)
Definition localMidnight (tza : Z) (c : Civil.date) : Z :=
  UTC tza (MakeDate (MakeDay (Civil.year c) (Civil.month c - 1) (Civil.day c)) 0).

(** The dates the check of line 431 lets through: days of the calendar,
    outside the years 0 to 99, within the range of a Date. *)
Definition DateAccepted (tza : Z) (c : Civil.date) : Prop :=
  Civil.valid c /\ ~ (0 <= Civil.year c <= 99) /\ Z.abs (localMidnight tza c) <= maxTime.

(** A date written as the prompt asks for it: JJJJ-MM-TT. *)
Definition dateText (c : Civil.date) : string :=
  (NumberToString (Civil.year c) ++ "-"
     ++ padStart (NumberToString (Civil.month c)) 2 "0" ++ "-"
     ++ padStart (NumberToString (Civil.day c)) 2 "0")%string.

(** A text of decimal digits only. *)
Fixpoint digitsOnly (s : string) : bool :=
  match s with
  | EmptyString => true
  | String c r =>
      match digitValue c with
      | Some _ => digitsOnly r
      | None => false
      end
  end.

(** ** The draft of the module ([src/index.mjs])

    The draft binds [FormatName] and [SchoolName] at lines 13 and 14 to
    values its user has to write in; they are parameters here.  Its
    [getUntisDate], [renderTimetableConsole] and the statements of its
    [try] block up to the object literal of lines 140-144 are those of the
    module, word for word, and are not embedded a second time. *)
Module Legacy.

(** The object of lines 16-54, as written. *)
Definition BASE_PAYLOAD_STRUCTURE_entries (SchoolName FormatName : value)
  : list (string * value) :=
  [ ("formatName", SchoolName);
    ("schoolName", FormatName);
    ("strikethrough", VTrue);
    ("mergeBlocks", VTrue);
    ("showOnlyFutureSub", VFalse);
    ("showBreakSupervisions", VTrue);
    ("showTeacher", VTrue);
    ("showClass", VFalse);
    ("showHour", VTrue);
    ("showInfo", VTrue);
    ("showRoom", VTrue);
    ("showSubject", VTrue);
    ("groupBy", VNum 1);
    ("hideAbsent", VTrue);
    ("departmentIds", VArr [VNum 2; VNum 1; VNum 3]);
    ("departmentElementType", VNum 1);
    ("hideCancelWithSubstitution", VTrue);
    ("hideCancelCausedByEvent", VFalse);
    ("showTime", VFalse);
    ("showSubstText", VTrue);
    ("showAbsentElements", VArr [VNum 2]);
    ("showAffectedElements", VArr []);
    ("showUnitTime", VTrue);
    ("showMessages", VTrue);
    ("showStudentgroup", VFalse);
    ("enableSubstitutionFrom", VFalse);
    ("showSubstitutionFrom", VNum 0);
    ("showTeacherOnEvent", VFalse);
    ("showAbsentTeacher", VFalse);
    ("strikethroughAbsentTeacher", VTrue);
    ("activityTypeIds", VArr []);
    ("showEvent", VTrue);
    ("showCancel", VTrue);
    ("showOnlyCancel", VFalse);
    ("showSubstTypeColor", VFalse);
    ("showExamSupervision", VFalse);
    ("showUnheraldedExams", VFalse) ].

Definition BASE_PAYLOAD_STRUCTURE (SchoolName FormatName : value) : gmap string value :=
  list_to_map (BASE_PAYLOAD_STRUCTURE_entries SchoolName FormatName).

(** The world when the draft has been loaded: the module constant holds
    the object of lines 16-54. *)
Definition loadedWorld (SchoolName FormatName : value) : World :=
  mkWorld (BASE_PAYLOAD_STRUCTURE SchoolName FormatName) [] [].

(** The object literal of lines 82-87. *)
Definition buildPayload (tpl : gmap string value)
    (untisDate : number) (dateOffset numberOfDays : Z) : gmap string value :=
  <["numberOfDays" := VNum numberOfDays]>
    (<["dateOffset" := VNum dateOffset]>
      (<["date" := VNum untisDate]> tpl)).

(** The [try] block (lines 103-148): the statements of the module's
    [try] block, then the rendering, then the [return]. *)
Definition tryBlock (host : Host) (requestUrl : string)
    (payload : gmap string value) (filterGroups : option (list string))
  : M value :=
  response ← await_fetch host (mkRequest requestUrl "POST" requestHeaders payload);
  processedPayload ← handleResponse response filterGroups;
  renderTimetableConsole processedPayload filterGroups;;
  mret processedPayload.

(** [getWebUntisTimetable (options)] (lines 73-156). *)
Definition getWebUntisTimetable (host : Host) (options : TimetableQueryOptions)
  : M value :=
  let targetDate := default (now host) (opt_targetDate options) in
  let dateOffset := default 0 (opt_dateOffset options) in
  let numberOfDays := default 1 (opt_numberOfDays options) in
  let filterGroups := opt_filterGroups options in
  let queryDate := queryDateOf (LocalTZA host) targetDate dateOffset in
  let untisDate := getUntisDate (LocalTZA host) queryDate in
  tpl ← readTemplate;
  let payload := buildPayload tpl untisDate dateOffset numberOfDays in
  schoolName ← lift (getprop (VObj payload) "schoolName");
  let requestUrl :=
    (API_BASE_URL ++ CONTEXT_PATH ++ "/" ++ ENDPOINT ++ "?school="
       ++ encodeURIComponent (ToString schoolName))%string in
  console_log [LStr (newline ++ "--- Anfrage-Details ---")];;
  console_log
    [LStr ("Abfrage für: " ++ toLocaleDateString host queryDate
             ++ " (" ++ NumberToString numberOfDays ++ " Tag(e))")];;
  (match filterGroups with
   | Some ((_ :: _) as groups) =>
       console_log
         [LStr ("Filter für Klassen/Kurse: " ++ String.concat ", " groups)]
   | _ => console_log [LStr "Keine Klassen/Kurse gefiltert (alle anzeigen)."]
   end);;
  console_log [LStr ("Anfrage-URL: " ++ requestUrl)];;
  console_log [LStr "Gesendeter Payload:"; LStr (JSON_stringify host (VObj payload))];;
  console_log [LStr ("--- Ende Anfrage-Details ---" ++ newline)];;
  try_catch (tryBlock host requestUrl payload filterGroups) (catchBlock host).

(** The request of a call, and the lines printed before it is sent. *)
Definition requestFor (host : Host) (tpl : gmap string value)
    (options : TimetableQueryOptions) : Request :=
  let payload :=
    buildPayload tpl (getUntisDate (LocalTZA host) (queryDateFor host options))
                 (dateOffsetOf options) (numberOfDaysOf options) in
  mkRequest
    (API_BASE_URL ++ CONTEXT_PATH ++ "/" ++ ENDPOINT ++ "?school="
       ++ encodeURIComponent (ToString (field (VObj payload) "schoolName")))%string
    "POST" requestHeaders payload.

Definition announcement (host : Host) (tpl : gmap string value)
    (options : TimetableQueryOptions) : list entry :=
  [ mkEntry ChanLog [LStr (newline ++ "--- Anfrage-Details ---")];
    mkEntry ChanLog
      [LStr ("Abfrage für: " ++ toLocaleDateString host (queryDateFor host options)
               ++ " (" ++ NumberToString (numberOfDaysOf options) ++ " Tag(e))")];
    mkEntry ChanLog
      [LStr (match opt_filterGroups options with
             | Some ((_ :: _) as groups) =>
                 "Filter für Klassen/Kurse: " ++ String.concat ", " groups
             | _ => "Keine Klassen/Kurse gefiltert (alle anzeigen)."
             end)];
    mkEntry ChanLog [LStr ("Anfrage-URL: " ++ url (requestFor host tpl options))];
    mkEntry ChanLog
      [LStr "Gesendeter Payload:";
       LStr (JSON_stringify host (VObj (body (requestFor host tpl options))))];
    mkEntry ChanLog [LStr ("--- Ende Anfrage-Details ---" ++ newline)] ].

(** The world after the request has been handed to [fetch]. *)
Definition requested (host : Host) (options : TimetableQueryOptions) (w : World)
  : World :=
  mkWorld (moduleTemplate w)
          (console w ++ announcement host (moduleTemplate w) options)
          (requests w ++ [requestFor host (moduleTemplate w) options]).

End Legacy.

(** * Facts

    ** The calendar of the Date built-in *)

Ltac split_ifs :=
  repeat match goal with
         | |- context [if ?b then _ else _] => destruct b eqn:?
         end.

Ltac bool_to_Z :=
  rewrite ?negb_true_iff, ?negb_false_iff, ?andb_true_iff, ?andb_false_iff,
    ?orb_true_iff, ?orb_false_iff, ?Z.eqb_eq, ?Z.eqb_neq, ?Z.ltb_lt, ?Z.ltb_ge, ?Z.leb_le, ?Z.leb_gt in *.

Ltac fold_months :=
  change (0 + 1) with 1;
  repeat match goal with
         | |- context [Z.pos ?p + 1] =>
             let v := eval compute in (Z.pos p + 1) in
             change (Z.pos p + 1) with v
         end.

Lemma DayFromYear_succ y : DayFromYear (y + 1) = DayFromYear y + DaysInYear y.
Proof.
  unfold DayFromYear, DaysInYear. split_ifs; bool_to_Z; Z.div_mod_to_equations; lia.
Qed.

Lemma DaysInYear_cases y : DaysInYear y = 365 \/ DaysInYear y = 366.
Proof. unfold DaysInYear. split_ifs; auto. Qed.

Lemma DayFromYear_mono y1 y2 : y1 <= y2 -> DayFromYear y1 <= DayFromYear y2.
Proof. unfold DayFromYear. intros. Z.div_mod_to_equations; lia. Qed.

Lemma YearFromDay_bounds d :
  DayFromYear (YearFromDay d) <= d < DayFromYear (YearFromDay d + 1).
Proof.
  unfold YearFromDay. cbv zeta. split_ifs; bool_to_Z; unfold DayFromYear in *;
  Z.div_mod_to_equations; lia.
Qed.

Lemma YearFromDay_unique d y :
  DayFromYear y <= d < DayFromYear (y + 1) -> YearFromDay d = y.
Proof.
  intros H. pose proof (YearFromDay_bounds d) as B.
  destruct (Z.lt_trichotomy (YearFromDay d) y) as [L | [E | G]]; [ | exact E | ].
  - pose proof (DayFromYear_mono (YearFromDay d + 1) y). lia.
  - pose proof (DayFromYear_mono (y + 1) (YearFromDay d)). lia.
Qed.

(** ECMA-262: YearFromTime is the largest y with DayFromYear y <= Day t *)
Lemma YearFromDay_largest d y :
  DayFromYear y <= d <-> y <= YearFromDay d.
Proof.
  pose proof (YearFromDay_bounds d) as B. split; intros H.
  - destruct (Z_le_gt_dec y (YearFromDay d)); [done|].
    pose proof (DayFromYear_mono (YearFromDay d + 1) y). lia.
  - pose proof (DayFromYear_mono y (YearFromDay d)). lia.
Qed.

Lemma leap_flag y :
  (DaysInYear y =? 366) = Civil.isLeapYear y.
Proof.
  unfold DaysInYear, Civil.isLeapYear.
  destruct (y mod 4 =? 0) eqn:E4, (y mod 100 =? 0) eqn:E100,
    (y mod 400 =? 0) eqn:E400; try reflexivity;
  bool_to_Z; exfalso; Z.div_mod_to_equations; lia.
Qed.

(** month and day of month from day within the year *)
Lemma fields_succ t t' :
  Day t' = Day t + 1 -> localFields t' = Civil.nextDay (localFields t).
Proof.
  intros H. unfold localFields.
  pose proof (YearFromDay_bounds (Day t)) as B.
  rewrite DayFromYear_succ in B.
  pose proof (DaysInYear_cases (YearFromDay (Day t))) as C.
  destruct (Z_lt_dec (Day t + 1) (DayFromYear (YearFromDay (Day t)) + DaysInYear (YearFromDay (Day t)))) as [L | L].
  - assert (Y : YearFromDay (Day t') = YearFromDay (Day t)).
    { apply YearFromDay_unique. rewrite DayFromYear_succ. lia. }
    unfold MonthFromTime, DateFromTime, MonthFromTime, DayWithinYear, InLeapYear, YearFromTime.
    rewrite Y, H.
    set (y := YearFromDay (Day t)) in *.
    set (n := DayFromYear y) in *.
    assert (F : Civil.isLeapYear y = (DaysInYear y =? 366)) by (symmetry; apply leap_flag).
    destruct C as [C | C]; rewrite C in *; cbn [Z.eqb Pos.eqb] in *.
    all: split_ifs; bool_to_Z; try lia.
    all: unfold Civil.nextDay, Civil.daysInMonth; cbn [Civil.year Civil.month Civil.day]; fold_months.
    all: rewrite ?F.
    all: split_ifs; bool_to_Z; try lia; f_equal; lia.
  - assert (E : Day t + 1 = DayFromYear (YearFromDay (Day t) + 1)).
    { rewrite DayFromYear_succ. lia. }
    assert (Y : YearFromDay (Day t') = YearFromDay (Day t) + 1).
    { apply YearFromDay_unique. rewrite H, E.
      pose proof (DayFromYear_succ (YearFromDay (Day t) + 1)).
      pose proof (DaysInYear_cases (YearFromDay (Day t) + 1)). lia. }
    unfold Civil.nextDay, MonthFromTime, DateFromTime, MonthFromTime, DayWithinYear, InLeapYear, YearFromTime.
    rewrite Y, H, E. cbn [Civil.year Civil.month Civil.day].
    rewrite Z.sub_diag.
    set (y := YearFromDay (Day t)) in *.
    rewrite DayFromYear_succ in E.
    replace (Day t - DayFromYear y) with (DaysInYear y - 1) by lia.
    destruct C as [C | C]; rewrite C in *; cbn [Z.eqb Pos.eqb];
    destruct (DaysInYear (y + 1) =? 366); reflexivity.
Qed.

Lemma fields_valid t : Civil.valid (localFields t).
Proof.
  unfold localFields, Civil.valid. cbn [Civil.year Civil.month Civil.day].
  pose proof (YearFromDay_bounds (Day t)) as B.
  rewrite DayFromYear_succ in B.
  pose proof (DaysInYear_cases (YearFromDay (Day t))) as C.
  unfold MonthFromTime, DateFromTime, MonthFromTime, DayWithinYear, InLeapYear, YearFromTime.
  set (y := YearFromDay (Day t)) in *.
  unfold Civil.daysInMonth. rewrite <- leap_flag. fold y.
  destruct C as [C | C]; rewrite C in *; cbn [Z.eqb Pos.eqb].
  all: split_ifs; bool_to_Z; simpl; lia.
Qed.

Lemma prev_next c : Civil.valid c -> Civil.prevDay (Civil.nextDay c) = c.
Proof.
  destruct c as [y m d]. unfold Civil.valid, Civil.nextDay, Civil.prevDay.
  cbn [Civil.year Civil.month Civil.day]. intros [Hm Hd].
  destruct (d <? Civil.daysInMonth y m) eqn:E1; cbn [Civil.year Civil.month Civil.day].
  - bool_to_Z. destruct (1 <? d + 1) eqn:E2; bool_to_Z; [f_equal; lia | lia].
  - destruct (m <? 12) eqn:E2; cbn [Civil.year Civil.month Civil.day]; bool_to_Z.
    + destruct (1 <? m + 1) eqn:E3; bool_to_Z; [|lia].
      replace (m + 1 - 1) with m by lia. f_equal. lia.
    + assert (m = 12) by lia. subst m. simpl in *. f_equal; lia.
Qed.

Lemma fields_pred t t' :
  Day t' = Day t - 1 -> localFields t' = Civil.prevDay (localFields t).
Proof.
  intros H. rewrite (fields_succ t' t) by lia.
  symmetry. apply prev_next, fields_valid.
Qed.

Lemma Day_of_day n : Day (n * msPerDay) = n.
Proof. unfold Day, msPerDay. apply Z.div_mul. lia. Qed.

Lemma fields_Day t t' : Day t = Day t' -> localFields t = localFields t'.
Proof.
  intros H. unfold localFields, MonthFromTime, DateFromTime, MonthFromTime, DayWithinYear, InLeapYear, YearFromTime.
  rewrite H. reflexivity.
Qed.

Lemma fields_iter_next (k : nat) t t' :
  Day t' = Day t + Z.of_nat k -> localFields t' = Nat.iter k Civil.nextDay (localFields t).
Proof.
  revert t'. induction k as [| k IH]; intros t' H.
  - apply fields_Day. simpl in H. lia.
  - rewrite Nat.iter_succ. rewrite <- (IH ((Day t + Z.of_nat k) * msPerDay)).
    + apply fields_succ. rewrite Day_of_day. lia.
    + apply Day_of_day.
Qed.

Lemma fields_iter_prev (k : nat) t t' :
  Day t' = Day t - Z.of_nat k -> localFields t' = Nat.iter k Civil.prevDay (localFields t).
Proof.
  revert t'. induction k as [| k IH]; intros t' H.
  - apply fields_Day. simpl in H. lia.
  - rewrite Nat.iter_succ. rewrite <- (IH ((Day t - Z.of_nat k) * msPerDay)).
    + apply fields_pred. rewrite Day_of_day. lia.
    + apply Day_of_day.
Qed.

Lemma fields_addDays t t' k :
  Day t' = Day t + k -> localFields t' = Civil.addDays (localFields t) k.
Proof.
  intros H. unfold Civil.addDays. destruct (0 <=? k) eqn:E; bool_to_Z.
  - apply fields_iter_next. lia.
  - apply fields_iter_prev. lia.
Qed.

Lemma month_table t :
  0 <= MonthFromTime t <= 11 /\
  monthStart (MonthFromTime t) (InLeapYear t) + DateFromTime t - 1 = DayWithinYear t.
Proof.
  unfold DateFromTime, MonthFromTime.
  set (d := DayWithinYear t). set (l := InLeapYear t).
  split_ifs; simpl; lia.
Qed.

Lemma MakeDay_fields t dt :
  MakeDay (YearFromTime t) (MonthFromTime t) dt = Day t - DateFromTime t + dt.
Proof.
  destruct (month_table t) as [R E].
  unfold MakeDay. rewrite Z.div_small, Z.mod_small, Z.add_0_r by lia.
  fold (InLeapYear t). unfold DayWithinYear in E. lia.
Qed.

Lemma setDate_day tza tv k :
  match setDate tza (DateAt tv) (add (getDate tza (DateAt tv)) (Num k)) with
  | DateAt tv' =>
      Day (LocalTime tza tv') = Day (LocalTime tza tv) + k /\
      TimeWithinDay (LocalTime tza tv') = TimeWithinDay (LocalTime tza tv)
  | InvalidDate =>
      maxTime < Z.abs (tv + k * msPerDay)
  end.
Proof.
  unfold setDate, getDate, add. rewrite MakeDay_fields.
  set (t := LocalTime tza tv).
  assert (E : UTC tza (MakeDate (Day t - DateFromTime t + (DateFromTime t + k)) (TimeWithinDay t))
              = tv + k * msPerDay).
  { unfold UTC, MakeDate, t, LocalTime, Day, TimeWithinDay, msPerDay.
    Z.div_mod_to_equations. lia. }
  rewrite E. unfold TimeClip.
  destruct (Z.abs (tv + k * msPerDay) <=? maxTime) eqn:Hc; bool_to_Z; [| lia].
  unfold t, LocalTime, Day, TimeWithinDay, msPerDay.
  split; Z.div_mod_to_equations; lia.
Qed.

(** ** Numerals *)

Lemma append_cons c (s r : string) : (String c s +:+ r) = String c (s +:+ r).
Proof. reflexivity. Qed.

Lemma append_nil (r : string) : ("" +:+ r) = r.
Proof. reflexivity. Qed.

Ltac eval_digit :=
  repeat match goal with
         | |- context [digitValue ?c] =>
             let v := eval vm_compute in (digitValue c) in
             change (digitValue c) with v
         end.

Ltac eval_space :=
  repeat match goal with
         | |- context [isWhiteSpace ?c] =>
             let v := eval vm_compute in (isWhiteSpace c) in
             change (isWhiteSpace c) with v
         end.

Lemma digits_uint_acc (d : Decimal.uint) (rest : string) (acc : positive) :
  fold_left (fun acc d => 10 * acc + d) (takeDigits (NilEmpty.string_of_uint d +:+ rest)) (Z.pos acc)
  = fold_left (fun acc d => 10 * acc + d) (takeDigits rest) (Z.pos (Pos.of_uint_acc d acc)).
Proof.
  revert acc. induction d; intros acc; cbn [NilEmpty.string_of_uint];
    [ reflexivity | .. ];
    rewrite append_cons; cbn [takeDigits]; eval_digit; cbv beta iota;
    cbn [fold_left Pos.of_uint_acc]; rewrite <- IHd; f_equal;  lia.
Qed.

Lemma digits_uint (d : Decimal.uint) (rest : string) :
  fold_left (fun acc d => 10 * acc + d) (takeDigits (NilEmpty.string_of_uint d +:+ rest)) 0
  = fold_left (fun acc d => 10 * acc + d) (takeDigits rest) (Z.of_N (Pos.of_uint d)).
Proof.
  induction d; cbn [NilEmpty.string_of_uint Pos.of_uint];
    [ reflexivity | .. ];
    rewrite append_cons; cbn [takeDigits]; eval_digit; cbv beta iota;
    cbn [fold_left];  cbn [Z.mul Z.add Z.of_N];
    [ exact IHd | rewrite <- digits_uint_acc; reflexivity .. ].
Qed.

(* the numeral of a non-negative integer *)
Lemma numeral_nonneg (y : Z) :
  0 <= y ->
  exists d, d <> Decimal.Nil /\ NumberToString (Num y) = NilEmpty.string_of_uint d
            /\ Z.of_N (Pos.of_uint d) = y.
Proof.
  intros Hy. destruct y as [| p | p]; [ | | lia ].
  - exists (Decimal.D0 Decimal.Nil). repeat split; done.
  - exists (Pos.to_uint p). split; [| split].
    + intros E. pose proof (DecimalPos.Unsigned.of_to p) as R. rewrite E in R. discriminate.
    + cbn. unfold NilZero.string_of_uint.
      destruct (Pos.to_uint p) eqn:E; try reflexivity.
      pose proof (DecimalPos.Unsigned.of_to p) as R. rewrite E in R. discriminate.
    + rewrite DecimalPos.Unsigned.of_to. reflexivity.
Qed.

Lemma parseInt_numeral (d : Decimal.uint) (rest : string) :
  d <> Decimal.Nil ->
  parseInt (NilEmpty.string_of_uint d +:+ rest)
  = Num (fold_left (fun acc d => 10 * acc + d) (takeDigits rest) (Z.of_N (Pos.of_uint d))).
Proof.
  intros Hd. rewrite <- digits_uint.
  destruct d; [ congruence | .. ]; cbn [NilEmpty.string_of_uint]; rewrite append_cons;
    unfold parseInt; cbn [trimStart]; eval_space; cbv beta iota;
    cbn [takeDigits]; eval_digit; cbv beta iota;
    f_equal; rewrite Z.mul_1_l; reflexivity.
Qed.

Lemma twoDigits_all : forallb (fun i => twoDigitsOk (Z.of_nat i)) (seq 0 100) = true.
Proof. vm_compute. reflexivity. Qed.

Lemma padStart_two (n : Z) :
  0 <= n <= 99 ->
  exists a b, padStart (NumberToString (Num n)) 2 "0" = String a (String b EmptyString)
              /\ digitValue a = Some (n / 10) /\ digitValue b = Some (n mod 10).
Proof.
  intros Hn. pose proof twoDigits_all as H.
  rewrite forallb_forall in H. specialize (H (Z.to_nat n)).
  rewrite Z2Nat.id in H by lia.
  assert (T : twoDigitsOk n = true).
  { apply H. apply in_seq. lia. }
  unfold twoDigitsOk in T.
  destruct (padStart (NumberToString (Num n)) 2 "0") as [| a [| b [| ? ?]]]; try discriminate.
  apply bool_decide_eq_true in T. eauto.
Qed.

(** ** The date codec *)

Lemma getUntisDate_encode tza tv :
  0 <= Civil.year (civilOf tza tv) ->
  getUntisDate tza (DateAt tv) = Num (Civil.encode (civilOf tza tv)).
Proof.
  pose proof (fields_valid (LocalTime tza tv)) as [Vm Vd].
  unfold civilOf, Civil.encode, localFields in *.
  cbn [Civil.year Civil.month Civil.day] in *.
  set (t := LocalTime tza tv) in *. intros Hy.
  assert (Vd' : 1 <= DateFromTime t <= 31).
  { unfold Civil.daysInMonth in Vd. repeat case_match; lia. }
  unfold getUntisDate, getFullYear, getMonth, getDate, add. fold t.
  destruct (numeral_nonneg _ Hy) as (d & Hd & Hs & Hv).
  destruct (padStart_two (MonthFromTime t + 1)) as (m1 & m0 & Hm & Hm1 & Hm0); [lia|].
  destruct (padStart_two (DateFromTime t)) as (d1 & d0 & Hdd & Hd1 & Hd0); [lia|].
  rewrite Hs, Hm, Hdd, parseInt_numeral by done.
  rewrite Hv. rewrite !append_cons, append_nil. cbn [takeDigits].
  rewrite Hm1, Hm0, Hd1, Hd0. cbn [takeDigits fold_left].
  f_equal. Z.div_mod_to_equations. lia.
Qed.

Lemma queryDateOf_clip tza tv k :
  queryDateOf tza (DateAt tv) (Num k) = TimeClip (tv + k * msPerDay).
Proof.
  unfold queryDateOf, newDate, setDate, getDate, add. rewrite MakeDay_fields.
  f_equal. unfold UTC, MakeDate, LocalTime, Day, TimeWithinDay, msPerDay.
  Z.div_mod_to_equations. lia.
Qed.

Lemma civilOf_offset tza tv k :
  civilOf tza (tv + k * msPerDay) = Civil.addDays (civilOf tza tv) k.
Proof.
  apply fields_addDays. unfold LocalTime, Day, msPerDay.
  Z.div_mod_to_equations. lia.
Qed.

(** C2 (as amended).  For every Date with time value [tv] and every
    integer offset [k] such that the offset date is inside the range of
    time values and its year is not negative: building the query date
    ([new Date (targetDate)], [setDate (getDate () + k)]) and encoding it with
    [getUntisDate] yields year * 10000 + month * 100 + day of the calendar
    date [k] days after the local calendar date of [tv], days being counted
    with month and year rollover and leap years. *)
Theorem date_codec_offset tza tv k :
  Z.abs (tv + k * msPerDay) <= maxTime ->
  0 <= Civil.year (Civil.addDays (civilOf tza tv) k) ->
  getUntisDate tza (queryDateOf tza (DateAt tv) (Num k))
  = Num (Civil.encode (Civil.addDays (civilOf tza tv) k)).
Proof.
  intros Hr Hy. rewrite queryDateOf_clip. unfold TimeClip.
  apply Z.leb_le in Hr. rewrite Hr. rewrite <- civilOf_offset in *.
  by apply getUntisDate_encode.
Qed.

Lemma date_codec_offset_witness :
  Z.abs (feb28_2024 + 1 * msPerDay) <= maxTime /\
  0 <= Civil.year (Civil.addDays (civilOf 0 feb28_2024) 1) /\
  getUntisDate 0 (queryDateOf 0 (DateAt feb28_2024) (Num 1)) = Num 20240229.
Proof.
  assert (R : Z.abs (feb28_2024 + 1 * msPerDay) <= maxTime) by (vm_compute; discriminate).
  assert (Y : 0 <= Civil.year (Civil.addDays (civilOf 0 feb28_2024) 1))
    by (vm_compute; discriminate).
  split; [exact R |]. split; [exact Y |].
  rewrite (date_codec_offset 0 feb28_2024 1 R Y). vm_compute. reflexivity.
Defined.

(** The claim as the specification states it fails: 800000 days before
    2024-02-28 the year is -167, the text is [-1671101], and [parseInt]
    reads -1671101, not -167 * 10000 + 1101. *)
Lemma date_codec_offset_counterexample : ~ spec_date_codec_claim.
Proof.
  intros C. specialize (C 0 feb28_2024 (-800000)).
  assert (R : Z.abs feb28_2024 <= maxTime) by (vm_compute; discriminate).
  assert (Y : 1000 <= Civil.year (civilOf 0 feb28_2024) <= 9999)
    by (vm_compute; split; discriminate).
  specialize (C R Y). vm_compute in C. discriminate.
Qed.

Example leap_day_2024 :
  getUntisDate 0 (queryDateOf 0 (DateAt feb28_2024) (Num 1)) = Num 20240229.
Proof. vm_compute. reflexivity. Qed.

Example new_year_2025 :
  getUntisDate 7200000 (queryDateOf 7200000 (DateAt dec31_2024) (Num 1)) = Num 20250101.
Proof. vm_compute. reflexivity. Qed.

Example offset_out_of_range :
  getUntisDate 0 (queryDateOf 0 (DateAt feb28_2024) (Num 1000000000)) = NaN.
Proof. vm_compute. reflexivity. Qed.

Example epoch_is_1970_01_01 : civilOf 0 0 = Civil.mkDate 1970 1 1.
Proof. vm_compute. reflexivity. Qed.

(** ** The monad and the validation *)

Section Monad.
Context {A B : Type}.

Lemma bind_lift_normal (a : A) (k : A -> M B) w :
  (lift (Normal a) ≫= k) w = k a w.
Proof. reflexivity. Qed.

Lemma bind_lift_throw (e : exn) (k : A -> M B) w :
  (lift (Throw e) ≫= k) w = (Throw e, w).
Proof. reflexivity. Qed.

Lemma bind_ret (a : A) (k : A -> M B) w : (mret a ≫= k) w = k a w.
Proof. reflexivity. Qed.

Lemma bind_throw (e : exn) (k : A -> M B) w :
  (throw e ≫= k) w = (Throw e, w).
Proof. reflexivity. Qed.
End Monad.

Lemma bind_console_log {B} a (k : unit -> M B) w :
  (console_log a ≫= k) w
  = k tt (mkWorld (moduleTemplate w) (console w ++ [mkEntry ChanLog a]) (requests w)).
Proof. reflexivity. Qed.

Lemma bind_console_error {B} a (k : unit -> M B) w :
  (console_error a ≫= k) w
  = k tt (mkWorld (moduleTemplate w) (console w ++ [mkEntry ChanError a]) (requests w)).
Proof. reflexivity. Qed.

Lemma getprop_field v k : nullish v = false -> getprop v k = Normal (field v k).
Proof.
  unfold field. destruct v; try discriminate; intros _; cbn [getprop]; repeat case_match; reflexivity.
Qed.

Lemma truthy_not_nullish v : truthy v = true -> nullish v = false.
Proof. destruct v; done. Qed.

Lemma invalidConfig_closed cfg :
  invalidConfig cfg
  = Normal (negb (truthy cfg) || negb (truthy (field cfg "schoolName"))
            || negb (truthy (field cfg "formatName"))
            || negb (isArray (field cfg "departmentIds"))).
Proof.
  unfold invalidConfig. destruct (truthy cfg) eqn:T; [| reflexivity].
  apply truthy_not_nullish in T.
  rewrite !(getprop_field cfg) by done. cbn [negb orb mbind completion_bind].
  destruct (truthy (field cfg "schoolName")); [| reflexivity].
  cbn [negb orb]. destruct (truthy (field cfg "formatName")); reflexivity.
Qed.

Lemma invalidConfig_total cfg : exists b, invalidConfig cfg = Normal b.
Proof. rewrite invalidConfig_closed. eauto. Qed.

Lemma invalidConfig_true cfg : invalidConfig cfg = Normal true <-> IdentityRejected cfg.
Proof.
  rewrite invalidConfig_closed. unfold IdentityRejected.
  destruct (truthy cfg), (truthy (field cfg "schoolName")),
    (truthy (field cfg "formatName")), (isArray (field cfg "departmentIds"));
    cbn; split; intros H; try done; try (repeat destruct H as [H | H]; done); auto.
Qed.

Lemma invalidConfig_false cfg :
  invalidConfig cfg = Normal false -> nullish cfg = false.
Proof.
  rewrite invalidConfig_closed. intros H. apply truthy_not_nullish.
  destruct (truthy cfg); [done | discriminate].
Qed.

Lemma getWebUntisTimetable_invalid host cfg opts w :
  invalidConfig cfg = Normal true ->
  getWebUntisTimetable host cfg opts w
  = (Normal VNull,
     mkWorld (moduleTemplate w) (console w ++ [configErrorEntry]) (requests w)).
Proof.
  intros H. unfold getWebUntisTimetable. rewrite H. reflexivity.
Qed.

Lemma getWebUntisTimetable_valid host cfg opts w :
  invalidConfig cfg = Normal false ->
  getWebUntisTimetable host cfg opts w
  = let req := requestFor host (moduleTemplate w) cfg opts in
    try_catch (tryBlock host (url req) (body req) (opt_filterGroups opts))
              (catchBlock host) (announced host cfg opts w).
Proof.
  intros H. unfold getWebUntisTimetable. rewrite H.
  pose proof (invalidConfig_false _ H) as N.
  rewrite bind_lift_normal. cbv zeta.
  unfold readTemplate. unfold mbind at 1. unfold M_bind at 1.
  rewrite !(getprop_field cfg) by done.
  rewrite !bind_lift_normal.
  rewrite bind_console_log. rewrite bind_console_log.
  destruct opts as [td off nd fg]. cbn [opt_filterGroups opt_targetDate opt_dateOffset opt_numberOfDays].
  unfold announced, announcement, requestFor, requestUrlFor, queryDateFor, dateOffsetOf, numberOfDaysOf.
  cbn [opt_filterGroups opt_targetDate opt_dateOffset opt_numberOfDays url body moduleTemplate console requests].
  destruct fg as [[| g gs] |]; rewrite !bind_console_log;
  cbn [moduleTemplate console requests]; rewrite <- !app_assoc; reflexivity.
Qed.

(** ** The paths through [handleResponse] *)

Lemma logged_logged w a b : logged (logged w a) b = logged w (a ++ b).
Proof. unfold logged. cbn. by rewrite <- app_assoc. Qed.

Lemma logged_nil w : logged w [] = w.
Proof. destruct w. unfold logged. cbn. by rewrite app_nil_r. Qed.

Lemma catchBlock_closed host e w :
  catchBlock host e w = (Normal VNull, logged w (caughtEntries host e)).
Proof.
  unfold catchBlock, caughtEntries. rewrite bind_console_error.
  destruct (truthy (cause_of e)).
  - rewrite bind_console_error. unfold logged. cbn. by rewrite <- app_assoc.
  - reflexivity.
Qed.

Lemma tryBlock_closed host req_url payload fg w :
  tryBlock host req_url payload fg w
  = let req := mkRequest req_url "POST" requestHeaders payload in
    let w' := mkWorld (moduleTemplate w) (console w) (requests w ++ [req]) in
    match fetch host req with
    | Rejected e => (Throw e, w')
    | Responded r => handleResponse r fg w'
    end.
Proof.
  unfold tryBlock. unfold mbind at 1, M_bind at 1, await_fetch. cbv zeta.
  destruct (fetch host _); reflexivity.
Qed.

Lemma handleResponse_bad_status r fg w bodyText :
  ok r = false -> text r = Normal bodyText ->
  handleResponse r fg w
  = (Throw (JsError ("HTTP Error: " ++ NumberToString (status r) ++ " - " ++ bodyText)),
     logged w [ mkEntry ChanError [LStr ("HTTP-Fehler! Status: " ++ NumberToString (status r))];
                mkEntry ChanError [LStr ("Fehlerdetails: " ++ bodyText)] ]).
Proof.
  intros Hok Ht. unfold handleResponse. rewrite Hok, Ht. cbn [negb].
  unfold mbind at 1, M_bind at 1.
  rewrite bind_lift_normal, !bind_console_error.
  unfold throw, logged. cbn. by rewrite <- app_assoc.
Qed.

Lemma handleResponse_unread r fg w e :
  ok r = false -> text r = Throw e -> handleResponse r fg w = (Throw e, w).
Proof.
  intros Hok Ht. unfold handleResponse. rewrite Hok, Ht. reflexivity.
Qed.

Lemma handleResponse_parse r fg w e :
  ok r = true -> json r = Throw e -> handleResponse r fg w = (Throw e, w).
Proof.
  intros Hok Hj. unfold handleResponse. rewrite Hok, Hj. reflexivity.
Qed.

Lemma handleResponse_no_data r fg w data e :
  ok r = true -> json r = Normal data -> getprop data "error" = Throw e ->
  handleResponse r fg w = (Throw e, w).
Proof.
  intros Hok Hj He. unfold handleResponse. rewrite Hok, Hj. cbn [negb].
  rewrite bind_ret, bind_lift_normal, He. reflexivity.
Qed.

Lemma handleResponse_api r fg w data error :
  ok r = true -> json r = Normal data -> getprop data "error" = Normal error ->
  truthy error = true ->
  handleResponse r fg w
  = (Throw (apiError (field error "message")),
     logged w [ mkEntry ChanError
                  [LStr ("WebUntis API Fehler: " ++ ToString (field error "message")
                           ++ " (Code: " ++ ToString (field error "code") ++ ")")] ]).
Proof.
  intros Hok Hj He Ht. unfold handleResponse. rewrite Hok, Hj. cbn [negb].
  rewrite bind_ret, bind_lift_normal, He, bind_lift_normal, Ht.
  pose proof (truthy_not_nullish _ Ht) as N.
  unfold mbind at 1, M_bind at 1.
  repeat (rewrite ?He, ?(getprop_field error) by done; rewrite bind_lift_normal).
  rewrite bind_console_error.
  repeat (rewrite ?He, ?(getprop_field error) by done; rewrite bind_lift_normal).
  reflexivity.
Qed.

Lemma handleResponse_success r fg w data error :
  ok r = true -> json r = Normal data -> getprop data "error" = Normal error ->
  truthy error = false ->
  handleResponse r fg w = successPath data fg w.
Proof.
  intros Hok Hj He Ht. unfold handleResponse. rewrite Hok, Hj. cbn [negb].
  rewrite bind_ret, bind_lift_normal, He, bind_lift_normal, Ht.
  reflexivity.
Qed.

Lemma successPath_closed data fg w :
  successPath data fg w
  = (filteredRows ← filterRows data fg; processPayload data filteredRows,
     logged w successEntries).
Proof.
  unfold successPath. rewrite !bind_console_log.
  unfold logged, successEntries. cbn [moduleTemplate console requests].
  rewrite <- app_assoc. cbn [app].
  destruct (filterRows data fg) as [fr | e]; [| reflexivity].
  rewrite bind_lift_normal. reflexivity.
Qed.

(** The whole call, once the configuration has passed. *)
Lemma getWebUntisTimetable_run host cfg opts w :
  invalidConfig cfg = Normal false ->
  getWebUntisTimetable host cfg opts w
  = match fetch host (requestFor host (moduleTemplate w) cfg opts) with
    | Rejected e =>
        (Normal VNull, logged (requested host cfg opts w) (caughtEntries host e))
    | Responded r =>
        match handleResponse r (opt_filterGroups opts) (requested host cfg opts w) with
        | (Throw e, w') => (Normal VNull, logged w' (caughtEntries host e))
        | (Normal v, w') => (Normal v, w')
        end
    end.
Proof.
  intros H. rewrite getWebUntisTimetable_valid by done. cbv zeta.
  unfold try_catch. rewrite tryBlock_closed. cbv zeta.
  change (mkRequest _ _ _ _) with (requestFor host (moduleTemplate w) cfg opts).
  change (mkWorld _ _ _) with (requested host cfg opts w).
  destruct (fetch host _) as [e | r].
  - apply catchBlock_closed.
  - destruct (handleResponse _ _ _) as [[v | e] w']; [done | apply catchBlock_closed].
Qed.

(** ** Validation of the school identity *)

(** C5 (as amended).  When the configuration is rejected by the check of
    line 247 - it is missing or falsy, its [schoolName] or [formatName] is
    missing, empty or otherwise falsy, or its [departmentIds] is not an
    array - the call returns [null], prints the configuration error, and
    sends no request.  (The elements of [departmentIds] are not looked
    at.) *)
Theorem identity_validation host cfg opts w :
  IdentityRejected cfg ->
  fst (getWebUntisTimetable host cfg opts w) = Normal VNull /\
  requests (snd (getWebUntisTimetable host cfg opts w)) = requests w /\
  console (snd (getWebUntisTimetable host cfg opts w)) = console w ++ [configErrorEntry].
Proof.
  intros H. apply invalidConfig_true in H.
  rewrite getWebUntisTimetable_invalid by done. done.
Qed.

Lemma identity_validation_witness :
  IdentityRejected
    (obj [("schoolName", VStr ""); ("formatName", VStr "Fmt"); ("departmentIds", VArr [])]) /\
  fst (getWebUntisTimetable (sampleHost (respond 200 "" VNull))
         (obj [("schoolName", VStr ""); ("formatName", VStr "Fmt"); ("departmentIds", VArr [])])
         noOptions initialWorld) = Normal VNull.
Proof.
  assert (R : IdentityRejected
                (obj [("schoolName", VStr ""); ("formatName", VStr "Fmt");
                      ("departmentIds", VArr [])])).
  { right; left. reflexivity. }
  split; [exact R |].
  exact (proj1 (identity_validation (sampleHost (respond 200 "" VNull)) _ noOptions
                  initialWorld R)).
Defined.

(** The claim as the specification states it fails: an identity whose
    [departmentIds] is an array of non-integers passes the validation, and
    the request is sent. *)
Lemma identity_validation_counterexample : ~ spec_identity_claim.
Proof.
  intros C.
  destruct (C (sampleHost (Rejected (JsError "down")))
              (obj [ ("schoolName", VStr "S"); ("formatName", VStr "F");
                     ("departmentIds", VArr [VStr "x"]) ])
              noOptions initialWorld) as [_ R].
  - intros (m & sn & fn & ids & E & _ & _ & _ & _ & Hids & Hint).
    injection E as <-. vm_compute in Hids. injection Hids as <-.
    inversion Hint as [| ? ? [z Hz] ]. discriminate.
  - vm_compute in R. discriminate.
Qed.

(** ** Domain errors *)

(** C3 (as amended).  When the request has gone out (the configuration
    passes the validation, line 269 can put its [schoolName] into the URL,
    and [numberOfDays], which line 272 prints, is below 10^21), the
    response has a success status, the [error] field of its decoded body
    is truthy, and the message and the code of the error can be converted
    to text by the template literals of lines 303 and 304 (they are not
    objects with an own [toString], and as numbers they are below 10^21),
    the [try] block throws the error "WebUntis API Fehler: <message>", and
    the call prints the message and the code on the error console and
    returns [null], not a payload. *)
Theorem domain_error_detected host cfg opts w r data error :
  invalidConfig cfg = Normal false ->
  Sendable cfg ->
  Z.abs (numberOfDaysOf opts) < 10 ^ 21 ->
  fetch host (requestFor host (moduleTemplate w) cfg opts) = Responded r ->
  ok r = true ->
  json r = Normal data ->
  getprop data "error" = Normal error ->
  truthy error = true ->
  convertible (field error "message") = true ->
  convertible (field error "code") = true ->
  fst (handleResponse r (opt_filterGroups opts) (requested host cfg opts w))
    = Throw (apiError (field error "message")) /\
  getWebUntisTimetable host cfg opts w
    = (Normal VNull,
       logged (requested host cfg opts w)
         (diagnostic host (ApiError (field error "code") (field error "message")))).
Proof.
  intros Hc _ _ Hf Hok Hj He Ht _ _.
  rewrite getWebUntisTimetable_run, Hf by done.
  rewrite (handleResponse_api r _ _ data error) by done.
  split; [reflexivity |]. rewrite logged_logged. reflexivity.
Qed.

Lemma sampleConfig_sendable : Sendable sampleConfig.
Proof. split; reflexivity. Qed.

Lemma domain_error_detected_witness :
  Sendable sampleConfig /\
  Z.abs (numberOfDaysOf noOptions) < 10 ^ 21 /\
  truthy (field notFound "error") = true /\
  convertible (field (field notFound "error") "message") = true /\
  convertible (field (field notFound "error") "code") = true /\
  getWebUntisTimetable (sampleHost (respond 200 "" notFound)) sampleConfig
    noOptions initialWorld
  = (Normal VNull,
     logged (requested (sampleHost (respond 200 "" notFound)) sampleConfig noOptions
               initialWorld)
       [ mkEntry ChanError [LStr "WebUntis API Fehler: not found (Code: -1)"];
         mkEntry ChanError [LStr "Ein Fehler ist aufgetreten:";
                            LStr "WebUntis API Fehler: not found"] ]).
Proof.
  assert (S : Sendable sampleConfig) by (split; reflexivity).
  assert (D : Z.abs (numberOfDaysOf noOptions) < 10 ^ 21) by reflexivity.
  split; [exact S |]. split; [exact D |]. split; [reflexivity |]. split; [reflexivity |].
  split; [reflexivity |].
  pose proof (domain_error_detected (sampleHost (respond 200 "" notFound)) sampleConfig
                noOptions initialWorld
                (mkResponse 200 (Normal EmptyString) (Normal notFound)) notFound
                (field notFound "error")
                eq_refl S D eq_refl eq_refl eq_refl eq_refl eq_refl eq_refl eq_refl)
    as [_ H].
  rewrite H. reflexivity.
Defined.

(** The claim as the specification states it fails: a body whose [error]
    field is present but [null] yields the payload. *)
Lemma domain_error_counterexample : ~ spec_domain_error_claim.
Proof.
  intros C.
  specialize (C (sampleHost (respond 200 "" nullError)) sampleConfig noOptions
                initialWorld (mkResponse 200 (Normal EmptyString) (Normal nullError))
                (list_to_map [("error", VNull); ("payload", obj [("rows", VArr [])])])
                eq_refl eq_refl eq_refl eq_refl).
  assert (P : is_Some ((list_to_map [("error", VNull); ("payload", obj [("rows", VArr [])])]
                         : gmap string value) !! "error")) by (eexists; reflexivity).
  specialize (C P). vm_compute in C. discriminate.
Qed.

(** ** Error propagation *)

(** No exception leaves a call whose configuration is rejected or whose
    [schoolName] line 269 can put into the URL: every other statement
    that can throw stands in the [try] block. *)
Lemma getWebUntisTimetable_returns host cfg opts w :
  IdentityRejected cfg \/ Sendable cfg ->
  exists v, fst (getWebUntisTimetable host cfg opts w) = Normal v.
Proof.
  intros _. destruct (invalidConfig_total cfg) as [[|] H].
  - rewrite getWebUntisTimetable_invalid by done. eauto.
  - rewrite getWebUntisTimetable_run by done.
    destruct (fetch host _) as [e | r]; [eauto |].
    destruct (handleResponse _ _ _) as [[v | e] w']; eauto.
Qed.




(** The status 503 with a body that cannot be read: the message of the
    read failure is all that is printed after the request details. *)
Example unreadable_body :
  let host := sampleHost (Responded (mkResponse 503 (Throw (JsError "aborted"))
                                                (Normal VNull))) in
  failsWith host sampleConfig noOptions initialWorld
            (TransportError (BodyUnreadable 503 (JsError "aborted"))) /\
  List.filter (fun e => match chan e with ChanError => true | ChanLog => false end)
         (console (snd (getWebUntisTimetable host sampleConfig noOptions initialWorld)))
  = [mkEntry ChanError [LStr "Ein Fehler ist aufgetreten:"; LStr "aborted"]].
Proof.
  split.
  - apply (fails_unreadable _ _ _ _
             (mkResponse 503 (Throw (JsError "aborted")) (Normal VNull)));
      try reflexivity.
    apply sampleConfig_sendable.
  - vm_compute. reflexivity.
Qed.



(** ** A falsy [error] field *)













Example zero_error_proceeds :
  fst (getWebUntisTimetable
         (sampleHost (respond 200 ""
            (obj [("error", VNum 0); ("payload", obj [("rows", VArr [])])])))
         sampleConfig noOptions initialWorld)
  = Normal (obj [("rows", VArr []); ("absentElements", VUndefined)]).
Proof. vm_compute. reflexivity. Qed.

Example empty_error_proceeds :
  fst (getWebUntisTimetable
         (sampleHost (respond 200 ""
            (obj [("error", VStr ""); ("payload", obj [("rows", VArr [])])])))
         sampleConfig noOptions initialWorld)
  = Normal (obj [("rows", VArr []); ("absentElements", VUndefined)]).
Proof. vm_compute. reflexivity. Qed.

Example false_error_proceeds :
  fst (getWebUntisTimetable
         (sampleHost (respond 200 ""
            (obj [("error", VBool false); ("payload", obj [("rows", VArr [])])])))
         sampleConfig noOptions initialWorld)
  = Normal (obj [("rows", VArr []); ("absentElements", VUndefined)]).
Proof. vm_compute. reflexivity. Qed.

(** ** Filtering *)






Lemma processPayload_closed data p fr :
  getprop data "payload" = Normal p -> nullish p = false ->
  processPayload data fr
  = Normal (VObj (<["absentElements" := field p "absentElements"]>
                    (<["rows" := fr]> (ownProps p)))).
Proof.
  intros Hp Np. unfold processPayload. rewrite Hp. cbn [mbind completion_bind].
  rewrite (getprop_field p) by done. reflexivity.
Qed.


Lemma Exchange_run host cfg opts w data :
  Exchange host cfg opts w data ->
  getWebUntisTimetable host cfg opts w
  = match (filteredRows ← filterRows data (opt_filterGroups opts);
           processPayload data filteredRows) with
    | Normal v => (Normal v, logged (requested host cfg opts w) successEntries)
    | Throw e =>
        (Normal VNull,
         logged (requested host cfg opts w) (successEntries ++ caughtEntries host e))
    end.
Proof.
  intros (Hc & r & Hf & Hok & Hj & Nd & Ht).
  rewrite getWebUntisTimetable_run, Hf by done.
  rewrite (handleResponse_success r _ _ data (field data "error"))
    by (try done; by apply getprop_field).
  rewrite successPath_closed.
  destruct (_ ≫= _) as [v | e]; [reflexivity |]. by rewrite logged_logged.
Qed.



(** ** The frame of the returned payload *)

Lemma getprop_total_or_nullish v k :
  (nullish v = true /\ exists e, getprop v k = Throw e) \/
  (nullish v = false /\ getprop v k = Normal (field v k)).
Proof.
  destruct (nullish v) eqn:N.
  - left. split; [done |]. destruct v; try discriminate; eexists; reflexivity.
  - right. split; [done |]. by apply getprop_field.
Qed.

(** Every call that returns something else than [null] went through a
    passing exchange and returns the processed payload. *)
Lemma getWebUntisTimetable_payload_inv host cfg opts w v :
  fst (getWebUntisTimetable host cfg opts w) = Normal v ->
  v <> VNull ->
  exists data filteredRows,
    Exchange host cfg opts w data /\
    filterRows data (opt_filterGroups opts) = Normal filteredRows /\
    processPayload data filteredRows = Normal v.
Proof.
  intros Hv Hn.
  destruct (invalidConfig_total cfg) as [[|] Hc].
  { rewrite getWebUntisTimetable_invalid in Hv by done. cbn in Hv. congruence. }
  assert (exists data, Exchange host cfg opts w data) as [data Hx].
  { rewrite getWebUntisTimetable_run in Hv by done.
    destruct (fetch host _) as [e | r] eqn:Hf; [cbn in Hv; congruence |].
    destruct (ok r) eqn:Hok.
    - destruct (json r) as [data | e] eqn:Hj.
      + destruct (getprop_total_or_nullish data "error") as [[Nd [e He]] | [Nd He]].
        * rewrite (handleResponse_no_data r _ _ data e) in Hv by done.
          cbn in Hv. congruence.
        * destruct (truthy (field data "error")) eqn:Ht.
          -- rewrite (handleResponse_api r _ _ data _ Hok Hj He Ht) in Hv.
             cbn in Hv. congruence.
          -- exists data. split; [done |]. exists r. done.
      + rewrite (handleResponse_parse r _ _ e) in Hv by done. cbn in Hv. congruence.
    - destruct (text r) as [bodyText | e] eqn:Ht.
      + rewrite (handleResponse_bad_status r _ _ bodyText) in Hv by done.
        cbn in Hv. congruence.
      + rewrite (handleResponse_unread r _ _ e) in Hv by done. cbn in Hv. congruence. }
  exists data. rewrite (Exchange_run _ _ _ _ _ Hx) in Hv.
  destruct (filterRows data (opt_filterGroups opts)) as [fr | e] eqn:Ef;
    cbn [mbind completion_bind] in Hv; [| cbn in Hv; congruence].
  exists fr. split; [done |]. split; [done |].
  destruct (processPayload data fr) as [v' | e]; cbn in Hv; congruence.
Qed.

(** C6.  Every call that returns something else than [null] returns an
    object built from the decoded payload [p]: its [rows] is the output of
    the filter block, its [absentElements] is [p.absentElements] as it came
    (whatever [filterGroups] is), and every other property is the own
    property of [p] of that name, present or absent alike. *)
Theorem payload_frame host cfg opts w v :
  fst (getWebUntisTimetable host cfg opts w) = Normal v ->
  v <> VNull ->
  exists data p filteredRows out,
    Exchange host cfg opts w data /\
    getprop data "payload" = Normal p /\
    filterRows data (opt_filterGroups opts) = Normal filteredRows /\
    v = VObj out /\
    out !! "rows" = Some filteredRows /\
    out !! "absentElements" = Some (field p "absentElements") /\
    forall k, k <> "rows" -> k <> "absentElements" -> out !! k = ownProps p !! k.
Proof.
  intros Hv Hn.
  destruct (getWebUntisTimetable_payload_inv _ _ _ _ _ Hv Hn) as (data & fr & Hx & Hf & Hp).
  destruct (getprop data "payload") as [p | e] eqn:Ep;
    [| unfold processPayload in Hp; rewrite Ep in Hp; discriminate].
  destruct (nullish p) eqn:Np.
  { unfold processPayload in Hp. rewrite Ep in Hp. cbn [mbind completion_bind] in Hp.
    destruct p; discriminate. }
  rewrite (processPayload_closed data p fr Ep Np) in Hp. injection Hp as <-.
  eexists data, p, fr, _. repeat (split; [done || reflexivity |]).
  split; [rewrite lookup_insert_ne, lookup_insert_eq; done |].
  split; [by rewrite lookup_insert_eq |].
  intros k K1 K2. by rewrite !lookup_insert_ne.
Qed.

Lemma payload_frame_witness :
  fst (getWebUntisTimetable (sampleHost (respond 200 "" filterSample)) sampleConfig
         only11a initialWorld) = Normal filteredSample /\
  filteredSample <> VNull /\
  exists data p filteredRows out,
    Exchange (sampleHost (respond 200 "" filterSample)) sampleConfig only11a
             initialWorld data /\
    getprop data "payload" = Normal p /\
    filterRows data (opt_filterGroups only11a) = Normal filteredRows /\
    filteredSample = VObj out /\
    out !! "rows" = Some filteredRows /\
    out !! "absentElements" = Some (field p "absentElements") /\
    forall k, k <> "rows" -> k <> "absentElements" -> out !! k = ownProps p !! k.
Proof.
  assert (R : fst (getWebUntisTimetable (sampleHost (respond 200 "" filterSample))
                     sampleConfig only11a initialWorld) = Normal filteredSample)
    by (vm_compute; reflexivity).
  assert (N : filteredSample <> VNull) by (unfold filteredSample, obj; discriminate).
  split; [exact R |]. split; [exact N |].
  exact (payload_frame _ _ _ _ _ R N).
Defined.

(** ** The flag block *)

Lemma handleResponse_logs r fg w :
  exists es, snd (handleResponse r fg w) = logged w es.
Proof.
  destruct (ok r) eqn:Hok.
  - destruct (json r) as [data | e] eqn:Hj.
    + destruct (getprop data "error") as [error | e] eqn:He.
      * destruct (truthy error) eqn:Ht.
        -- rewrite (handleResponse_api r _ _ data error) by done. eauto.
        -- rewrite (handleResponse_success r _ _ data error) by done.
           rewrite successPath_closed. eauto.
      * rewrite (handleResponse_no_data r _ _ data e) by done.
        exists []. by rewrite logged_nil.
    + rewrite (handleResponse_parse r _ _ e) by done. exists []. by rewrite logged_nil.
  - destruct (text r) as [bodyText | e] eqn:Ht.
    + rewrite (handleResponse_bad_status r _ _ bodyText) by done. eauto.
    + rewrite (handleResponse_unread r _ _ e) by done. exists []. by rewrite logged_nil.
Qed.

(** The world after a call: console lines are added, and at most the one
    request is sent. *)
Lemma getWebUntisTimetable_world host cfg opts w :
  exists es sent,
    snd (getWebUntisTimetable host cfg opts w)
    = mkWorld (moduleTemplate w) (console w ++ es) (requests w ++ sent) /\
    (sent = [] \/ sent = [requestFor host (moduleTemplate w) cfg opts]).
Proof.
  destruct (invalidConfig_total cfg) as [[|] Hc].
  - rewrite getWebUntisTimetable_invalid by done. exists [configErrorEntry], [].
    cbn. rewrite app_nil_r. auto.
  - rewrite getWebUntisTimetable_run by done.
    destruct (fetch host _) as [e | r].
    + eexists _, _. split; [| right; reflexivity].
      unfold logged, requested. cbn. by rewrite <- app_assoc.
    + destruct (handleResponse_logs r (opt_filterGroups opts) (requested host cfg opts w))
        as [es Hes].
      destruct (handleResponse _ _ _) as [[v | e] w']; cbn [snd] in *; subst w'.
      * eexists _, _. split; [| right; reflexivity].
        unfold logged, requested. cbn. by rewrite <- app_assoc.
      * eexists _, _. split; [| right; reflexivity].
        rewrite logged_logged. unfold logged, requested. cbn. by rewrite <- app_assoc.
Qed.

Lemma buildPayload_template tpl sn fn ids d off nd k :
  k ∉ overlayKeys -> buildPayload tpl sn fn ids d off nd !! k = tpl !! k.
Proof.
  intros H. unfold buildPayload, overlayKeys in *.
  rewrite !not_elem_of_cons in H. destruct H as (? & ? & ? & ? & ? & ? & _).
  by rewrite !lookup_insert_ne.
Qed.

Lemma template_keys k v :
  BASE_MONITOR_PAYLOAD_TEMPLATE !! k = Some v -> k ∉ overlayKeys.
Proof.
  intros H Hin. unfold overlayKeys in Hin.
  repeat (apply elem_of_cons in Hin as [-> | Hin]; [vm_compute in H; discriminate |]).
  by apply elem_of_nil in Hin.
Qed.

(** A call whose configuration passes the validation sends its request,
    whatever the network answers. *)
Lemma accepted_request_sent host cfg opts w :
  invalidConfig cfg = Normal false ->
  requests (snd (getWebUntisTimetable host cfg opts w))
  = requests w ++ [requestFor host (moduleTemplate w) cfg opts].
Proof.
  intros Hc. rewrite getWebUntisTimetable_run by done.
  destruct (fetch host _) as [e | r]; [reflexivity |].
  destruct (handleResponse_logs r (opt_filterGroups opts) (requested host cfg opts w))
    as [es Hes].
  destruct (handleResponse _ _ _) as [[v | e] w']; cbn [snd] in *; subst w'; reflexivity.
Qed.

(** C9.  Started in a world where the module constant holds the flag
    block, a call leaves the constant as it is; every request it sends
    carries each flag of the block in its body, under the same name with
    the same value; and a call whose configuration passes the validation
    (with a [schoolName] that line 269 can put into the URL) does send
    one request, which carries the flags. *)
Theorem flag_block_invariant host cfg opts w :
  moduleTemplate w = BASE_MONITOR_PAYLOAD_TEMPLATE ->
  moduleTemplate (snd (getWebUntisTimetable host cfg opts w))
    = BASE_MONITOR_PAYLOAD_TEMPLATE /\
  (exists sent,
    requests (snd (getWebUntisTimetable host cfg opts w)) = requests w ++ sent /\
    forall req, req ∈ sent ->
      forall k v, BASE_MONITOR_PAYLOAD_TEMPLATE !! k = Some v -> body req !! k = Some v) /\
  (~ IdentityRejected cfg -> Sendable cfg ->
   exists req,
     requests (snd (getWebUntisTimetable host cfg opts w)) = requests w ++ [req] /\
     forall k v, BASE_MONITOR_PAYLOAD_TEMPLATE !! k = Some v -> body req !! k = Some v).
Proof.
  intros Hw.
  assert (Hflags : forall k v, BASE_MONITOR_PAYLOAD_TEMPLATE !! k = Some v ->
                     body (requestFor host (moduleTemplate w) cfg opts) !! k = Some v).
  { intros k v Hk. unfold requestFor. cbn [body].
    rewrite buildPayload_template, Hw; [done |]. by eapply template_keys. }
  destruct (getWebUntisTimetable_world host cfg opts w) as (es & sent & E & S).
  split; [by rewrite E |]. split.
  - rewrite E. cbn [requests]. exists sent. split; [done |]. intros req Hreq.
    destruct S as [-> | ->]; [by apply elem_of_nil in Hreq |].
    by apply list_elem_of_singleton in Hreq as ->.
  - intros Hacc _. exists (requestFor host (moduleTemplate w) cfg opts).
    split; [| exact Hflags]. apply accepted_request_sent.
    destruct (invalidConfig_total cfg) as [[|] Hc]; [| done].
    by apply invalidConfig_true in Hc.
Qed.

Lemma flag_block_invariant_witness :
  moduleTemplate initialWorld = BASE_MONITOR_PAYLOAD_TEMPLATE /\
  ~ IdentityRejected sampleConfig /\
  Sendable sampleConfig /\
  exists req,
    requests (snd (getWebUntisTimetable (sampleHost (respond 200 "" nullError))
                     sampleConfig noOptions initialWorld)) = [req] /\
    body req !! "showAbsentElements" = Some (VArr [VNum 2]) /\
    body req !! "strikethrough" = Some VTrue /\
    body req !! "groupBy" = Some (VNum 1).
Proof.
  assert (N : ~ IdentityRejected sampleConfig).
  { intros [H | [H | [H | H]]]; discriminate. }
  assert (S : Sendable sampleConfig) by (split; reflexivity).
  split; [reflexivity |]. split; [exact N |]. split; [exact S |].
  destruct (proj2 (proj2 (flag_block_invariant (sampleHost (respond 200 "" nullError))
                            sampleConfig noOptions initialWorld eq_refl)) N S)
    as (req & Hreq & Hflags).
  exists req. split; [exact Hreq |].
  split; [| split]; apply Hflags; reflexivity.
Defined.

Example flag_block_size : size BASE_MONITOR_PAYLOAD_TEMPLATE = 34%nat.
Proof. vm_compute. reflexivity. Qed.

Example flags_in_sent_body :
  (fun req => (body req !! "showAbsentElements", body req !! "groupBy",
               body req !! "date"))
    <$> requests (snd (getWebUntisTimetable (sampleHost (respond 200 "" nullError))
                         sampleConfig only11a initialWorld))
  = [(Some (VArr [VNum 2]), Some (VNum 1), Some (VNum 20240229))].
Proof. vm_compute. reflexivity. Qed.

(** Calls one after the other keep the constant. *)
Lemma flag_block_sequence (calls : list (Host * value * TimetableQueryOptions)) w :
  moduleTemplate w = BASE_MONITOR_PAYLOAD_TEMPLATE ->
  moduleTemplate
    (fold_left (fun w '(host, cfg, opts) => snd (getWebUntisTimetable host cfg opts w))
               calls w)
  = BASE_MONITOR_PAYLOAD_TEMPLATE.
Proof.
  revert w. induction calls as [| [[host cfg] opts] calls IH]; intros w Hw; [done |].
  cbn [fold_left]. apply IH.
  destruct (getWebUntisTimetable_world host cfg opts w) as (es & sent & E & _).
  by rewrite E.
Qed.

(** ** Presentation of a row *)

Lemma append_assoc_s (a b c : string) : ((a +:+ b) +:+ c) = (a +:+ (b +:+ c)).
Proof. induction a; [done |]. rewrite !append_cons. by f_equal. Qed.

Lemma length_app_s a b : String.length (a +:+ b) = (String.length a + String.length b)%nat.
Proof. induction a as [| c a IH]; [done |]. rewrite append_cons. cbn. by f_equal. Qed.

Lemma closeAt_body body post :
  occursIn ">" body = false ->
  closeAt (body +:+ String ">" post) = Some (S (String.length body)).
Proof.
  induction body as [| c body IH]; cbn [occursIn]; intros H.
  - reflexivity.
  - apply orb_false_iff in H as [Hc Hb]. rewrite append_cons. cbn [closeAt String.length].
    rewrite Hc, IH by done. reflexivity.
Qed.

Lemma closeAt_some s n :
  closeAt s = Some n ->
  exists body post, s = (body +:+ String ">" post) /\ occursIn ">" body = false
                    /\ n = S (String.length body).
Proof.
  revert n. induction s as [| c s IH]; intros n; cbn [closeAt]; [discriminate |].
  destruct (Ascii.eqb c ">") eqn:E.
  - intros H. injection H as <-. apply Ascii.eqb_eq in E as ->.
    exists EmptyString, s. done.
  - destruct (closeAt s) as [k |]; [| discriminate]. cbn. intros H. injection H as <-.
    destruct (IH k eq_refl) as (body & post & -> & Hb & ->).
    exists (String c body), post. rewrite append_cons. cbn [occursIn String.length].
    rewrite E, Hb. done.
Qed.

Lemma replaceTagsFrom_skip a b :
  replaceTagsFrom (String.length a) (a +:+ b) = replaceTagsFrom 0 b.
Proof.
  induction a as [| c a IH]; [reflexivity |].
  rewrite append_cons. cbn [String.length replaceTagsFrom]. exact IH.
Qed.

Lemma matchTag_none_keep c r :
  matchTag (String c r) = None ->
  replaceTags (String c r) = String c (replaceTags r).
Proof. unfold replaceTags. cbn [replaceTagsFrom]. by intros ->. Qed.

Lemma replaceTags_tag body post :
  occursIn ">" body = false ->
  replaceTags (String "<" (body +:+ String ">" post)) = replaceTags post.
Proof.
  intros H. unfold replaceTags. cbn [replaceTagsFrom matchTag].
  change (Ascii.eqb "<" "<") with true. cbv iota.
  rewrite closeAt_body by done. cbn [fmap option_fmap option_map].
  rewrite <- (replaceTagsFrom_skip (body +:+ String ">" EmptyString) post).
  rewrite append_assoc_s, append_cons, append_nil.
  f_equal. rewrite length_app_s. cbn. lia.
Qed.

Lemma replaceTags_strip pre body post :
  occursIn "<" pre = false -> occursIn ">" body = false ->
  replaceTags (tagAt pre body post) = (pre +:+ replaceTags post).
Proof.
  unfold tagAt. intros Hp Hb. induction pre as [| c pre IH]; cbn [occursIn] in Hp.
  - rewrite !append_nil. by apply replaceTags_tag.
  - apply orb_false_iff in Hp as [Hc Hp]. rewrite !append_cons.
    rewrite matchTag_none_keep; [by rewrite IH |].
    cbn [matchTag]. by rewrite Hc.
Qed.

Lemma NoTag_tail c s : NoTag (String c s) -> NoTag s.
Proof.
  intros H pre body post E. apply (H (String c pre) body post).
  unfold tagAt in *. rewrite append_cons. by f_equal.
Qed.

Lemma replaceTags_NoTag s : NoTag s -> replaceTags s = s.
Proof.
  induction s as [| c s IH]; intros H; [reflexivity |].
  destruct (matchTag (String c s)) as [n |] eqn:E.
  - exfalso. cbn [matchTag] in E. destruct (Ascii.eqb c "<") eqn:Ec; [| discriminate].
    apply Ascii.eqb_eq in Ec as ->.
    destruct (closeAt s) as [k |] eqn:Ek; [| discriminate].
    destruct (closeAt_some _ _ Ek) as (body & post & -> & _ & _).
    apply (H EmptyString body post). reflexivity.
  - rewrite matchTag_none_keep by done. f_equal. apply IH. by eapply NoTag_tail.
Qed.

(** Whatever the specification's reading yields is what [replace]
    computes. *)
Lemma TagsRemoved_unique s out : TagsRemoved s out -> out = replaceTags s.
Proof.
  induction 1 as [s H | pre body post out Hp Hb _ IH].
  - symmetry. by apply replaceTags_NoTag.
  - rewrite replaceTags_strip by done. by f_equal.
Qed.

Lemma occursIn_split c s :
  occursIn c s = true ->
  exists a b, s = (a +:+ String c b) /\ occursIn c a = false.
Proof.
  induction s as [| x s IH]; cbn [occursIn]; [discriminate |].
  destruct (Ascii.eqb x c) eqn:E.
  - intros _. apply Ascii.eqb_eq in E as ->. exists EmptyString, s. done.
  - cbn [orb]. intros H. destruct (IH H) as (a & b & -> & Ha).
    exists (String x a), b. rewrite append_cons. cbn [occursIn]. by rewrite E, Ha.
Qed.

Lemma occursIn_app c a b : occursIn c (a +:+ b) = occursIn c a || occursIn c b.
Proof.
  induction a as [| x a IH]; [reflexivity |].
  rewrite append_cons. cbn [occursIn]. rewrite IH. by rewrite orb_assoc.
Qed.

Lemma NoTag_no_open s : occursIn "<" s = false -> NoTag s.
Proof.
  intros H pre body post ->. unfold tagAt in H.
  rewrite occursIn_app in H. cbn [occursIn] in H.
  change (Ascii.eqb "<" "<") with true in H. cbn in H.
  by rewrite orb_true_r in H.
Qed.

Lemma NoTag_no_close pre rest :
  occursIn "<" pre = false -> occursIn ">" rest = false ->
  NoTag (pre +:+ String "<" rest).
Proof.
  intros Hp Hr pre' body post E. unfold tagAt in E.
  (* the first [<] of both sides is at the same place *)
  assert (K : forall a b a' b', occursIn "<" a = false ->
              (a +:+ String "<" b) = (a' +:+ String "<" b') ->
              occursIn ">" b = false -> occursIn ">" b' = false).
  { clear. induction a as [| x a IH]; intros b a' b' Ha E Hb.
    - rewrite append_nil in E. destruct a' as [| y a'].
      + rewrite append_nil in E. by injection E as <-.
      + rewrite append_cons in E. injection E as <- ->.
        rewrite occursIn_app in Hb. cbn [occursIn] in Hb.
        apply orb_false_iff in Hb as [_ Hb]. by apply orb_false_iff in Hb as [_ Hb].
    - cbn [occursIn] in Ha. apply orb_false_iff in Ha as [Hx Ha].
      destruct a' as [| y a'].
      + rewrite append_nil, append_cons in E. injection E as -> _.
        by rewrite Ascii.eqb_refl in Hx.
      + rewrite !append_cons in E. injection E as _ E. by eapply IH. }
  specialize (K pre rest pre' (body +:+ String ">" post) Hp E Hr).
  rewrite occursIn_app in K. cbn [occursIn] in K.
  change (Ascii.eqb ">" ">") with true in K. cbn in K. by rewrite orb_true_r in K.
Qed.

Lemma TagsRemoved_exists_len n s :
  (String.length s <= n)%nat -> exists out, TagsRemoved s out.
Proof.
  revert s. induction n as [| n IH]; intros s Hn.
  - destruct s; [| cbn in Hn; lia]. exists EmptyString. apply tags_none.
    by apply NoTag_no_open.
  - destruct (occursIn "<" s) eqn:Eo.
    + destruct (occursIn_split _ _ Eo) as (pre & rest & -> & Hp).
      destruct (occursIn ">" rest) eqn:Ec.
      * destruct (occursIn_split _ _ Ec) as (body & post & -> & Hb).
        destruct (IH post) as [out Hout].
        { rewrite !length_app_s in Hn. cbn [String.length] in Hn.
          rewrite !length_app_s in Hn. cbn [String.length] in Hn. lia. }
        exists (pre +:+ out). by apply tags_strip.
      * eexists. apply tags_none. by apply NoTag_no_close.
    + exists s. apply tags_none. by apply NoTag_no_open.
Qed.

Lemma TagsRemoved_replaceTags s : TagsRemoved s (replaceTags s).
Proof.
  destruct (TagsRemoved_exists_len (String.length s) s) as [out H]; [lia |].
  by rewrite <- (TagsRemoved_unique _ _ H).
Qed.

Lemma append_nil_r (s : string) : (s +:+ "") = s.
Proof. induction s as [| c s IH]; [done |]. rewrite append_cons. by f_equal. Qed.








Example tags_stripped : replaceTags "Room <b>changed</b>" = "Room changed".
Proof. reflexivity. Qed.

Example no_cellClasses_not_cancelled : isCancelled (sampleRow "11a" "") = Normal false.
Proof. reflexivity. Qed.

(** ** Grouping *)

Lemma ascii_compare_N a b :
  Ascii.compare a b = N.compare (N_of_ascii a) (N_of_ascii b).
Proof. reflexivity. Qed.

Lemma ascii_compare_eq a b : Ascii.compare a b = Eq -> a = b.
Proof.
  rewrite ascii_compare_N. intros H. apply N.compare_eq in H.
  rewrite <- (ascii_N_embedding a), <- (ascii_N_embedding b). by f_equal.
Qed.

Lemma ascii_compare_refl a : Ascii.compare a a = Eq.
Proof. rewrite ascii_compare_N. apply N.compare_refl. Qed.

Lemma str_compare_refl s : String.compare s s = Eq.
Proof. induction s as [| c s IH]; [done |]. cbn. by rewrite ascii_compare_refl. Qed.

Lemma str_compare_lt_trans a b c :
  String.compare a b = Lt -> String.compare b c = Lt -> String.compare a c = Lt.
Proof.
  revert b c. induction a as [| x a IH]; intros [| y b] [| z c]; cbn; try done.
  rewrite !ascii_compare_N.
  destruct (N.compare_spec (N_of_ascii x) (N_of_ascii y)) as [E1 | L1 | G1]; try done;
  destruct (N.compare_spec (N_of_ascii y) (N_of_ascii z)) as [E2 | L2 | G2]; try done;
  destruct (N.compare_spec (N_of_ascii x) (N_of_ascii z)) as [E3 | L3 | G3]; try done;
  try lia.
  apply IH.
Qed.

Lemma sortByte_involutive c : sortByte (sortByte c) = c.
Proof. destruct c as [[] [] [] [] [] [] [] []]; vm_compute; reflexivity. Qed.

Lemma sortKey_inj s t : sortKey s = sortKey t -> s = t.
Proof.
  revert t. induction s as [| c s IH]; intros [| d t]; cbn [sortKey]; try done.
  intros H. injection H as Hc Hs. f_equal; [| by apply IH].
  by rewrite <- (sortByte_involutive c), Hc, sortByte_involutive.
Qed.

Lemma str_le_cases s t : str_le s t <-> str_lt s t \/ s = t.
Proof.
  unfold str_le, str_lt, String.leb, String.ltb.
  destruct (String.compare (sortKey s) (sortKey t)) eqn:E.
  - split; [intros _; right; by apply sortKey_inj, String.compare_eq_iff | done].
  - split; [by left | done].
  - split; [done |]. intros [H | ->]; [done |]. by rewrite str_compare_refl in E.
Qed.

Lemma str_lt_compare s t : str_lt s t <-> String.compare (sortKey s) (sortKey t) = Lt.
Proof. unfold str_lt, String.ltb. destruct (String.compare _ _); done. Qed.

#[local] Instance str_lt_trans : Transitive str_lt.
Proof. intros a b c. rewrite !str_lt_compare. apply str_compare_lt_trans. Qed.

#[local] Instance str_le_trans : Transitive str_le.
Proof.
  intros a b c. rewrite !str_le_cases. intros [H1 | ->] [H2 | ->]; auto.
  left. by etrans.
Qed.

#[local] Instance str_le_total : Total str_le.
Proof. intros a b. apply String.leb_total. Qed.

(** The order is that of the code units: a character above U+FFFF comes
    after one below U+D800 and before one from U+E000 on. *)
Example sort_order_astral :
  merge_sort str_le
    [ String (ascii_of_N 239) (String (ascii_of_N 188) (String (ascii_of_N 161) ""));
      String (ascii_of_N 240) (String (ascii_of_N 159)
        (String (ascii_of_N 152) (String (ascii_of_N 128) "")));
      "z" ]
  = [ "z";
      String (ascii_of_N 240) (String (ascii_of_N 159)
        (String (ascii_of_N 152) (String (ascii_of_N 128) "")));
      String (ascii_of_N 239) (String (ascii_of_N 188) (String (ascii_of_N 161) "")) ].
Proof. vm_compute. reflexivity. Qed.

Lemma str_lt_irrefl s : ~ str_lt s s.
Proof. rewrite str_lt_compare, str_compare_refl. done. Qed.

Lemma strongly_sorted_strict (l : list string) :
  StronglySorted str_le l -> NoDup l -> StronglySorted str_lt l.
Proof.
  induction 1 as [| x l Hs IH Hx]; intros Hn; [constructor |].
  apply NoDup_cons in Hn as [Hnx Hn]. constructor; [by apply IH |].
  rewrite Forall_forall in *. intros y Hy.
  destruct (proj1 (str_le_cases x y) (Hx y Hy)) as [H | ->]; done.
Qed.

Lemma sortedGroupNames_sorted grouped :
  StronglySorted str_lt (sortedGroupNames grouped).
Proof.
  unfold sortedGroupNames. apply strongly_sorted_strict.
  - apply StronglySorted_merge_sort; apply _.
  - rewrite merge_sort_Permutation. apply NoDup_fst_map_to_list.
Qed.

Lemma sortedGroupNames_elem grouped k :
  k ∈ sortedGroupNames grouped <-> is_Some (grouped !! k).
Proof.
  unfold sortedGroupNames. rewrite merge_sort_Permutation.
  rewrite list_elem_of_fmap. split.
  - intros ([k' b] & -> & H). apply elem_of_map_to_list in H. by eexists.
  - intros [b H]. exists (k, b). split; [done |]. by apply elem_of_map_to_list.
Qed.

Lemma groupStep_closed acc row :
  nullish row = false ->
  groupStep acc row
  = match acc !! keyOf row with
    | Some bucket => Normal (<[keyOf row := bucket ++ [row]]> acc)
    | None =>
        if bool_decide (keyOf row ∈ objectPrototypeKeys)
        then Throw (TypeError "push")
        else Normal (<[keyOf row := [row]]> acc)
    end.
Proof.
  intros N. unfold groupStep. rewrite (getprop_field row) by done. reflexivity.
Qed.

Lemma reduce_buckets rows :
  Forall GroupableRow rows ->
  forall acc,
  exists acc',
    reduceM groupStep rows acc = Normal acc' /\
    forall k,
      acc' !! k
      = match acc !! k, filter (fun row => keyOf row = k) rows with
        | None, [] => None
        | bucket, more => Some (default [] bucket ++ more)
        end.
Proof.
  induction 1 as [| row rows (Hn & _ & Hk) _ IH]; intros acc.
  - exists acc. split; [reflexivity |]. intros k. rewrite filter_nil.
    destruct (acc !! k); cbn; by rewrite ?app_nil_r.
  - cbn [reduceM]. rewrite groupStep_closed by done.
    destruct (acc !! keyOf row) as [bucket |] eqn:E.
    + cbn [mbind completion_bind].
      destruct (IH (<[keyOf row := bucket ++ [row]]> acc)) as (acc' & Hr & Hb).
      exists acc'. split; [done |]. intros k. rewrite Hb, filter_cons.
      destruct (decide (keyOf row = k)) as [<- | Hne].
      * rewrite lookup_insert_eq, E. cbn. by rewrite <- app_assoc.
      * by rewrite lookup_insert_ne.
    + rewrite bool_decide_eq_false_2 by done. cbn [mbind completion_bind].
      destruct (IH (<[keyOf row := [row]]> acc)) as (acc' & Hr & Hb).
      exists acc'. split; [done |]. intros k. rewrite Hb, filter_cons.
      destruct (decide (keyOf row = k)) as [<- | Hne].
      * rewrite lookup_insert_eq, E. reflexivity.
      * by rewrite lookup_insert_ne.
Qed.

Lemma keyOf_unknown row :
  truthy (field row "group") = false -> keyOf row = unknownGroup.
Proof. unfold keyOf, groupNameOf, or_else. by intros ->. Qed.

Lemma keyOf_named row g :
  field row "group" = VStr g -> g <> EmptyString -> keyOf row = g.
Proof.
  unfold keyOf, groupNameOf, or_else. intros -> H. cbn [truthy].
  destruct g; [done | reflexivity].
Qed.

(** Grouping when no group name collides with an inherited member. *)
Lemma grouping_without_inherited_names rows :
  Forall GroupableRow rows ->
  exists groups,
    groupsInOrder (VArr rows) = Normal groups /\
    StronglySorted str_lt groups.*1 /\
    (forall k, k ∈ groups.*1 <-> exists row, row ∈ rows /\ keyOf row = k) /\
    (forall k bucket, (k, bucket) ∈ groups ->
                      bucket = filter (fun row => keyOf row = k) rows) /\
    (forall row, row ∈ rows -> truthy (field row "group") = false ->
                 exists bucket, (unknownGroup, bucket) ∈ groups /\ row ∈ bucket).
Proof.
  intros H. destruct (reduce_buckets rows H ∅) as (grouped & Hr & Hb).
  assert (Hlook : forall k, grouped !! k
                  = match filter (fun row => keyOf row = k) rows with
                    | [] => None
                    | more => Some more
                    end).
  { intros k. rewrite Hb, lookup_empty. by destruct (filter _ rows). }
  assert (Hfst : (map (fun groupName => (groupName, default [] (grouped !! groupName)))
                      (sortedGroupNames grouped)).*1 = sortedGroupNames grouped).
  { rewrite <- list_fmap_compose. apply list_fmap_id. }
  eexists. unfold groupsInOrder. cbn [groupedTimetable]. rewrite Hr.
  cbn [mbind completion_bind]. split; [reflexivity |].
  rewrite Hfst. split; [apply sortedGroupNames_sorted |]. split; [| split].
  - intros k. rewrite sortedGroupNames_elem, Hlook. split.
    + intros [b Hs]. destruct (filter _ rows) as [| row more] eqn:E; [done |].
      assert (Hin : row ∈ filter (fun row => keyOf row = k) rows) by (rewrite E; left).
      apply list_elem_of_filter in Hin as [? ?]. eauto.
    + intros (row & Hin & Hk).
      assert (Hf : row ∈ filter (fun row => keyOf row = k) rows)
        by (by apply list_elem_of_filter).
      destruct (filter _ rows); [by apply elem_of_nil in Hf | by eexists].
  - intros k bucket Hin. apply list_elem_of_fmap in Hin as (k' & E & Hk').
    injection E as <- ->. apply sortedGroupNames_elem in Hk' as [b Hs].
    rewrite Hs. cbn. rewrite Hlook in Hs. by destruct (filter _ rows); inversion Hs.
  - intros row Hin Hf. exists (filter (fun row => keyOf row = unknownGroup) rows).
    assert (Hrow : row ∈ filter (fun row => keyOf row = unknownGroup) rows).
    { apply list_elem_of_filter. split; [by apply keyOf_unknown | done]. }
    split; [| done]. apply list_elem_of_fmap. exists unknownGroup. split.
    + rewrite Hlook. destruct (filter _ rows); [by apply elem_of_nil in Hrow | done].
    + apply sortedGroupNames_elem. rewrite Hlook.
      destruct (filter _ rows); [by apply elem_of_nil in Hrow | by eexists].
Qed.

(** C8 (defect of the code).  A row whose group is named like a member
    that the accumulator [{}] inherits from [Object.prototype] - here
    [constructor] - is not grouped: [acc[groupName]] is the inherited
    function, no bucket is created, [push] is not a function, and the
    TypeError leaves [renderTimetableConsole] before any group is
    printed. *)
Theorem grouping_inherited_name_fails :
  let rows := VArr [sampleRow "10b" ""; sampleRow "constructor" ""] in
  groupsInOrder rows = Throw (TypeError "push") /\
  fst (renderTimetableConsole (obj [("rows", rows)]) None initialWorld)
    = Throw (TypeError "push").
Proof. split; vm_compute; reflexivity. Qed.
(** * Further facts

    ** The date code *)

(** *** Order and decoding of the date code *)

Lemma encode_nextDay c : Civil.valid c -> Civil.encode c < Civil.encode (Civil.nextDay c).
Proof.
  destruct c as [y m d]. unfold Civil.valid, Civil.nextDay, Civil.encode.
  cbn [Civil.year Civil.month Civil.day]. intros [Hm Hd].
  assert (Civil.daysInMonth y m <= 31).
  { unfold Civil.daysInMonth. repeat case_match; lia. }
  destruct (d <? Civil.daysInMonth y m) eqn:E1; cbn [Civil.year Civil.month Civil.day];
    [lia |].
  destruct (m <? 12) eqn:E2; cbn [Civil.year Civil.month Civil.day]; bool_to_Z; lia.
Qed.

Lemma codeOfDay_succ n : codeOfDay n < codeOfDay (n + 1).
Proof.
  unfold codeOfDay. rewrite (fields_succ (n * msPerDay) ((n + 1) * msPerDay)).
  - apply encode_nextDay, fields_valid.
  - by rewrite !Day_of_day.
Qed.

Lemma codeOfDay_lt a b : a < b -> codeOfDay a < codeOfDay b.
Proof.
  intros H. replace b with (a + 1 + Z.of_nat (Z.to_nat (b - a - 1))) by lia.
  induction (Z.to_nat (b - a - 1)) as [| k IH].
  - rewrite Z.add_0_r. apply codeOfDay_succ.
  - etrans; [exact IH |]. replace (a + 1 + Z.of_nat (S k)) with (a + 1 + Z.of_nat k + 1) by lia.
    apply codeOfDay_succ.
Qed.

Lemma codeOfDay_local t : Civil.encode (localFields t) = codeOfDay (Day t).
Proof. unfold codeOfDay. f_equal. apply fields_Day. by rewrite Day_of_day. Qed.

(** X1.  The date code orders days as the calendar does: for two
    instants in years from 0 on, the code of the first is smaller than the
    code of the second exactly when its local day is earlier, and the two
    codes are equal exactly when the instants fall on the same local
    day. *)
Theorem untis_date_order tza tv1 tv2 :
  0 <= Civil.year (civilOf tza tv1) ->
  0 <= Civil.year (civilOf tza tv2) ->
  exists n1 n2,
    getUntisDate tza (DateAt tv1) = Num n1 /\
    getUntisDate tza (DateAt tv2) = Num n2 /\
    (n1 < n2 <-> Day (LocalTime tza tv1) < Day (LocalTime tza tv2)) /\
    (n1 = n2 <-> Day (LocalTime tza tv1) = Day (LocalTime tza tv2)).
Proof.
  intros H1 H2. rewrite !getUntisDate_encode by done.
  eexists _, _. split; [reflexivity |]. split; [reflexivity |].
  unfold civilOf. rewrite !codeOfDay_local.
  set (a := Day (LocalTime tza tv1)). set (b := Day (LocalTime tza tv2)).
  clearbody a b.
  pose proof (codeOfDay_lt a b). pose proof (codeOfDay_lt b a).
  assert (a = b -> codeOfDay a = codeOfDay b) by (by intros ->).
  destruct (Z.lt_trichotomy a b) as [? | [? | ?]]; lia.
Qed.

Lemma untis_date_order_witness :
  0 <= Civil.year (civilOf 0 feb28_2024) /\
  0 <= Civil.year (civilOf 0 dec31_2024) /\
  exists n1 n2,
    getUntisDate 0 (DateAt feb28_2024) = Num n1 /\
    getUntisDate 0 (DateAt dec31_2024) = Num n2 /\
    (n1 < n2 <-> Day (LocalTime 0 feb28_2024) < Day (LocalTime 0 dec31_2024)).
Proof.
  assert (H1 : 0 <= Civil.year (civilOf 0 feb28_2024)) by (vm_compute; discriminate).
  assert (H2 : 0 <= Civil.year (civilOf 0 dec31_2024)) by (vm_compute; discriminate).
  split; [exact H1 |]. split; [exact H2 |].
  destruct (untis_date_order 0 feb28_2024 dec31_2024 H1 H2) as (n1 & n2 & E1 & E2 & L & _).
  exists n1, n2. auto.
Defined.


(** X2.  The date code can be read back: for an instant in a year from 0
    on, dividing the code by 10000 gives the local year, the next two
    digits the month and the last two digits the day of the month. *)
Theorem untis_date_decode tza tv n :
  0 <= Civil.year (civilOf tza tv) ->
  getUntisDate tza (DateAt tv) = Num n ->
  n / 10000 = Civil.year (civilOf tza tv) /\
  (n / 100) mod 100 = Civil.month (civilOf tza tv) /\
  n mod 100 = Civil.day (civilOf tza tv).
Proof.
  intros Hy. rewrite getUntisDate_encode by done. intros E. injection E as <-.
  pose proof (fields_valid (LocalTime tza tv)) as [Vm Vd].
  fold (civilOf tza tv) in Vm, Vd. unfold Civil.encode.
  assert (Civil.day (civilOf tza tv) <= 31).
  { unfold Civil.daysInMonth in Vd. repeat case_match; lia. }
  repeat split; Z.div_mod_to_equations; lia.
Qed.

Lemma untis_date_decode_witness :
  0 <= Civil.year (civilOf 0 feb28_2024) /\
  getUntisDate 0 (DateAt feb28_2024) = Num 20240228 /\
  20240228 / 10000 = Civil.year (civilOf 0 feb28_2024).
Proof.
  assert (H1 : 0 <= Civil.year (civilOf 0 feb28_2024)) by (vm_compute; discriminate).
  assert (H2 : getUntisDate 0 (DateAt feb28_2024) = Num 20240228)
    by (vm_compute; reflexivity).
  split; [exact H1 |]. split; [exact H2 |].
  exact (proj1 (untis_date_decode 0 feb28_2024 20240228 H1 H2)).
Defined.


Lemma numeral_negative (p : positive) :
  exists d, d <> Decimal.Nil /\
            NumberToString (Num (Z.neg p)) = String "-" (NilEmpty.string_of_uint d) /\
            Z.of_N (Pos.of_uint d) = Z.pos p.
Proof.
  exists (Pos.to_uint p). split; [| split].
  - intros E. pose proof (DecimalPos.Unsigned.of_to p) as R. rewrite E in R. discriminate.
  - cbn. unfold NilZero.string_of_uint.
    destruct (Pos.to_uint p) eqn:E; try reflexivity.
    pose proof (DecimalPos.Unsigned.of_to p) as R. rewrite E in R. discriminate.
  - rewrite DecimalPos.Unsigned.of_to. reflexivity.
Qed.

Lemma parseInt_negative_numeral (d : Decimal.uint) (rest : string) :
  d <> Decimal.Nil ->
  parseInt (String "-" (NilEmpty.string_of_uint d +:+ rest))
  = Num (- fold_left (fun acc d => 10 * acc + d) (takeDigits rest)
                     (Z.of_N (Pos.of_uint d))).
Proof.
  intros Hd. rewrite <- digits_uint.
  destruct d; [ congruence | .. ]; cbn [NilEmpty.string_of_uint]; rewrite append_cons;
    unfold parseInt; cbn [trimStart]; eval_space; cbv beta iota;
    cbn [takeDigits]; eval_digit; cbv beta iota;
    f_equal; unfold digitsValue; lia.
Qed.

(** X3.  [getUntisDate] on every Date: for a valid Date the result is the
    number whose digits are year, month and day - with the sign in front
    for a year before 0, where the code is negative - and the result is
    NaN exactly for the invalid Date. *)
Theorem untis_date_total tza :
  (forall tv, getUntisDate tza (DateAt tv) = Num (signedCode (civilOf tza tv))) /\
  (forall d, getUntisDate tza d = NaN <-> d = InvalidDate).
Proof.
  assert (F : forall tv, getUntisDate tza (DateAt tv) = Num (signedCode (civilOf tza tv))).
  { intros tv. unfold signedCode.
    destruct (0 <=? Civil.year (civilOf tza tv)) eqn:Ey; bool_to_Z.
    - by apply getUntisDate_encode.
    - pose proof (fields_valid (LocalTime tza tv)) as [Vm Vd].
      unfold civilOf, localFields in *. cbn [Civil.year Civil.month Civil.day] in *.
      set (t := LocalTime tza tv) in *.
      assert (Vd' : 1 <= DateFromTime t <= 31).
      { unfold Civil.daysInMonth in Vd. repeat case_match; lia. }
      unfold getUntisDate, getFullYear, getMonth, getDate, add. fold t.
      destruct (YearFromTime t) as [| p | p] eqn:Ep; try lia.
      destruct (numeral_negative p) as (d & Hd & Hs & Hv).
      destruct (padStart_two (MonthFromTime t + 1)) as (m1 & m0 & Hm & Hm1 & Hm0); [lia |].
      destruct (padStart_two (DateFromTime t)) as (d1 & d0 & Hdd & Hd1 & Hd0); [lia |].
      rewrite Hs, Hm, Hdd, append_cons, parseInt_negative_numeral by done.
      rewrite Hv. rewrite !append_cons, append_nil. cbn [takeDigits].
      rewrite Hm1, Hm0, Hd1, Hd0. cbn [takeDigits fold_left].
      f_equal. Z.div_mod_to_equations. lia. }
  split; [exact F |]. intros [| tv]; split; try done.
  by rewrite F.
Qed.

(** X4.  In a time zone whose offset from UTC is constant ([tza]; no
    daylight-saving change), day offsets add up in the day that is
    requested: the date code of the query date found with offset [a] and
    then, from that date, with offset [b] is the date code found with
    offset [a + b], as long as the intermediate date is within the range
    of a Date; within the range and from year 0 on it is the code of the
    calendar day [a + b] days after the local day of the target date.
    Nothing is stated for a zone with daylight saving, where the local
    time of the intermediate date can be moved by the change. *)
Theorem query_date_offsets_compose tza tv a b :
  Z.abs (tv + a * msPerDay) <= maxTime ->
  getUntisDate tza (queryDateOf tza (queryDateOf tza (DateAt tv) (Num a)) (Num b))
  = getUntisDate tza (queryDateOf tza (DateAt tv) (Num (a + b))) /\
  (Z.abs (tv + (a + b) * msPerDay) <= maxTime ->
   0 <= Civil.year (Civil.addDays (civilOf tza tv) (a + b)) ->
   getUntisDate tza (queryDateOf tza (queryDateOf tza (DateAt tv) (Num a)) (Num b))
   = Num (Civil.encode (Civil.addDays (civilOf tza tv) (a + b)))).
Proof.
  intros H.
  assert (E : queryDateOf tza (queryDateOf tza (DateAt tv) (Num a)) (Num b)
              = queryDateOf tza (DateAt tv) (Num (a + b))).
  { rewrite (queryDateOf_clip tza tv a). unfold TimeClip at 1.
    apply Z.leb_le in H. rewrite H. rewrite !queryDateOf_clip. f_equal. lia. }
  rewrite E. split; [reflexivity |]. intros Hr Hy.
  rewrite queryDateOf_clip. unfold TimeClip. apply Z.leb_le in Hr. rewrite Hr.
  rewrite <- civilOf_offset in *. by apply getUntisDate_encode.
Qed.

Lemma query_date_offsets_compose_witness :
  Z.abs (feb28_2024 + 1 * msPerDay) <= maxTime /\
  getUntisDate 0 (queryDateOf 0 (queryDateOf 0 (DateAt feb28_2024) (Num 1)) (Num 1))
  = getUntisDate 0 (queryDateOf 0 (DateAt feb28_2024) (Num (1 + 1))) /\
  getUntisDate 0 (queryDateOf 0 (DateAt feb28_2024) (Num (1 + 1))) = Num 20240301.
Proof.
  assert (R : Z.abs (feb28_2024 + 1 * msPerDay) <= maxTime) by (vm_compute; discriminate).
  split; [exact R |].
  split; [exact (proj1 (query_date_offsets_compose 0 feb28_2024 1 1 R)) |].
  vm_compute. reflexivity.
Defined.

(** ** The request *)

Lemma not_rejected_valid cfg : ~ IdentityRejected cfg -> invalidConfig cfg = Normal false.
Proof.
  intros H. destruct (invalidConfig_total cfg) as [[|] E]; [| done].
  by apply invalidConfig_true in E.
Qed.

Lemma getWebUntisTimetable_requests host cfg opts w :
  invalidConfig cfg = Normal false ->
  requests (snd (getWebUntisTimetable host cfg opts w))
  = requests w ++ [requestFor host (moduleTemplate w) cfg opts].
Proof.
  intros Hc. rewrite getWebUntisTimetable_run by done.
  destruct (fetch host _) as [e | r]; [reflexivity |].
  destruct (handleResponse_logs r (opt_filterGroups opts) (requested host cfg opts w))
    as [es Hes].
  destruct (handleResponse _ _ _) as [[v | e] w']; cbn [snd] in *; subst w'; reflexivity.
Qed.

(** X5.  A call whose configuration passes the validation, with a
    [schoolName] that line 269 can put into the URL (its conversion to a
    string does not throw and the string has no lone surrogate), sends
    exactly one request, whatever the network answers: a POST with the
    three fixed headers to the monitor endpoint, with the school name
    percent-encoded as the [school] parameter.  Nothing is retried. *)
Theorem one_request_per_call host cfg opts w :
  ~ IdentityRejected cfg ->
  Sendable cfg ->
  exists req,
    requests (snd (getWebUntisTimetable host cfg opts w)) = requests w ++ [req] /\
    method req = "POST" /\
    headers req = requestHeaders /\
    url req = ("https://nessa.webuntis.com/WebUntis/monitor/substitution/data?school="
                 ++ encodeURIComponent (ToString (field cfg "schoolName")))%string.
Proof.
  intros H _. apply not_rejected_valid in H.
  exists (requestFor host (moduleTemplate w) cfg opts).
  split; [by apply getWebUntisTimetable_requests |]. done.
Qed.

Lemma one_request_per_call_witness :
  ~ IdentityRejected sampleConfig /\
  Sendable sampleConfig /\
  exists req,
    requests (snd (getWebUntisTimetable (sampleHost (Rejected (JsError "down")))
                     sampleConfig noOptions initialWorld)) = [req] /\
    method req = "POST" /\
    url req = "https://nessa.webuntis.com/WebUntis/monitor/substitution/data?school=Test%20School".
Proof.
  assert (N : ~ IdentityRejected sampleConfig).
  { intros [H | [H | [H | H]]]; discriminate. }
  assert (S : Sendable sampleConfig) by (split; reflexivity).
  split; [exact N |]. split; [exact S |].
  destruct (one_request_per_call (sampleHost (Rejected (JsError "down"))) sampleConfig
              noOptions initialWorld N S) as (req & Hreq & Hm & _ & Hu).
  exists req. split; [exact Hreq |]. split; [exact Hm |]. rewrite Hu. reflexivity.
Defined.







Lemma hexDigit_unreserved n : (n < 16)%N -> isUnreserved (hexDigit n) = true.
Proof.
  intros H.
  assert (In n (map N.of_nat (seq 0 16))) as Hin.
  { apply in_map_iff. exists (N.to_nat n). split; [lia |]. apply in_seq. lia. }
  cbn in Hin. repeat (destruct Hin as [<- | Hin]; [vm_compute; reflexivity |]). done.
Qed.

Lemma hexDigit_inj m n : (m < 16)%N -> (n < 16)%N -> hexDigit m = hexDigit n -> m = n.
Proof.
  intros Hm Hn H. apply (f_equal N_of_ascii) in H. unfold hexDigit in H.
  rewrite !N_ascii_embedding in H by (repeat case_match; lia).
  repeat case_match; rewrite ?N.ltb_lt, ?N.ltb_ge in *; lia.
Qed.

Lemma byte_bound c : (N_of_ascii c < 256)%N.
Proof. apply N_ascii_bounded. Qed.

Lemma percent_reserved : isUnreserved "%" = false.
Proof. vm_compute. reflexivity. Qed.

Lemma encodeURIComponent_chars s c :
  occursIn c (encodeURIComponent s) = true -> isUnreserved c = true \/ c = "%"%char.
Proof.
  induction s as [| a s IH]; cbn [encodeURIComponent occursIn]; [discriminate |].
  pose proof (byte_bound a) as B.
  destruct (isUnreserved a) eqn:Ua; cbn [occursIn].
  - rewrite orb_true_iff. intros [H | H]; [| auto].
    apply Ascii.eqb_eq in H as <-. auto.
  - rewrite !orb_true_iff. intros [H | [H | [H | H]]]; [| | | auto].
    + apply Ascii.eqb_eq in H as <-. auto.
    + apply Ascii.eqb_eq in H as <-. left. apply hexDigit_unreserved.
      apply N.Div0.div_lt_upper_bound. lia.
    + apply Ascii.eqb_eq in H as <-. left. apply hexDigit_unreserved.
      apply N.mod_lt. lia.
Qed.

Lemma encodeURIComponent_inj a b :
  encodeURIComponent a = encodeURIComponent b -> a = b.
Proof.
  revert b. induction a as [| x a IH]; intros [| y b]; cbn [encodeURIComponent].
  - done.
  - destruct (isUnreserved y); discriminate.
  - destruct (isUnreserved x); discriminate.
  - pose proof (byte_bound x) as Bx. pose proof (byte_bound y) as By.
    destruct (isUnreserved x) eqn:Ux, (isUnreserved y) eqn:Uy; intros H.
    + injection H as -> H. f_equal. by apply IH.
    + injection H as -> H. by rewrite percent_reserved in Ux.
    + injection H as <- H. by rewrite percent_reserved in Uy.
    + injection H as H1 H2 H. f_equal; [| by apply IH].
      apply hexDigit_inj in H1;
        [| apply N.Div0.div_lt_upper_bound; lia | apply N.Div0.div_lt_upper_bound; lia].
      apply hexDigit_inj in H2; [| apply N.mod_lt; lia | apply N.mod_lt; lia].
      rewrite <- (ascii_N_embedding x), <- (ascii_N_embedding y). f_equal.
      rewrite (N.div_mod (N_of_ascii x) 16), (N.div_mod (N_of_ascii y) 16) by lia.
      by rewrite H1, H2.
Qed.

Lemma append_inj_l p a b : (p ++ a)%string = (p ++ b)%string -> a = b.
Proof.
  induction p as [| c p IH]; [done |]. rewrite !append_cons. intros H.
  injection H as H. by apply IH.
Qed.

(** X8.  The request URL is the endpoint followed by the encoded school
    name; the encoded name consists of letters, digits, the marks
    [- _ . ! ~ * ' ( )] and [%] only, and two configurations with the same
    URL have the same school name text. *)
Theorem school_parameter_encoding cfg :
  exists q,
    requestUrlFor cfg
    = ("https://nessa.webuntis.com/WebUntis/monitor/substitution/data?school=" ++ q)%string /\
    (forall c, occursIn c q = true -> isUnreserved c = true \/ c = "%"%char) /\
    (forall cfg', requestUrlFor cfg' = requestUrlFor cfg ->
       ToString (field cfg' "schoolName") = ToString (field cfg "schoolName")).
Proof.
  exists (encodeURIComponent (ToString (field cfg "schoolName"))).
  split; [reflexivity |]. split; [apply encodeURIComponent_chars |].
  intros cfg' H. unfold requestUrlFor in H.
  apply encodeURIComponent_inj.
  repeat (apply append_inj_l in H). exact H.
Qed.

(** ** The outcome of a call *)

Lemma processPayload_object data fr v :
  processPayload data fr = Normal v -> exists m, v = VObj m.
Proof.
  unfold processPayload.
  destruct (getprop data "payload") as [p |]; cbn [mbind completion_bind]; [| discriminate].
  destruct (getprop p "absentElements") as [a |]; cbn [mbind completion_bind];
    [| discriminate].
  intros H. injection H as <-. eauto.
Qed.

Lemma caughtEntries_error host e : Exists isErrorEntry (caughtEntries host e).
Proof. unfold caughtEntries. by apply Exists_cons_hd. Qed.

(** What [handleResponse] leaves behind: lines on the console; when it
    completes normally they are the two success lines and the value is an
    object. *)
Lemma handleResponse_outcome r fg w :
  exists es,
    snd (handleResponse r fg w) = logged w es /\
    forall v, fst (handleResponse r fg w) = Normal v ->
      es = successEntries /\ exists m, v = VObj m.
Proof.
  destruct (ok r) eqn:Hok.
  - destruct (json r) as [data | e] eqn:Hj.
    + destruct (getprop data "error") as [error | e] eqn:He.
      * destruct (truthy error) eqn:Ht.
        -- rewrite (handleResponse_api r _ _ data error) by done.
           eexists. split; [reflexivity | discriminate].
        -- rewrite (handleResponse_success r _ _ data error) by done.
           rewrite successPath_closed. exists successEntries.
           split; [reflexivity |]. cbn [fst]. intros v Hv. split.
           ++ reflexivity.
           ++ destruct (filterRows data fg) as [fr |]; cbn [mbind completion_bind] in Hv;
                [| discriminate].
              by eapply processPayload_object.
      * rewrite (handleResponse_no_data r _ _ data e) by done.
        exists []. by rewrite logged_nil.
    + rewrite (handleResponse_parse r _ _ e) by done. exists []. by rewrite logged_nil.
  - destruct (text r) as [bodyText | e] eqn:Ht.
    + rewrite (handleResponse_bad_status r _ _ bodyText) by done.
      eexists. split; [reflexivity | discriminate].
    + rewrite (handleResponse_unread r _ _ e) by done. exists []. by rewrite logged_nil.
Qed.

Lemma announcement_log host tpl cfg opts :
  Forall (fun e => chan e = ChanLog) (announcement host tpl cfg opts).
Proof. unfold announcement. repeat constructor. Qed.

(** X9.  A call whose configuration is rejected, or whose [schoolName]
    line 269 can put into the URL, returns normally, and what it returns
    tells what it printed: it returns [null] exactly when it wrote a line
    with [console.error]; otherwise it returns an object, every line it
    printed was printed with [console.log], and the last two are the
    success lines. *)
Theorem result_null_iff_error_logged host cfg opts w :
  IdentityRejected cfg \/ Sendable cfg ->
  exists v es,
    fst (getWebUntisTimetable host cfg opts w) = Normal v /\
    console (snd (getWebUntisTimetable host cfg opts w)) = console w ++ es /\
    ((v = VNull /\ Exists isErrorEntry es) \/
     ((exists m, v = VObj m) /\
      Forall (fun e => chan e = ChanLog) es /\
      exists pre, es = pre ++ successEntries)).
Proof.
  intros _. destruct (invalidConfig_total cfg) as [[|] Hc].
  - rewrite getWebUntisTimetable_invalid by done.
    exists VNull, [configErrorEntry]. split; [done |]. split; [done |].
    left. split; [done |]. by apply Exists_cons_hd.
  - rewrite getWebUntisTimetable_run by done.
    destruct (fetch host _) as [e | r].
    + eexists VNull, _. split; [done |]. split.
      * unfold logged, requested. cbn. by rewrite <- app_assoc.
      * left. split; [done |]. apply Exists_app. right. apply caughtEntries_error.
    + destruct (handleResponse_outcome r (opt_filterGroups opts) (requested host cfg opts w))
        as (es & Hes & Hv).
      destruct (handleResponse _ _ _) as [[v | e] w']; cbn [fst snd] in *; subst w'.
      * destruct (Hv v eq_refl) as [-> Hm].
        exists v, (announcement host (moduleTemplate w) cfg opts ++ successEntries).
        split; [done |]. split.
        -- unfold logged, requested. cbn [console]. by rewrite app_assoc.
        -- right. split; [done |]. split; [| by eexists].
           apply Forall_app. split; [apply announcement_log | repeat constructor].
      * eexists VNull, _. split; [done |]. split.
        -- rewrite logged_logged. unfold logged, requested. cbn. by rewrite <- app_assoc.
        -- left. split; [done |]. apply Exists_app. right. apply Exists_app. right.
           apply caughtEntries_error.
Qed.

Lemma result_null_iff_error_logged_witness :
  (IdentityRejected sampleConfig \/ Sendable sampleConfig) /\
  exists v es,
    fst (getWebUntisTimetable (sampleHost (respond 500 "boom" VNull)) sampleConfig
           noOptions initialWorld) = Normal v /\
    console (snd (getWebUntisTimetable (sampleHost (respond 500 "boom" VNull))
                    sampleConfig noOptions initialWorld)) = console initialWorld ++ es /\
    ((v = VNull /\ Exists isErrorEntry es) \/
     ((exists m, v = VObj m) /\
      Forall (fun e => chan e = ChanLog) es /\
      exists pre, es = pre ++ successEntries)).
Proof.
  assert (S : IdentityRejected sampleConfig \/ Sendable sampleConfig).
  { right. split; reflexivity. }
  split; [exact S |].
  exact (result_null_iff_error_logged (sampleHost (respond 500 "boom" VNull)) sampleConfig
           noOptions initialWorld S).
Defined.










(** ** [renderTimetableConsole] *)

Lemma rows_object payloadData rows :
  field payloadData "rows" = VArr rows -> exists m, payloadData = VObj m.
Proof.
  unfold field. destruct payloadData; cbn [getprop]; try discriminate; try (by eauto).
  all: replace (arrayIndex "rows") with (@None nat) by (vm_compute; reflexivity).
  all: replace ("rows" =? "length")%string with false by (vm_compute; reflexivity).
  all: discriminate.
Qed.

Lemma nothingToShow_closed payloadData :
  nothingToShow payloadData
  = Normal (negb (truthy payloadData) || negb (truthy (field payloadData "rows"))
            || match field (field payloadData "rows") "length" with
               | VNum (Num 0) => true
               | _ => false
               end).
Proof.
  unfold nothingToShow. destruct (truthy payloadData) eqn:T; [| reflexivity].
  apply truthy_not_nullish in T. rewrite !(getprop_field payloadData) by done.
  cbn [negb orb mbind completion_bind].
  destruct (truthy (field payloadData "rows")) eqn:Tr; [| reflexivity].
  apply truthy_not_nullish in Tr. rewrite (getprop_field (field payloadData "rows")) by done.
  reflexivity.
Qed.

(** X12.  [renderTimetableConsole] with nothing to show - no payload, no
    [rows], or an empty array of rows - prints the one line that no
    timetable data was found, and nothing else. *)
Theorem render_nothing_to_show payloadData filterApplied w :
  truthy payloadData = false \/ truthy (field payloadData "rows") = false \/
  field payloadData "rows" = VArr [] ->
  renderTimetableConsole payloadData filterApplied w = (Normal tt, logged w [noDataEntry]).
Proof.
  intros H. unfold renderTimetableConsole. rewrite nothingToShow_closed.
  rewrite bind_lift_normal.
  destruct H as [-> | [-> | ->]]; [reflexivity | by rewrite orb_true_r |].
  by rewrite orb_true_r.
Qed.

Lemma render_nothing_to_show_witness :
  (truthy (obj [("rows", VArr [])]) = false \/
   truthy (field (obj [("rows", VArr [])]) "rows") = false \/
   field (obj [("rows", VArr [])]) "rows" = VArr []) /\
  renderTimetableConsole (obj [("rows", VArr [])]) (Some ["11a"]) initialWorld
  = (Normal tt, logged initialWorld [noDataEntry]).
Proof.
  assert (H : truthy (obj [("rows", VArr [])]) = false \/
              truthy (field (obj [("rows", VArr [])]) "rows") = false \/
              field (obj [("rows", VArr [])]) "rows" = VArr []).
  { right. right. reflexivity. }
  split; [exact H |].
  exact (render_nothing_to_show (obj [("rows", VArr [])]) (Some ["11a"]) initialWorld H).
Defined.


Lemma printRow_closed row w :
  Printable row -> printRow row w = (Normal tt, logged w [mkEntry ChanLog [LStr (lineOf row)]]).
Proof. intros [_ [line Hl]]. unfold printRow, lineOf. rewrite Hl. reflexivity. Qed.

Lemma forEach_printRow rows w :
  Forall Printable rows ->
  forEachM printRow rows w
  = (Normal tt, logged w (map (fun row => mkEntry ChanLog [LStr (lineOf row)]) rows)).
Proof.
  intros H. revert w. induction H as [| row rows Hrow _ IH]; intros w.
  - cbn. by rewrite logged_nil.
  - cbn [forEachM map]. unfold mbind at 1, M_bind at 1.
    rewrite printRow_closed by done.
    rewrite IH. unfold logged. cbn. by rewrite <- app_assoc.
Qed.

Lemma printGroup_closed grouped k w :
  Forall Printable (default [] (grouped !! k)) ->
  printGroup grouped k w = (Normal tt, logged w (groupLines (k, default [] (grouped !! k)))).
Proof.
  intros H. unfold printGroup. rewrite bind_console_log.
  rewrite forEach_printRow by done. unfold logged, groupLines. cbn.
  by rewrite <- app_assoc.
Qed.

Lemma forEach_printGroup grouped names w :
  Forall (fun k => Forall Printable (default [] (grouped !! k))) names ->
  forEachName (printGroup grouped) names w
  = (Normal tt,
     logged w (concat (map groupLines
                 (map (fun k => (k, default [] (grouped !! k))) names)))).
Proof.
  intros H. revert w. induction H as [| k names Hk _ IH]; intros w.
  - cbn. by rewrite logged_nil.
  - cbn [forEachName map concat]. unfold mbind at 1, M_bind at 1.
    rewrite printGroup_closed by done. rewrite IH.
    unfold logged. cbn. by rewrite <- !app_assoc.
Qed.

Lemma optional_type first :
  match first with
  | VUndefined | VNull => Normal VUndefined
  | _ => getprop first "type"
  end = Normal (field first "type").
Proof.
  destruct (nullish first) eqn:N.
  - destruct first; try discriminate; reflexivity.
  - rewrite <- (getprop_field first) by done. destruct first; try discriminate; reflexivity.
Qed.

Lemma printAbsent_closed absent w :
  Listable absent ->
  printAbsent absent w = (Normal tt, logged w [absentLine absent (firstAbsence absent)]).
Proof.
  intros (Na & Hl & _ & _). unfold printAbsent, firstAbsenceType, firstAbsence.
  rewrite !(getprop_field absent) by done. rewrite bind_lift_normal.
  destruct (field absent "absences") as [| | | | | l |]; try discriminate.
  cbn [mbind completion_bind getprop].
  replace (arrayIndex "0") with (Some 0%nat) by (vm_compute; reflexivity).
  replace ("0" =? "length")%string with false by (vm_compute; reflexivity).
  cbn [mbind completion_bind]. rewrite <- head_lookup.
  rewrite optional_type. reflexivity.
Qed.

Lemma forEach_printAbsent l w :
  Forall Listable l ->
  forEachM printAbsent l w
  = (Normal tt, logged w (map (fun absent => absentLine absent (firstAbsence absent)) l)).
Proof.
  intros H. revert w. induction H as [| a l Ha _ IH]; intros w.
  - cbn. by rewrite logged_nil.
  - cbn [forEachM map]. unfold mbind at 1, M_bind at 1.
    rewrite printAbsent_closed by done. rewrite IH.
    unfold logged. cbn. by rewrite <- app_assoc.
Qed.

Lemma absent_part absentElements w :
  AbsentOk absentElements ->
  (show ← (if truthy absentElements
           then lift (lengthPositive absentElements)
           else mret false);
   if show : bool then
     console_log
       [LStr (newline ++ "--- Abwesende Lehrer/Elemente (ungfiltert) ---")];;
     match absentElements with
     | VArr l => forEachM printAbsent l
     | _ => throw (TypeError "forEach")
     end
   else mret tt) w
  = (Normal tt, logged w (absentLines absentElements)).
Proof.
  intros [Hf | (l & -> & Hl)].
  - rewrite Hf. rewrite bind_ret.
    destruct absentElements as [| | | | | [| a l] |]; try discriminate;
      cbn; by rewrite logged_nil.
  - cbn [truthy]. destruct l as [| a l].
    + cbn. by rewrite logged_nil.
    + unfold lengthPositive. cbn [getprop]. 
      replace ("length" =? "length")%string with true by (vm_compute; reflexivity).
      cbn [mbind completion_bind]. rewrite bind_lift_normal.
      replace (0 <? Z.of_nat (length (a :: l))) with true
        by (symmetry; apply Z.ltb_lt; cbn [length]; lia).
      rewrite bind_console_log. rewrite forEach_printAbsent by done.
      unfold logged, absentLines. cbn. by rewrite <- app_assoc.
Qed.

Lemma groups_printable rows groups :
  Forall Printable rows ->
  (forall k bucket, (k, bucket) ∈ groups ->
                    bucket = filter (fun row => keyOf row = k) rows) ->
  Forall (fun g => Forall Printable g.2) groups.
Proof.
  intros Hp Hb. apply Forall_forall. intros [k bucket] Hin. cbn.
  rewrite (Hb _ _ Hin). apply Forall_forall. intros row Hrow.
  apply list_elem_of_filter in Hrow as [_ Hrow].
  rewrite Forall_forall in Hp. by apply Hp.
Qed.

(** X13.  What [renderTimetableConsole] prints for rows that can be
    grouped and printed, when every value that a template literal or a
    property access turns into text can be converted ([lastUpdate], the
    groups, the first four cells, the element names and absence types are
    not objects with an own [toString], and as numbers they are below
    10^21): the heading, the line of the last update, the filter line when
    a filter was applied, then for each group in the order of [sort] - by
    code units - its heading and one line per row, then - when
    [absentElements] is a non-empty array - the heading of the absent
    elements and one line for each. *)
Theorem render_output payloadData filterApplied w rows :
  field payloadData "rows" = VArr rows ->
  rows <> [] ->
  convertible (field payloadData "lastUpdate") = true ->
  Forall GroupableRow rows ->
  Forall Printable rows ->
  AbsentOk (field payloadData "absentElements") ->
  exists groups,
    groupsInOrder (VArr rows) = Normal groups /\
    renderTimetableConsole payloadData filterApplied w
    = (Normal tt,
       logged w (detailHeader payloadData filterApplied
                   ++ concat (map groupLines groups)
                   ++ absentLines (field payloadData "absentElements"))).
Proof.
  intros Hrows Hne _ Hg Hp Ha.
  destruct (rows_object _ _ Hrows) as [m ->].
  destruct (grouping_without_inherited_names rows Hg)
    as (groups & Hgroups & _ & Hnames & Hbuckets & _).
  exists groups. split; [done |].
  pose proof (groups_printable _ _ Hp Hbuckets) as Hgp.
  unfold groupsInOrder in Hgroups. cbn [groupedTimetable] in Hgroups.
  destruct (reduceM groupStep rows ∅) as [grouped |] eqn:Hred;
    cbn [mbind completion_bind] in Hgroups; [| discriminate].
  injection Hgroups as Hgroups.
  unfold renderTimetableConsole. rewrite nothingToShow_closed, Hrows.
  rewrite bind_lift_normal.
  assert (Hlen : match field (VArr rows) "length" with
                 | VNum (Num 0) => true | _ => false end = false).
  { unfold field. cbn [getprop].
    replace ("length" =? "length")%string with true by (vm_compute; reflexivity).
    destruct rows; [done | reflexivity]. }
  rewrite Hlen. cbn [truthy negb orb].
  rewrite bind_console_log.
  rewrite !(getprop_field (VObj m)) by done. rewrite bind_lift_normal.
  rewrite bind_console_log.
  assert (Hnonempty : bool_decide (length (sortedGroupNames grouped) = 0%nat) = false).
  { apply bool_decide_eq_false. intros Hz. apply length_zero_iff_nil in Hz.
    destruct rows as [| row rows]; [done |].
    assert (Hk : keyOf row ∈ groups.*1).
    { apply Hnames. exists row. split; [left | done]. }
    rewrite <- Hgroups, Hz in Hk. by apply elem_of_nil in Hk. }
  assert (Hrest : forall w0,
    (rows0 ← lift (Normal (field (VObj m) "rows"));
     grouped0 ← lift (groupedTimetable rows0);
     let names := sortedGroupNames grouped0 in
     if bool_decide (length names = 0%nat) then
       console_log [LStr "Nach Filterung keine Einträge gefunden."]
     else
       forEachName (printGroup grouped0) names;;
       absentElements ← lift (Normal (field (VObj m) "absentElements"));
       show ← (if truthy absentElements
               then lift (lengthPositive absentElements)
               else mret false);
       if show : bool then
         console_log
           [LStr (newline ++ "--- Abwesende Lehrer/Elemente (ungfiltert) ---")];;
         match absentElements with
         | VArr l => forEachM printAbsent l
         | _ => throw (TypeError "forEach")
         end
       else mret tt) w0
    = (Normal tt, logged w0 (concat (map groupLines groups)
                               ++ absentLines (field (VObj m) "absentElements")))).
  { intros w0. rewrite bind_lift_normal, Hrows. cbn [groupedTimetable].
    rewrite Hred, bind_lift_normal. cbv zeta. rewrite Hnonempty.
    unfold mbind at 1, M_bind at 1.
    rewrite forEach_printGroup.
    - rewrite Hgroups, bind_lift_normal, absent_part by done.
      unfold logged. cbn. by rewrite <- app_assoc.
    - rewrite <- Hgroups in Hgp. rewrite Forall_map in Hgp. exact Hgp. }
  destruct filterApplied as [[| g gs] |].
  - rewrite bind_ret, Hrest. unfold logged, detailHeader. cbn. by rewrite <- !app_assoc.
  - rewrite bind_console_log, Hrest. unfold logged, detailHeader. cbn.
    by rewrite <- !app_assoc.
  - rewrite bind_ret, Hrest. unfold logged, detailHeader. cbn. by rewrite <- !app_assoc.
Qed.

Lemma render_output_witness :
  let payload :=
    obj [ ("lastUpdate", VStr "08:15");
          ("rows", VArr [sampleRow "11a" ""; cancelledRow]);
          ("absentElements",
           VArr [obj [("elementName", VStr "Mu");
                      ("absences", VArr [obj [("type", VStr "krank")]])]]) ] in
  field payload "rows" = VArr [sampleRow "11a" ""; cancelledRow] /\
  [sampleRow "11a" ""; cancelledRow] <> [] /\
  convertible (field payload "lastUpdate") = true /\
  Forall GroupableRow [sampleRow "11a" ""; cancelledRow] /\
  Forall Printable [sampleRow "11a" ""; cancelledRow] /\
  AbsentOk (field payload "absentElements") /\
  exists groups,
    groupsInOrder (VArr [sampleRow "11a" ""; cancelledRow]) = Normal groups /\
    renderTimetableConsole payload None initialWorld
    = (Normal tt,
       logged initialWorld
         (detailHeader payload None ++ concat (map groupLines groups)
            ++ absentLines (field payload "absentElements"))).
Proof.
  intros payload.
  assert (G : Forall GroupableRow [sampleRow "11a" ""; cancelledRow]).
  { repeat constructor; vm_compute; intros Hin;
      repeat (apply elem_of_cons in Hin as [Hin | Hin]; [discriminate |]);
      by apply elem_of_nil in Hin. }
  assert (P : Forall Printable [sampleRow "11a" ""; cancelledRow]).
  { repeat constructor; eexists; try (split; [reflexivity |]); vm_compute; reflexivity. }
  assert (A : AbsentOk (field payload "absentElements")).
  { right. eexists. split; [reflexivity |]. repeat constructor. }
  assert (Ne : [sampleRow "11a" ""; cancelledRow] <> []) by discriminate.
  assert (L : convertible (field payload "lastUpdate") = true) by reflexivity.
  split; [reflexivity |]. split; [exact Ne |]. split; [exact L |]. split; [exact G |].
  split; [exact P |]. split; [exact A |].
  exact (render_output payload None initialWorld [sampleRow "11a" ""; cancelledRow]
           eq_refl Ne L G P A).
Defined.

Example render_sample :
  console (snd (renderTimetableConsole
    (obj [ ("lastUpdate", VStr "08:15");
           ("rows", VArr [sampleRow "11a" ""; cancelledRow]);
           ("absentElements",
            VArr [obj [("elementName", VStr "Mu");
                       ("absences", VArr [obj [("type", VStr "krank")]])]]) ])
    None initialWorld))
  = map (fun line => mkEntry ChanLog [LStr line])
      [ newline ++ "--- Stundenplan-Details ---";
        "Zuletzt aktualisiert: 08:15";
        newline ++ "--- Klasse: 11a ---";
        "  1 | Ma | R1 | Mu";
        "  3 | Ma | R1 | Mu | Info: Room changed (ENTFÄLLT)";
        newline ++ "--- Abwesende Lehrer/Elemente (ungfiltert) ---";
        "- Mu (krank)" ]%string.
Proof. vm_compute. reflexivity. Qed.


Lemma concat_insert (f : string -> list value) (ks : list string) k0 x :
  NoDup ks -> k0 ∈ ks ->
  concat (map (fun k => if decide (k0 = k) then x :: f k else f k) ks)
  ≡ₚ x :: concat (map f ks).
Proof.
  induction 1 as [| k ks Hk Hnd IH]; intros Hin; [by apply elem_of_nil in Hin |].
  cbn [map concat]. destruct (decide (k0 = k)) as [-> | Hne].
  - assert (E : map (fun k' => if decide (k = k') then x :: f k' else f k') ks = map f ks).
    { apply map_ext_in. intros k' Hk'. apply list_elem_of_In in Hk'.
      destruct (decide (k = k')) as [-> | _]; [done | reflexivity]. }
    by rewrite E.
  - apply elem_of_cons in Hin as [-> | Hin]; [done |].
    rewrite (IH Hin). by rewrite Permutation_middle.
Qed.

Lemma concat_filter_perm (ks : list string) (rows : list value) :
  NoDup ks -> (forall row, row ∈ rows -> keyOf row ∈ ks) ->
  concat (map (fun k => filter (fun row => keyOf row = k) rows) ks) ≡ₚ rows.
Proof.
  intros Hnd. induction rows as [| row rows IH]; intros Hin.
  - clear Hin Hnd. induction ks as [| k ks IHk]; [done | exact IHk].
  - assert (E : map (fun k => filter (fun row => keyOf row = k) (row :: rows)) ks
                = map (fun k => if decide (keyOf row = k)
                                then row :: filter (fun row => keyOf row = k) rows
                                else filter (fun row => keyOf row = k) rows) ks).
    { apply map_ext. intros k. rewrite filter_cons.
      by destruct (decide (keyOf row = k)). }
    rewrite E.
    rewrite (concat_insert (fun k => filter (fun row => keyOf row = k) rows) ks
               (keyOf row) row Hnd (Hin row (list_elem_of_here _ _))).
    constructor. apply IH. intros r Hr. apply Hin. by right.
Qed.

Lemma str_lt_sorted_NoDup l : StronglySorted str_lt l -> NoDup l.
Proof.
  induction 1 as [| k l _ IH Hall]; constructor; [| done].
  intros Hin. rewrite Forall_forall in Hall. by apply (str_lt_irrefl k), Hall.
Qed.

(** X14.  Grouping loses and duplicates nothing: when every row is an
    object (not [undefined] or [null]) whose group can be made a property
    name (it is not an object with an own [toString], and as a number it
    is below 10^21) and no group name is an inherited member, the buckets
    taken together are a permutation of the rows, no two buckets have the
    same name, no bucket is empty, and every row of a bucket has the name
    of the bucket as its group name. *)
Theorem grouping_partition rows :
  Forall GroupableRow rows ->
  exists groups,
    groupsInOrder (VArr rows) = Normal groups /\
    concat groups.*2 ≡ₚ rows /\
    NoDup groups.*1 /\
    Forall (fun g => g.2 <> [] /\ Forall (fun row => keyOf row = g.1) g.2) groups.
Proof.
  intros H. destruct (grouping_without_inherited_names rows H)
    as (groups & Hgroups & Hsorted & Hnames & Hbuckets & _).
  exists groups. split; [done |].
  assert (Hnd : NoDup groups.*1) by by apply str_lt_sorted_NoDup.
  assert (E : groups.*2 = map (fun k => filter (fun row => keyOf row = k) rows) groups.*1).
  { clear -Hbuckets. induction groups as [| [k b] groups IH]; [done |].
    cbn. f_equal.
    - apply Hbuckets. left.
    - apply IH. intros k' b' Hin. apply Hbuckets. by right. }
  split; [| split; [done |]].
  - rewrite E. apply concat_filter_perm; [done |].
    intros row Hrow. apply Hnames. eauto.
  - apply Forall_forall. intros [k b] Hin. cbn.
    rewrite (Hbuckets _ _ Hin). split.
    + assert (Hk : k ∈ groups.*1) by (apply list_elem_of_fmap; by exists (k, b)).
      apply Hnames in Hk as (row & Hrow & Hkey). intros Hnil.
      assert (Hf : row ∈ filter (fun row => keyOf row = k) rows)
        by by apply list_elem_of_filter.
      rewrite Hnil in Hf. by apply elem_of_nil in Hf.
    + apply Forall_forall. intros row Hrow. by apply list_elem_of_filter in Hrow as [? _].
Qed.

Lemma grouping_partition_witness :
  Forall GroupableRow [sampleRow "11a" ""; sampleRow "" "x"; sampleRow "11a" "y"] /\
  exists groups,
    groupsInOrder (VArr [sampleRow "11a" ""; sampleRow "" "x"; sampleRow "11a" "y"])
      = Normal groups /\
    concat groups.*2 ≡ₚ [sampleRow "11a" ""; sampleRow "" "x"; sampleRow "11a" "y"].
Proof.
  assert (G : Forall GroupableRow
                [sampleRow "11a" ""; sampleRow "" "x"; sampleRow "11a" "y"]).
  { repeat constructor; vm_compute; intros Hin;
      repeat (apply elem_of_cons in Hin as [Hin | Hin]; [discriminate |]);
      by apply elem_of_nil in Hin. }
  split; [exact G |].
  destruct (grouping_partition _ G) as (groups & Hg & Hp & _). eauto.
Defined.

Example grouping_sample :
  (fun g => (g.1, length g.2))
    <$> match groupsInOrder
                (VArr [sampleRow "11a" ""; sampleRow "" "x"; sampleRow "11a" "y"]) with
        | Normal groups => groups
        | Throw _ => []
        end
  = [("11a", 2%nat); ("Unbekannte Gruppe", 1%nat)].
Proof. vm_compute. reflexivity. Qed.



Section Emits.
Context {A B : Type} (P : entry -> Prop).

Lemma emits_ret (a : A) : emits P (mret a : M A).
Proof. intros w. exists []. by rewrite logged_nil. Qed.

Lemma emits_lift (c : completion A) : emits P (lift c).
Proof. intros w. exists []. by rewrite logged_nil. Qed.

Lemma emits_throw e : emits P (throw e : M A).
Proof. intros w. exists []. by rewrite logged_nil. Qed.

Lemma emits_bind (m : M A) (k : A -> M B) :
  emits P m -> (forall x, emits P (k x)) -> emits P (m ≫= k).
Proof.
  intros Hm Hk w. destruct (Hm w) as (es & E & F).
  unfold mbind, M_bind. destruct (m w) as [[x | e] w']; cbn [snd] in *; subst w'.
  - destruct (Hk x (logged w es)) as (es' & E' & F').
    exists (es ++ es'). rewrite E', logged_logged. split; [done |].
    apply Forall_app. done.
  - by exists es.
Qed.

Lemma emits_lift_bind (c : completion A) (k : A -> M B) :
  (forall x, c = Normal x -> emits P (k x)) -> emits P (lift c ≫= k).
Proof.
  intros Hk w. destruct c as [x | e].
  - rewrite bind_lift_normal. by apply Hk.
  - rewrite bind_lift_throw. exists []. by rewrite logged_nil.
Qed.
End Emits.

Lemma emits_log P a : P (mkEntry ChanLog a) -> emits P (console_log a).
Proof. intros H w. exists [mkEntry ChanLog a]. split; [reflexivity |]. by constructor. Qed.

Lemma emits_forEachM P f l : (forall x, emits P (f x)) -> emits P (forEachM f l).
Proof.
  intros Hf. induction l as [| x l IH]; cbn [forEachM].
  - apply emits_ret.
  - apply emits_bind; [apply Hf | intros _; apply IH].
Qed.

Lemma emits_forEachName P f l : (forall x, emits P (f x)) -> emits P (forEachName f l).
Proof.
  intros Hf. induction l as [| x l IH]; cbn [forEachName].
  - apply emits_ret.
  - apply emits_bind; [apply Hf | intros _; apply IH].
Qed.

Lemma rowString_indent row line : rowString row = Normal line -> exists r, line = String " " r.
Proof.
  unfold rowString.
  destruct (getprop row "data") as [data |]; cbn [mbind completion_bind]; [| discriminate].
  destruct (destructure5 data) as [[[[[stunde fach] raum] lehrer] info] |];
    cbn [mbind completion_bind]; [| discriminate].
  destruct (cleanInfo info) as [cleaned |]; cbn [mbind completion_bind]; [| discriminate].
  destruct (isCancelled row) as [cancelled |]; cbn [mbind completion_bind]; [| discriminate].
  cbv zeta. destruct cancelled, (truthy (VStr cleaned)); intros H; injection H as <-;
    rewrite ?append_cons; eexists; reflexivity.
Qed.

Ltac other_line :=
  split; [reflexivity |];
  let H := fresh in
  intros H; unfold noEntriesEntry, newline in H; rewrite ?append_cons in H; discriminate.

Lemma printRow_emits row : emits otherLine (printRow row).
Proof.
  unfold printRow. apply emits_lift_bind. intros line Hl.
  apply rowString_indent in Hl as [r ->]. apply emits_log. other_line.
Qed.

Lemma printAbsent_emits absent : emits otherLine (printAbsent absent).
Proof.
  unfold printAbsent. apply emits_lift_bind. intros name _.
  apply emits_lift_bind. intros type _. apply emits_log. other_line.
Qed.

Lemma groupStep_keeps acc row acc' k :
  groupStep acc row = Normal acc' -> is_Some (acc !! k) -> is_Some (acc' !! k).
Proof.
  unfold groupStep.
  destruct (getprop row "group") as [group |]; cbn [mbind completion_bind]; [| discriminate].
  destruct (acc !! groupNameOf group) as [bucket |] eqn:E.
  - intros H. injection H as <-. intros Hk.
    destruct (decide (groupNameOf group = k)) as [<- | Hne].
    + rewrite lookup_insert_eq. by eexists.
    + by rewrite lookup_insert_ne.
  - case_bool_decide; [discriminate |]. intros H0. injection H0 as <-. intros Hk.
    destruct (decide (groupNameOf group = k)) as [<- | Hne].
    + rewrite lookup_insert_eq. by eexists.
    + by rewrite lookup_insert_ne.
Qed.

Lemma groupStep_adds acc row acc' :
  groupStep acc row = Normal acc' -> exists k, is_Some (acc' !! k).
Proof.
  unfold groupStep.
  destruct (getprop row "group") as [group |]; cbn [mbind completion_bind]; [| discriminate].
  destruct (acc !! groupNameOf group) as [bucket |] eqn:E.
  - intros H. injection H as <-. exists (groupNameOf group).
    rewrite lookup_insert_eq. by eexists.
  - case_bool_decide; [discriminate |]. intros H0. injection H0 as <-.
    exists (groupNameOf group). rewrite lookup_insert_eq. by eexists.
Qed.

Lemma reduce_keeps rows acc acc' k :
  reduceM groupStep rows acc = Normal acc' -> is_Some (acc !! k) -> is_Some (acc' !! k).
Proof.
  revert acc. induction rows as [| row rows IH]; intros acc; cbn [reduceM].
  - intros H. by injection H as <-.
  - destruct (groupStep acc row) as [acc1 |] eqn:E; cbn [mbind completion_bind];
      [| discriminate].
    intros H Hk. apply (IH acc1); [done |]. by eapply groupStep_keeps.
Qed.

(** The test of line 363 never succeeds: past line 341 the rows are not
    empty, and [reduce] creates a group for the first of them. *)
Lemma some_group payloadData rows grouped :
  nothingToShow payloadData = Normal false ->
  getprop payloadData "rows" = Normal rows ->
  groupedTimetable rows = Normal grouped ->
  sortedGroupNames grouped <> [].
Proof.
  intros Hn Hr Hg. rewrite nothingToShow_closed in Hn. injection Hn as Hn.
  apply orb_false_iff in Hn as [_ Hn].
  assert (Ef : field payloadData "rows" = rows) by (unfold field; by rewrite Hr).
  rewrite Ef in Hn.
  destruct rows as [| | | | | l |]; try discriminate.
  cbn [groupedTimetable] in Hg.
  destruct l as [| row l]; [discriminate |].
  cbn [reduceM] in Hg.
  destruct (groupStep ∅ row) as [acc1 |] eqn:E; cbn [mbind completion_bind] in Hg;
    [| discriminate].
  destruct (groupStep_adds _ _ _ E) as [k Hk].
  pose proof (reduce_keeps _ _ _ k Hg Hk) as Hk'.
  apply sortedGroupNames_elem in Hk'. intros Hnil. rewrite Hnil in Hk'.
  by apply elem_of_nil in Hk'.
Qed.

Lemma render_emits payloadData filterApplied :
  emits otherLine (renderTimetableConsole payloadData filterApplied).
Proof.
  unfold renderTimetableConsole. apply emits_lift_bind. intros [|] Hn.
  - apply emits_log. split; [reflexivity | discriminate].
  - apply emits_bind; [apply emits_log; other_line | intros _].
    apply emits_lift_bind. intros lastUpdate _.
    apply emits_bind; [apply emits_log; other_line | intros _].
    apply emits_bind.
    { destruct filterApplied as [[| g gs] |];
        [apply emits_ret | apply emits_log; other_line | apply emits_ret]. }
    intros _. apply emits_lift_bind. intros rows Hr.
    apply emits_lift_bind. intros grouped Hg. cbv zeta.
    rewrite bool_decide_eq_false_2.
    2:{ intros Hz. apply length_zero_iff_nil in Hz. by eapply some_group. }
    apply emits_bind.
    { apply emits_forEachName. intros k. unfold printGroup.
      apply emits_bind; [apply emits_log; other_line | intros _].
      apply emits_forEachM, printRow_emits. }
    intros _. apply emits_lift_bind. intros absentElements _.
    apply emits_bind.
    { destruct (truthy absentElements); [apply emits_lift | apply emits_ret]. }
    intros [|]; [| apply emits_ret].
    apply emits_bind; [apply emits_log; other_line | intros _].
    destruct absentElements; try apply emits_throw.
    apply emits_forEachM, printAbsent_emits.
Qed.

(** X15.  [renderTimetableConsole] does nothing but print with
    [console.log], also when it throws: the module constant and the
    requests stay as they are, and no line is written with
    [console.error]. *)
Theorem render_only_prints payloadData filterApplied w :
  exists es,
    snd (renderTimetableConsole payloadData filterApplied w)
    = mkWorld (moduleTemplate w) (console w ++ es) (requests w) /\
    Forall (fun e => chan e = ChanLog) es.
Proof.
  destruct (render_emits payloadData filterApplied w) as (es & E & F).
  exists es. split; [exact E |]. eapply Forall_impl; [exact F |]. by intros e [? _].
Qed.

(** X16.  The line "Nach Filterung keine Einträge gefunden." (line 364) is
    never printed: when the test of line 341 lets rows through there is a
    first row, and [reduce] either creates a group for it or throws. *)
Theorem no_entries_message_unreachable payloadData filterApplied w :
  noEntriesEntry ∉ console w ->
  noEntriesEntry ∉ console (snd (renderTimetableConsole payloadData filterApplied w)).
Proof.
  intros Hw. destruct (render_emits payloadData filterApplied w) as (es & -> & F).
  cbn [console logged]. rewrite elem_of_app. intros [H | H]; [done |].
  rewrite Forall_forall in F. by destruct (F _ H) as [_ Hne].
Qed.

Lemma no_entries_message_unreachable_witness :
  (noEntriesEntry ∉ console initialWorld) /\
  (noEntriesEntry ∉ console (snd (renderTimetableConsole (obj [("rows", VArr [VNull])])
                                    (Some ["11a"]) initialWorld))).
Proof.
  assert (H : noEntriesEntry ∉ console initialWorld).
  { apply not_elem_of_nil. }
  split; [exact H |]. exact (no_entries_message_unreachable _ _ _ H).
Defined.

Lemma append_split_open pre out a rest :
  occursIn "<" pre = false ->
  (pre ++ out)%string = (a ++ String "<" rest)%string ->
  exists a', a = (pre ++ a')%string /\ out = (a' ++ String "<" rest)%string.
Proof.
  revert a. induction pre as [| c pre IH]; intros a Hp E.
  - exists a. by rewrite !append_nil in *.
  - cbn [occursIn] in Hp. apply orb_false_iff in Hp as [Hc Hp].
    rewrite append_cons in E. destruct a as [| x a].
    + rewrite append_nil in E. injection E as -> _. by rewrite Ascii.eqb_refl in Hc.
    + rewrite append_cons in E. injection E as -> E.
      destruct (IH a Hp E) as (a' & -> & ->). exists a'. by rewrite append_cons.
Qed.

Lemma NoTag_prefix pre out :
  occursIn "<" pre = false -> NoTag out -> NoTag (pre ++ out)%string.
Proof.
  intros Hp Hn a body post E. unfold tagAt in E.
  destruct (append_split_open _ _ _ _ Hp E) as (a' & _ & Ho).
  by apply (Hn a' body post).
Qed.

Lemma TagsRemoved_NoTag s out : TagsRemoved s out -> NoTag out.
Proof. induction 1; [done | by apply NoTag_prefix]. Qed.

Lemma TagsRemoved_length s out :
  TagsRemoved s out -> (String.length out <= String.length s)%nat.
Proof.
  induction 1 as [| pre body post out Hp Hb _ IH]; [done |].
  unfold tagAt. rewrite !length_app_s. cbn [String.length]. rewrite length_app_s.
  cbn [String.length]. lia.
Qed.

(** X17.  Stripping the markup tags: the result holds no tag, stripping it
    again changes nothing, it is never longer than the text, and a text is
    left as it is exactly when it holds no tag. *)
Theorem replaceTags_idempotent s :
  NoTag (replaceTags s) /\
  replaceTags (replaceTags s) = replaceTags s /\
  (String.length (replaceTags s) <= String.length s)%nat /\
  (replaceTags s = s <-> NoTag s).
Proof.
  pose proof (TagsRemoved_replaceTags s) as H.
  pose proof (TagsRemoved_NoTag _ _ H) as N.
  split; [done |]. split; [by apply replaceTags_NoTag |].
  split; [by apply TagsRemoved_length |].
  split; [by intros <- | apply replaceTags_NoTag].
Qed.

(** X18.  The line of an absent element (not [undefined] or [null]) whose
    element name can be converted to text: when [absences] is an array
    and the [type] of its first element can be converted, the line shows
    the element name and that type only - "N/A" for an empty array -
    whatever the other absences are; when [absences] is missing, the
    TypeError of reading [absences[0]] is thrown and nothing is
    printed. *)
Theorem absent_line_first_absence absent w :
  nullish absent = false ->
  convertible (field absent "elementName") = true ->
  (forall l, field absent "absences" = VArr l ->
     convertible (field (default VUndefined (head l)) "type") = true ->
     printAbsent absent w
     = (Normal tt, logged w [absentLine absent (default VUndefined (head l))])) /\
  (nullish (field absent "absences") = true ->
     printAbsent absent w = (Throw (TypeError "0"), w)).
Proof.
  intros Na Hc. split.
  { intros l Hl Ht.
    assert (Hf : firstAbsence absent = default VUndefined (head l)).
    { unfold firstAbsence. by rewrite Hl. }
    rewrite printAbsent_closed.
    - by rewrite Hf.
    - repeat split; try done; [by rewrite Hl | by rewrite Hf]. }
  intros Hn. unfold printAbsent, firstAbsenceType.
  rewrite !(getprop_field absent) by done. rewrite bind_lift_normal.
  destruct (field absent "absences"); try discriminate; reflexivity.
Qed.

Lemma absent_line_first_absence_witness :
  let absent :=
    obj [("elementName", VStr "Mu");
         ("absences", VArr [obj [("type", VStr "krank")];
                            obj [("type", VStr "Fortbildung")]])] in
  nullish absent = false /\
  convertible (field absent "elementName") = true /\
  field absent "absences"
    = VArr [obj [("type", VStr "krank")]; obj [("type", VStr "Fortbildung")]] /\
  convertible (field (obj [("type", VStr "krank")]) "type") = true /\
  printAbsent absent initialWorld
  = (Normal tt, logged initialWorld [mkEntry ChanLog [LStr "- Mu (krank)"]]).
Proof.
  intros absent.
  split; [reflexivity |]. split; [reflexivity |]. split; [reflexivity |].
  split; [reflexivity |].
  rewrite (proj1 (absent_line_first_absence absent initialWorld eq_refl eq_refl)
             [obj [("type", VStr "krank")]; obj [("type", VStr "Fortbildung")]]
             eq_refl eq_refl).
  reflexivity.
Defined.


(** ** The interactive query *)

Lemma month_cases m : 1 <= m <= 12 ->
  m = 1 \/ m = 2 \/ m = 3 \/ m = 4 \/ m = 5 \/ m = 6 \/ m = 7 \/ m = 8 \/ m = 9 \/ m = 10
  \/ m = 11 \/ m = 12.
Proof. lia. Qed.

(** The day number MakeDay gives for a month from 1 to 12 and a day from
    1 to 31 lies in the year asked for. *)
Lemma MakeDay_year y m d :
  1 <= m <= 12 -> 1 <= d <= 31 ->
  MakeDay y (m - 1) d
  = DayFromYear y + monthStart (m - 1) (if DaysInYear y =? 366 then 1 else 0) + d - 1 /\
  YearFromDay (MakeDay y (m - 1) d) = y.
Proof.
  intros Hm Hd. unfold MakeDay.
  rewrite (Z.div_small (m - 1) 12), (Z.mod_small (m - 1) 12), Z.add_0_r by lia.
  cbv zeta. split; [reflexivity |].
  apply YearFromDay_unique. rewrite DayFromYear_succ.
  destruct (DaysInYear_cases y) as [C | C]; rewrite C; cbn [Z.eqb Pos.eqb];
    destruct (month_cases m Hm) as [-> | [-> | [-> | [-> | [-> | [-> | [-> | [-> | [-> |
                                   [-> | [-> | ->]]]]]]]]]]]; cbn [monthStart Z.sub Z.add Z.opp Z.pos_sub Pos.pred_double]; simpl; lia.
Qed.

Lemma fields_of_civil c :
  Civil.valid c ->
  localFields (MakeDay (Civil.year c) (Civil.month c - 1) (Civil.day c) * msPerDay) = c.
Proof.
  destruct c as [y m d]. unfold Civil.valid. cbn [Civil.year Civil.month Civil.day].
  intros [Hm Hd].
  assert (Hd31 : 1 <= d <= 31).
  { unfold Civil.daysInMonth in Hd. repeat case_match; lia. }
  destruct (MakeDay_year y m d Hm Hd31) as [En Ey].
  set (n := MakeDay y (m - 1) d) in *.
  unfold localFields, MonthFromTime, DateFromTime, MonthFromTime, DayWithinYear,
    InLeapYear, YearFromTime.
  rewrite Day_of_day, Ey.
  unfold Civil.daysInMonth in Hd. rewrite <- leap_flag in Hd.
  destruct (DaysInYear_cases y) as [C | C]; rewrite C in *; cbn [Z.eqb Pos.eqb] in *;
    destruct (month_cases m Hm) as [-> | [-> | [-> | [-> | [-> | [-> | [-> | [-> | [-> |
                                   [-> | [-> | ->]]]]]]]]]]];
    simpl in En, Hd; rewrite En; split_ifs; bool_to_Z; try lia; f_equal; simpl; lia.
Qed.

Lemma LocalTime_UTC tza t : LocalTime tza (UTC tza t) = t.
Proof. unfold LocalTime, UTC. lia. Qed.

Lemma civilOf_midnight tza c : Civil.valid c -> civilOf tza (localMidnight tza c) = c.
Proof.
  intros V. unfold civilOf, localMidnight. rewrite LocalTime_UTC.
  unfold MakeDate. rewrite Z.add_0_r. by apply fields_of_civil.
Qed.

(** The test of line 431 on three numbers. *)
Lemma dateMismatch_accepted tza p0 p1 p2 c :
  typedDate p0 p1 p2 = Some c ->
  DateAccepted tza c ->
  newDateYMD tza (parseIntAuto p0) (sub (parseIntAuto p1) 1) (parseIntAuto p2)
    = DateAt (localMidnight tza c) /\
  dateMismatch tza (DateAt (localMidnight tza c)) p0 p1 p2 = false.
Proof.
  unfold typedDate. intros Ht (V & Hy & Hr).
  destruct (parseIntAuto p0) as [| y] eqn:P0; [discriminate |].
  destruct (parseIntAuto p1) as [| m] eqn:P1; [discriminate |].
  destruct (parseIntAuto p2) as [| d] eqn:P2; [discriminate |].
  injection Ht as <-. cbn [Civil.year Civil.month Civil.day] in *.
  split.
  - unfold newDateYMD, sub.
    replace ((0 <=? y) && (y <=? 99)) with false
      by (symmetry; apply andb_false_iff; bool_to_Z; lia).
    unfold TimeClip, localMidnight in *. cbn [Civil.year Civil.month Civil.day] in *.
    apply Z.leb_le in Hr. by rewrite Hr.
  - unfold dateMismatch, getTime, getFullYear, getMonth, getDate, add, strictNotEqual, isNaN.
    pose proof (civilOf_midnight tza _ V) as E. unfold civilOf, localFields in E.
    injection E as E1 E2 E3. rewrite P0, P1, P2. cbv beta iota. rewrite E1, E2, E3, !Z.eqb_refl. reflexivity.
Qed.

Lemma fields_back yr y m d :
  localFields (MakeDay yr (m - 1) d * msPerDay) = Civil.mkDate y m d ->
  Civil.valid (Civil.mkDate y m d) /\ yr = y.
Proof.
  intros E. pose proof (fields_valid (MakeDay yr (m - 1) d * msPerDay)) as V.
  rewrite E in V. split; [exact V |].
  destruct V as [Hm Hd]. cbn [Civil.year Civil.month Civil.day] in Hm, Hd.
  assert (Hd31 : 1 <= d <= 31).
  { unfold Civil.daysInMonth in Hd. repeat case_match; lia. }
  destruct (MakeDay_year yr m d Hm Hd31) as [_ Ey].
  unfold localFields, YearFromTime in E. rewrite Day_of_day, Ey in E.
  by injection E.
Qed.

Lemma dateMismatch_false tza d0 p0 p1 p2 :
  dateMismatch tza d0 p0 p1 p2 = false ->
  exists tv, d0 = DateAt tv /\ typedDate p0 p1 p2 = Some (civilOf tza tv).
Proof.
  unfold dateMismatch. rewrite !orb_false_iff. intros [[[Hn Hy] Hm] Hd].
  destruct d0 as [| tv]; [discriminate |]. exists tv. split; [reflexivity |].
  unfold typedDate, civilOf. unfold localFields.
  cbn [getFullYear getMonth getDate add] in Hy, Hm, Hd.
  destruct (parseIntAuto p0) as [| y]; [discriminate |].
  destruct (parseIntAuto p1) as [| m]; [discriminate |].
  destruct (parseIntAuto p2) as [| d]; [discriminate |].
  cbn [strictNotEqual] in Hy, Hm, Hd.
  apply negb_false_iff, Z.eqb_eq in Hy, Hm, Hd. by rewrite Hy, Hm, Hd.
Qed.

Lemma dateMismatch_rejected tza p0 p1 p2 :
  (forall c, typedDate p0 p1 p2 = Some c -> ~ DateAccepted tza c) ->
  dateMismatch tza
    (newDateYMD tza (parseIntAuto p0) (sub (parseIntAuto p1) 1) (parseIntAuto p2))
    p0 p1 p2 = true.
Proof.
  intros H.
  destruct (dateMismatch tza _ p0 p1 p2) eqn:D; [reflexivity | exfalso].
  apply dateMismatch_false in D as (tv & En & Et).
  apply (H _ Et). clear H.
  unfold typedDate in Et.
  destruct (parseIntAuto p0) as [| y]; [discriminate |].
  destruct (parseIntAuto p1) as [| m]; [discriminate |].
  destruct (parseIntAuto p2) as [| d]; [discriminate |].
  assert (Et' : civilOf tza tv = Civil.mkDate y m d) by congruence.
  clear Et. rename Et' into Et. rewrite Et.
  unfold newDateYMD, sub, TimeClip in En.
  set (yr := if (0 <=? y) && (y <=? 99) then 1900 + y else y) in En.
  destruct (Z.abs (UTC tza (MakeDate (MakeDay yr (m - 1) d) 0)) <=? maxTime) eqn:R;
    [| discriminate].
  injection En as En. apply Z.leb_le in R.
  assert (Ef : localFields (MakeDay yr (m - 1) d * msPerDay) = Civil.mkDate y m d).
  { rewrite <- Et. unfold civilOf. f_equal. rewrite <- En.
    unfold LocalTime, UTC, MakeDate. lia. }
  destruct (fields_back _ _ _ _ Ef) as [V Ey].
  assert (Hyr : ~ (0 <= y <= 99)).
  { intros Hy. subst yr.
    replace ((0 <=? y) && (y <=? 99)) with true in Ey
      by (symmetry; apply andb_true_iff; bool_to_Z; lia).
    lia. }
  split; [exact V |]. split; [exact Hyr |].
  unfold localMidnight. cbn [Civil.year Civil.month Civil.day].
  rewrite <- Ey. exact R.
Qed.

(** X19.  The date typed at the prompt, when it has three pieces between
    hyphens: if the pieces read as numbers that are a day of the calendar,
    in a year outside 0 to 99 and within the range of a Date, the target
    date is local midnight of that day and nothing is printed; in every
    other case - a piece that is not a number, a month or day that does
    not exist (2025-02-30), a two-digit year - the line "Ungültiges Datum
    eingegeben." is printed and the clock is used. *)
Theorem date_input_checked tza nowAtStart nowAtFallback dateInput p0 p1 p2 w :
  trim dateInput <> EmptyString ->
  splitOn "-" dateInput = [p0; p1; p2] ->
  (forall c, typedDate p0 p1 p2 = Some c -> DateAccepted tza c ->
     targetDateOfInput tza nowAtStart nowAtFallback dateInput w
       = (Normal (DateAt (localMidnight tza c)), w) /\
     civilOf tza (localMidnight tza c) = c) /\
  ((forall c, typedDate p0 p1 p2 = Some c -> ~ DateAccepted tza c) ->
     targetDateOfInput tza nowAtStart nowAtFallback dateInput w
       = (Normal nowAtFallback, logged w [invalidDateLine])).
Proof.
  intros Hne Hs.
  assert (Hb : negb (trim dateInput =? "")%string = true).
  { apply negb_true_iff. by apply String.eqb_neq. }
  split.
  - intros c Ht Ha. split; [| apply civilOf_midnight, Ha].
    destruct (dateMismatch_accepted tza p0 p1 p2 c Ht Ha) as [En Em].
    unfold targetDateOfInput. rewrite Hb, Hs. cbv zeta. rewrite En, Em. reflexivity.
  - intros Hr. pose proof (dateMismatch_rejected tza p0 p1 p2 Hr) as Em.
    unfold targetDateOfInput. rewrite Hb, Hs. cbv zeta. rewrite Em. reflexivity.
Qed.

Lemma date_input_checked_witness :
  trim "2025-05-22" <> EmptyString /\
  splitOn "-" "2025-05-22" = ["2025"; "05"; "22"] /\
  targetDateOfInput 0 (DateAt 0) (DateAt 0) "2025-05-22" initialWorld
  = (Normal (DateAt (localMidnight 0 (Civil.mkDate 2025 5 22))), initialWorld).
Proof.
  assert (T : trim "2025-05-22" <> EmptyString) by (vm_compute; discriminate).
  assert (S : splitOn "-" "2025-05-22" = ["2025"; "05"; "22"]) by reflexivity.
  assert (A : DateAccepted 0 (Civil.mkDate 2025 5 22)).
  { repeat split; vm_compute; try discriminate. intros [_ H]. by apply H. }
  split; [exact T |]. split; [exact S |].
  exact (proj1 (proj1 (date_input_checked 0 (DateAt 0) (DateAt 0) "2025-05-22"
                         "2025" "05" "22" initialWorld T S)
                  (Civil.mkDate 2025 5 22) eq_refl A)).
Defined.


(** *** Texts of digits *)

Lemma digit_byte a v : digitValue a = Some v -> (48 <= N_of_ascii a <= 57)%N.
Proof.
  unfold digitValue. intros H.
  destruct ((48 <=? Z.of_N (N_of_ascii a)) && (Z.of_N (N_of_ascii a) <=? 57)) eqn:E;
    [| discriminate].
  apply andb_true_iff in E as [E1 E2]. apply Z.leb_le in E1, E2. lia.
Qed.

Lemma digit_cases a v :
  digitValue a = Some v ->
  a ∈ ["0"; "1"; "2"; "3"; "4"; "5"; "6"; "7"; "8"; "9"]%char.
Proof.
  intros H. apply digit_byte in H.
  rewrite <- (ascii_N_embedding a).
  assert (In (N_of_ascii a) (map N.of_nat (seq 48 10))) as Hin.
  { apply in_map_iff. exists (N.to_nat (N_of_ascii a)). split; [lia |]. apply in_seq. lia. }
  cbn in Hin.
  repeat (destruct Hin as [<- | Hin];
          [cbn; repeat first [apply list_elem_of_here | apply list_elem_of_further] |]).
  done.
Qed.

Lemma digit_not_space a v : digitValue a = Some v -> isWhiteSpace a = false.
Proof.
  intros H. apply digit_byte in H. unfold isWhiteSpace.
  apply orb_false_iff. split; [apply andb_false_iff | apply Z.eqb_neq]; bool_to_Z; lia.
Qed.

Lemma jsTrimStart_keep a r :
  isWhiteSpace a = false -> (N_of_ascii a < 128)%N ->
  jsTrimStart (String a r) = String a r.
Proof.
  intros Hw Ha. cbn [jsTrimStart]. rewrite Hw.
  assert (F : forall n, (128 <= n)%N -> byteIs a n = false).
  { intros n Hn. unfold byteIs. apply N.eqb_neq. lia. }
  destruct r as [| b [| c r3]]; try reflexivity.
  - unfold isSpace2. by rewrite F by lia.
  - unfold isSpace2, isSpace3. rewrite !F by lia. reflexivity.
Qed.

Lemma trimStartReversed_keep a r :
  isWhiteSpace a = false -> (N_of_ascii a < 128)%N ->
  trimStartReversed (String a r) = String a r.
Proof.
  intros Hw Ha. cbn [trimStartReversed]. rewrite Hw.
  assert (F : forall n, (128 <= n)%N -> byteIs a n = false).
  { intros n Hn. unfold byteIs. apply N.eqb_neq. lia. }
  assert (G : (128 <=? N_of_ascii a)%N = false) by (apply N.leb_gt; lia).
  destruct r as [| b [| c r3]]; try reflexivity.
  - unfold isSpace2. by rewrite F, andb_false_r by lia.
  - unfold isSpace2, isSpace3. rewrite !F, G by lia.
    rewrite ?andb_false_r, ?andb_false_l, ?orb_false_r. reflexivity.
Qed.

Lemma revOnto_app s t acc : revOnto (s ++ t)%string acc = revOnto t (revOnto s acc).
Proof.
  revert acc. induction s as [| c s IH]; intros acc; [done |].
  rewrite append_cons. cbn [revOnto]. apply IH.
Qed.

Lemma revOnto_nonempty s acc : acc <> EmptyString -> revOnto s acc <> EmptyString.
Proof.
  revert acc. induction s as [| c s IH]; intros acc H; [done |].
  cbn [revOnto]. by apply IH.
Qed.

(** A text that starts and ends with a digit is not blank. *)
Lemma trim_digits a s b va vb :
  digitValue a = Some va -> digitValue b = Some vb ->
  trim (String a (s ++ String b EmptyString)) <> EmptyString.
Proof.
  intros Ha Hb. unfold trim.
  rewrite jsTrimStart_keep
    by (eauto using digit_not_space; apply digit_byte in Ha; lia).
  unfold jsTrimEnd, revString.
  change (String a (s ++ String b ""))%string with (String a s ++ String b "")%string.
  rewrite revOnto_app. cbn [revOnto].
  rewrite trimStartReversed_keep
    by (eauto using digit_not_space; apply digit_byte in Hb; lia).
  cbn [revOnto]. by apply revOnto_nonempty.
Qed.

Lemma digits_no_dash s : digitsOnly s = true -> occursIn "-" s = false.
Proof.
  induction s as [| c s IH]; [done |]. cbn [digitsOnly occursIn].
  destruct (digitValue c) as [v |] eqn:E; [| discriminate].
  intros H. rewrite (IH H), orb_false_r.
  apply Ascii.eqb_neq. intros ->. vm_compute in E. discriminate.
Qed.

Lemma splitOn_none c s : occursIn c s = false -> splitOn c s = [s].
Proof.
  induction s as [| x s IH]; [done |]. cbn [occursIn splitOn].
  intros H. apply orb_false_iff in H as [Hx Hs]. by rewrite Hx, IH.
Qed.

Lemma splitOn_sep c a r :
  occursIn c a = false -> splitOn c (a ++ String c r)%string = a :: splitOn c r.
Proof.
  induction a as [| x a IH]; intros H.
  - rewrite append_nil. cbn [splitOn]. by rewrite Ascii.eqb_refl.
  - cbn [occursIn] in H. apply orb_false_iff in H as [Hx Ha].
    rewrite append_cons. cbn [splitOn]. by rewrite Hx, IH.
Qed.

Lemma parseIntAuto_digits s :
  digitsOnly s = true -> s <> EmptyString ->
  parseIntAuto s = Num (digitsValue (takeDigits s)).
Proof.
  destruct s as [| a r]; [done |]. cbn [digitsOnly]. intros H _.
  destruct (digitValue a) as [v |] eqn:Ea; [| discriminate].
  unfold parseIntAuto.
  rewrite jsTrimStart_keep
    by (eauto using digit_not_space; apply digit_byte in Ea; lia).
  assert (Hx : match r with
               | String x _ => Ascii.eqb x "x" || Ascii.eqb x "X" = false
               | EmptyString => True
               end).
  { destruct r as [| x r']; [done |]. cbn [digitsOnly] in H.
    destruct (digitValue x) as [vx |] eqn:Ex; [| discriminate].
    apply orb_false_iff. split; apply Ascii.eqb_neq; intros ->; vm_compute in Ex;
      discriminate. }
  pose proof (digit_cases a v Ea) as Hin.
  repeat (apply elem_of_cons in Hin as [-> | Hin];
          [cbv beta iota zeta; cbn [takeDigits]; eval_digit; cbv beta iota;
           try (destruct r as [| x r']; [| rewrite Hx]);
           f_equal; apply Z.mul_1_l |]).
  by apply elem_of_nil in Hin.
Qed.

Lemma digitsOnly_uint d : digitsOnly (NilEmpty.string_of_uint d) = true.
Proof.
  induction d; cbn [NilEmpty.string_of_uint digitsOnly]; [reflexivity | ..];
    eval_digit; cbv beta iota; exact IHd.
Qed.

Lemma numeral_digits y :
  0 <= y ->
  digitsOnly (NumberToString (Num y)) = true /\
  (exists a v r, NumberToString (Num y) = String a r /\ digitValue a = Some v) /\
  digitsValue (takeDigits (NumberToString (Num y))) = y.
Proof.
  intros Hy. destruct (numeral_nonneg y Hy) as (d & Hd & -> & Hv).
  split; [apply digitsOnly_uint |]. split.
  - pose proof (digitsOnly_uint d) as H.
    destruct d; [done | ..]; cbn [NilEmpty.string_of_uint]; eexists _, _, _;
      (split; [reflexivity | vm_compute; reflexivity]).
  - pose proof (digits_uint d EmptyString) as H. rewrite append_nil_r in H.
    unfold digitsValue. rewrite H. cbn [takeDigits fold_left]. exact Hv.
Qed.

Lemma two_digits n :
  0 <= n <= 99 ->
  exists a b va vb,
    padStart (NumberToString (Num n)) 2 "0" = String a (String b EmptyString) /\
    digitValue a = Some va /\ digitValue b = Some vb /\
    digitsOnly (String a (String b EmptyString)) = true /\
    digitsValue (takeDigits (String a (String b EmptyString))) = n.
Proof.
  intros Hn. destruct (padStart_two n Hn) as (a & b & E & Ha & Hb).
  exists a, b, (n / 10), (n mod 10). repeat (split; [done |]). split.
  - cbn [digitsOnly]. by rewrite Ha, Hb.
  - cbn [takeDigits]. rewrite Ha, Hb. unfold digitsValue. cbn [takeDigits fold_left].
    Z.div_mod_to_equations; lia.
Qed.

(** The pieces of a date written as JJJJ-MM-TT, and what they read as. *)
Lemma dateText_parts c :
  Civil.valid c -> 0 <= Civil.year c ->
  trim (dateText c) <> EmptyString /\
  exists p0 p1 p2,
    splitOn "-" (dateText c) = [p0; p1; p2] /\ typedDate p0 p1 p2 = Some c.
Proof.
  destruct c as [y m d]. intros [Hm Hd] Hy. cbn [Civil.year Civil.month Civil.day] in *.
  assert (Hd99 : 0 <= d <= 99).
  { unfold Civil.daysInMonth in Hd. repeat case_match; lia. }
  destruct (numeral_digits y Hy) as (Dy & (a & va & r & Ey & Ea) & Vy).
  destruct (two_digits m ltac:(lia)) as (m1 & m2 & vm1 & vm2 & Em & Hm1 & Hm2 & Dm & Vm).
  destruct (two_digits d Hd99) as (d1 & d2 & vd1 & vd2 & Ed & Hd1 & Hd2 & Dd & Vd).
  unfold dateText. cbn [Civil.year Civil.month Civil.day]. rewrite Em, Ed.
  split.
  - rewrite Ey. rewrite append_cons.
    replace (r ++ "-" ++ String m1 (String m2 "") ++ "-" ++ String d1 (String d2 ""))%string
      with ((r ++ "-" ++ String m1 (String m2 "") ++ "-" ++ String d1 "")
              ++ String d2 "")%string.
    + by eapply trim_digits.
    + rewrite !append_assoc_s, !append_cons, !append_nil. reflexivity.
  - exists (NumberToString (Num y)), (String m1 (String m2 "")), (String d1 (String d2 "")).
    split.
    + replace (NumberToString y ++ "-" ++ String m1 (String m2 "") ++ "-"
                 ++ String d1 (String d2 ""))%string
        with (NumberToString y
                ++ String "-" (String m1 (String m2 "")
                                 ++ String "-" (String d1 (String d2 ""))))%string
        by reflexivity.
      rewrite splitOn_sep by (by apply digits_no_dash).
      rewrite splitOn_sep by (by apply digits_no_dash).
      rewrite splitOn_none by (by apply digits_no_dash). reflexivity.
    + unfold typedDate. rewrite !parseIntAuto_digits; try done.
      * by rewrite Vy, Vm, Vd.
      * by rewrite Ey.
Qed.


Lemma MY_SCHOOL_CONFIG_valid : invalidConfig MY_SCHOOL_CONFIG = Normal false.
Proof. reflexivity. Qed.

Lemma MY_SCHOOL_CONFIG_sendable : Sendable MY_SCHOOL_CONFIG.
Proof. split; reflexivity. Qed.

Lemma runInteractive_closed host nowAtStart nowAtFallback classInput dateInput w d notice :
  targetDateOfInput (LocalTZA host) nowAtStart nowAtFallback dateInput
    (logged w interactiveIntro) = (Normal d, logged (logged w interactiveIntro) notice) ->
  runInteractiveTimetableQuery host nowAtStart nowAtFallback classInput dateInput w
  = (Normal tt,
     snd (getWebUntisTimetable host MY_SCHOOL_CONFIG
            (mkOptions (Some d) None None (Some (filterGroupsOfInput classInput)))
            (logged w (interactiveIntro ++ notice)))).
Proof.
  intros Ht. unfold runInteractiveTimetableQuery.
  rewrite bind_console_log, bind_console_log. cbv zeta.
  unfold mbind at 1, M_bind at 1.
  match goal with
  | |- context [targetDateOfInput _ _ _ _ ?w0] =>
      replace w0 with (logged w interactiveIntro)
        by (unfold logged, interactiveIntro; cbn [moduleTemplate console requests];
            by rewrite <- app_assoc)
  end.
  rewrite Ht, logged_logged.
  destruct (getWebUntisTimetable_returns host MY_SCHOOL_CONFIG
              (mkOptions (Some d) None None (Some (filterGroupsOfInput classInput)))
              (logged w (interactiveIntro ++ notice))
              (or_intror MY_SCHOOL_CONFIG_sendable)) as [v Hv].
  unfold mbind, M_bind.
  destruct (getWebUntisTimetable _ _ _ _) as [c w']. cbn [fst snd] in *.
  by rewrite Hv.
Qed.


(** X21.  A date typed as the prompt asks for it is the date requested:
    for a day of the calendar in a year from 100 on, written JJJJ-MM-TT,
    the run sends one request whose [date] is the code of that day, with
    [dateOffset] 0 and [numberOfDays] 1. *)
Theorem typed_date_is_requested host nowAtStart nowAtFallback classInput c w :
  Civil.valid c ->
  100 <= Civil.year c ->
  Z.abs (localMidnight (LocalTZA host) c) <= maxTime ->
  exists req,
    requests (snd (runInteractiveTimetableQuery host nowAtStart nowAtFallback
                     classInput (dateText c) w)) = requests w ++ [req] /\
    body req !! "date" = Some (VNum (Num (Civil.encode c))) /\
    body req !! "dateOffset" = Some (VNum (Num 0)) /\
    body req !! "numberOfDays" = Some (VNum (Num 1)).
Proof.
  intros V Hy Hr.
  destruct (dateText_parts c V ltac:(lia)) as (Hne & p0 & p1 & p2 & Hs & Ht).
  assert (Ha : DateAccepted (LocalTZA host) c) by (repeat split; try apply V; lia).
  destruct (dateMismatch_accepted (LocalTZA host) p0 p1 p2 c Ht Ha) as [En Em].
  assert (Htd : forall w0,
             targetDateOfInput (LocalTZA host) nowAtStart nowAtFallback (dateText c) w0
             = (Normal (DateAt (localMidnight (LocalTZA host) c)), logged w0 [])).
  { intros w0. unfold targetDateOfInput.
    replace (negb (trim (dateText c) =? "")%string) with true
      by (symmetry; apply negb_true_iff; by apply String.eqb_neq).
    rewrite Hs. cbv zeta. rewrite En, Em, logged_nil. reflexivity. }
  rewrite (runInteractive_closed _ _ _ _ _ _ _ _ (Htd _)).
  cbn [snd]. rewrite getWebUntisTimetable_requests by apply MY_SCHOOL_CONFIG_valid.
  eexists. split; [reflexivity |].
  unfold requestFor, buildPayload. cbn [body].
  split; [| split; [by rewrite lookup_insert_ne, lookup_insert_eq
                   | by rewrite lookup_insert_eq]].
  rewrite lookup_insert_ne, lookup_insert_ne, lookup_insert_eq by done.
  unfold queryDateFor, dateOffsetOf.
  cbn [opt_targetDate opt_dateOffset default from_option id].
  rewrite queryDateOf_clip. unfold TimeClip.
  replace (localMidnight (LocalTZA host) c + 0 * msPerDay)
    with (localMidnight (LocalTZA host) c) by lia.
  apply Z.leb_le in Hr. rewrite Hr.
  rewrite getUntisDate_encode; rewrite civilOf_midnight by done; [done | lia].
Qed.

Lemma typed_date_is_requested_witness :
  Civil.valid (Civil.mkDate 2025 5 22) /\
  100 <= Civil.year (Civil.mkDate 2025 5 22) /\
  Z.abs (localMidnight (LocalTZA (sampleHost (Rejected (JsError "down"))))
                       (Civil.mkDate 2025 5 22)) <= maxTime /\
  exists req,
    requests (snd (runInteractiveTimetableQuery (sampleHost (Rejected (JsError "down")))
                     (DateAt 0) (DateAt 0) "11a" (dateText (Civil.mkDate 2025 5 22))
                     initialWorld)) = [req] /\
    body req !! "date" = Some (VNum (Num 20250522)).
Proof.
  assert (V : Civil.valid (Civil.mkDate 2025 5 22)).
  { repeat split; vm_compute; discriminate. }
  assert (Y : 100 <= Civil.year (Civil.mkDate 2025 5 22)) by (vm_compute; discriminate).
  assert (R : Z.abs (localMidnight (LocalTZA (sampleHost (Rejected (JsError "down"))))
                                   (Civil.mkDate 2025 5 22)) <= maxTime)
    by (vm_compute; discriminate).
  split; [exact V |]. split; [exact Y |]. split; [exact R |].
  destruct (typed_date_is_requested (sampleHost (Rejected (JsError "down")))
              (DateAt 0) (DateAt 0) "11a" (Civil.mkDate 2025 5 22) initialWorld V Y R)
    as (req & Hreq & Hd & _).
  exists req. split; [exact Hreq | exact Hd].
Defined.


(** ** The draft *)

Lemma Legacy_valid host opts w :
  Legacy.getWebUntisTimetable host opts w
  = let req := Legacy.requestFor host (moduleTemplate w) opts in
    try_catch (Legacy.tryBlock host (url req) (body req) (opt_filterGroups opts))
              (catchBlock host)
              (mkWorld (moduleTemplate w)
                       (console w ++ Legacy.announcement host (moduleTemplate w) opts)
                       (requests w)).
Proof.
  unfold Legacy.getWebUntisTimetable. cbv zeta.
  unfold readTemplate. unfold mbind at 1. unfold M_bind at 1.
  rewrite (getprop_field (VObj _)) by done. rewrite bind_lift_normal.
  rewrite bind_console_log. rewrite bind_console_log.
  destruct opts as [td off nd fg].
  cbn [opt_filterGroups opt_targetDate opt_dateOffset opt_numberOfDays].
  unfold Legacy.announcement, Legacy.requestFor, queryDateFor, dateOffsetOf, numberOfDaysOf.
  cbn [opt_filterGroups opt_targetDate opt_dateOffset opt_numberOfDays url body
       moduleTemplate console requests].
  destruct fg as [[| g gs] |]; rewrite !bind_console_log;
  cbn [moduleTemplate console requests]; rewrite <- !app_assoc; reflexivity.
Qed.

Lemma Legacy_run host opts w :
  Legacy.getWebUntisTimetable host opts w
  = match fetch host (Legacy.requestFor host (moduleTemplate w) opts) with
    | Rejected e =>
        (Normal VNull, logged (Legacy.requested host opts w) (caughtEntries host e))
    | Responded r =>
        match handleResponse r (opt_filterGroups opts) (Legacy.requested host opts w) with
        | (Throw e, w') => (Normal VNull, logged w' (caughtEntries host e))
        | (Normal p, w') =>
            match renderTimetableConsole p (opt_filterGroups opts) w' with
            | (Throw e, w'') => (Normal VNull, logged w'' (caughtEntries host e))
            | (Normal _, w'') => (Normal p, w'')
            end
        end
    end.
Proof.
  rewrite Legacy_valid. cbv zeta. unfold try_catch, Legacy.tryBlock.
  unfold mbind at 1, M_bind at 1, await_fetch. cbv zeta.
  cbn [moduleTemplate console requests].
  change (mkRequest _ _ _ _) with (Legacy.requestFor host (moduleTemplate w) opts).
  change (mkWorld _ _ _) with (Legacy.requested host opts w).
  destruct (fetch host _) as [e | r]; [apply catchBlock_closed |].
  unfold mbind at 1, M_bind at 1.
  destruct (handleResponse _ _ _) as [[p | e] w']; [| apply catchBlock_closed].
  unfold mbind, M_bind.
  destruct (renderTimetableConsole _ _ _) as [[[] | e] w'']; [done | apply catchBlock_closed].
Qed.

(** X22.  In the draft ([src/index.mjs]) the two names are swapped: the
    value written for [FormatName] at line 13 is sent as [schoolName] and
    as the [school] parameter of the URL, the value written for
    [SchoolName] at line 14 is sent as [formatName]; the department ids
    are 2, 1, 3.  When the value written for [FormatName] can be put into
    the URL - it converts to text and that text is well-formed, as
    [encodeURIComponent] at line 90, before the [try], requires - every
    call sends exactly one request. *)
Theorem draft_identity_swapped host opts w SchoolName FormatName :
  moduleTemplate w = Legacy.BASE_PAYLOAD_STRUCTURE SchoolName FormatName ->
  urlSafe FormatName ->
  exists req,
    requests (snd (Legacy.getWebUntisTimetable host opts w)) = requests w ++ [req] /\
    url req = ("https://nessa.webuntis.com/WebUntis/monitor/substitution/data?school="
                 ++ encodeURIComponent (ToString FormatName))%string /\
    body req !! "schoolName" = Some FormatName /\
    body req !! "formatName" = Some SchoolName /\
    body req !! "departmentIds" = Some (VArr [VNum 2; VNum 1; VNum 3]).
Proof.
  intros Hw _. exists (Legacy.requestFor host (moduleTemplate w) opts). split.
  - rewrite Legacy_run. destruct (fetch host _) as [e | r]; [reflexivity |].
    destruct (handleResponse_outcome r (opt_filterGroups opts)
                (Legacy.requested host opts w)) as (es & Hes & _).
    destruct (handleResponse _ _ _) as [[p | e] w']; cbn [snd] in Hes; subst w';
      [| reflexivity].
    destruct (render_emits p (opt_filterGroups opts)
                (logged (Legacy.requested host opts w) es)) as (es' & Hes' & _).
    destruct (renderTimetableConsole _ _ _) as [[[] | e] w'']; cbn [snd] in Hes'; subst w'';
      reflexivity.
  - unfold Legacy.requestFor, Legacy.buildPayload. cbn [url body]. rewrite Hw.
    repeat split; try reflexivity.
Qed.

Lemma draft_identity_swapped_witness :
  moduleTemplate (Legacy.loadedWorld (VStr "Gymnasium am Markt") (VStr "GamMa_SuS_2d_Monitor"))
    = Legacy.BASE_PAYLOAD_STRUCTURE (VStr "Gymnasium am Markt")
                                    (VStr "GamMa_SuS_2d_Monitor") /\
  urlSafe (VStr "GamMa_SuS_2d_Monitor") /\
  exists req,
    requests (snd (Legacy.getWebUntisTimetable (sampleHost (Rejected (JsError "down")))
                     noOptions
                     (Legacy.loadedWorld (VStr "Gymnasium am Markt")
                                         (VStr "GamMa_SuS_2d_Monitor")))) = [req] /\
    url req = "https://nessa.webuntis.com/WebUntis/monitor/substitution/data?school=GamMa_SuS_2d_Monitor"%string /\
    body req !! "schoolName" = Some (VStr "GamMa_SuS_2d_Monitor") /\
    body req !! "formatName" = Some (VStr "Gymnasium am Markt").
Proof.
  split; [reflexivity |]. split; [split; reflexivity |].
  destruct (draft_identity_swapped (sampleHost (Rejected (JsError "down"))) noOptions
              (Legacy.loadedWorld (VStr "Gymnasium am Markt")
                                  (VStr "GamMa_SuS_2d_Monitor"))
              (VStr "Gymnasium am Markt") (VStr "GamMa_SuS_2d_Monitor") eq_refl
              (conj eq_refl eq_refl))
    as (req & Hreq & Hu & Hs & Hf & _).
  exists req. split; [exact Hreq |]. split; [exact Hu |]. split; [exact Hs | exact Hf].
Defined.







